(** * CORD-19 metadata explorer: cleaning and aggregation pipeline

    A shallow embedding of [cord19_analysis.py] and [streamlit_app.py].
    The two programs are thin layers over pandas, [re] and
    [collections.Counter]; the parts of those libraries that the programs
    call are modelled first (modules [Py] and [Pd]), then the programs
    themselves (modules [cord19_analysis] and [streamlit_app]), the data of
    the scenarios ([Scenario]) and the vocabulary of the statements
    ([Spec]), then the properties.

    Conventions of the model:
    - a text is held in UTF-8 ([string], a list of bytes); a character is
      an ASCII byte, or a lead byte with its continuation bytes.  The
      classes of the ASCII characters and the white space of Unicode are
      written out; whether a character beyond ASCII is alphanumeric, and
      what its lowercase is, is read from Python's Unicode database, a
      parameter of the model;
    - a cell of a data frame is missing ([NA], covering NaN, None and NaT),
      a text, a number or a timestamp; integers and integer-valued floats
      are both [Num];
    - a data frame is the ordered list of its labelled columns; labels are
      unique in a frame read by [read_csv], which renames duplicates;
    - exceptions are explicit: a computation returns a value or raises;
    - what pandas leaves open, or does differently from one version to the
      next, is a parameter: the parser of dates, the order of equal counts
      in [value_counts], the outcome of [to_datetime] on different UTC
      offsets, the dtype of a column without rows;
    - of the chart calls, what reaches the control flow is kept: [plt.pie]
      and [px.bar] refuse data without entry.  Rendering, printing and the
      files written are left out. *)

From Stdlib Require Import List String Ascii ZArith Bool Arith Lia.
From Stdlib Require Import Sorted Permutation DecimalString.
Import ListNotations.
Open Scope string_scope.
Open Scope nat_scope.
Open Scope list_scope.

(* ================================================================== *)
(** * Python builtins, [re] and [collections] *)
(* ================================================================== *)

Module Py.

(** The exception classes the programs can meet. *)
Inductive exn : Set :=
| AttributeError
| KeyError
| TypeError
| ValueError.

(** Outcome of a call: a returned value or a raised exception. *)
Inductive result (A : Type) : Type :=
| Returned (a : A)
| Raised (e : exn).

Arguments Returned {A} a.
Arguments Raised {A} e.

Definition bind {A B : Type} (m : result A) (k : A -> result B) : result B :=
  match m with
  | Returned a => k a
  | Raised e => Raised e
  end.

Notation "x <- m ;; k" := (bind m (fun x => k))
  (at level 61, m at next level, right associativity).

(** Monadic map, for element-wise operations that may raise. *)
Fixpoint mapM {A B : Type} (f : A -> result B) (l : list A) : result (list B) :=
  match l with
  | [] => Returned []
  | x :: xs => y <- f x ;; ys <- mapM f xs ;; Returned (y :: ys)
  end.

(** ** Bytes and characters *)

Definition in_range (lo hi : nat) (b : ascii) : bool :=
  (lo <=? nat_of_ascii b) && (nat_of_ascii b <=? hi).

Definition is_ascii (b : ascii) : bool := nat_of_ascii b <? 128.

(** The bytes [10xxxxxx], which continue a character of several bytes. *)
Definition is_continuation (b : ascii) : bool := in_range 128 191 b.

(** A character of a text: its bytes in UTF-8. *)
Definition char : Set := list ascii.

(** The characters of a text: a byte beyond ASCII takes the continuation
    bytes that follow it, every other byte stands alone. *)
Fixpoint chars (s : list ascii) : list char :=
  match s with
  | [] => []
  | b :: s' =>
      match chars s' with
      | (c :: w) :: rest =>
          if negb (is_ascii b) && is_continuation c then (b :: c :: w) :: rest
          else [b] :: (c :: w) :: rest
      | rest => [b] :: rest
      end
  end.

(** The text made of a list of characters. *)
Definition text_of (run : list char) : string :=
  string_of_list_ascii (List.concat run).

Definition ascii_char (c : char) : option ascii :=
  match c with
  | [b] => if is_ascii b then Some b else None
  | _ => None
  end.

Definition codes (c : char) : list nat := map nat_of_ascii c.

(** [str.isspace], the white space at which [str.split] cuts: TAB, LF, VT,
    FF, CR, the separators FS..US and the space of ASCII; beyond ASCII
    U+0085, U+00A0, U+1680, U+2000..U+200A, U+2028, U+2029, U+202F, U+205F
    and U+3000. *)
Definition isspace (c : char) : bool :=
  match codes c with
  | [b] => (9 <=? b) && (b <=? 13) || (28 <=? b) && (b <=? 32)
  | [b1; b2] => (b1 =? 194) && ((b2 =? 133) || (b2 =? 160))
  | [b1; b2; b3] =>
      (b1 =? 225) && (b2 =? 154) && (b3 =? 128)
      || (b1 =? 226) && (b2 =? 128)
         && ((128 <=? b3) && (b3 <=? 138)
             || (b3 =? 168) || (b3 =? 169) || (b3 =? 175))
      || (b1 =? 226) && (b2 =? 129) && (b3 =? 159)
      || (b1 =? 227) && (b2 =? 128) && (b3 =? 128)
  | _ => false
  end.

Definition isupper (b : ascii) : bool := in_range 65 90 b.

(** The class [[a-zA-Z]], of ASCII letters only. *)
Definition isalpha (b : ascii) : bool := in_range 65 90 b || in_range 97 122 b.

Definition letter (c : char) : bool :=
  match c with
  | [b] => isalpha b
  | _ => false
  end.

(** The ASCII part of the class [\w]: letters, digits and the underscore. *)
Definition ascii_word (b : ascii) : bool :=
  isalpha b || in_range 48 57 b || in_range 95 95 b.

Definition lower_byte (b : ascii) : ascii :=
  if isupper b then ascii_of_nat (nat_of_ascii b + 32) else b.

(** ** Splitting into fields *)

Section Fields.
Context {A : Type}.

Definition emit (cur : list A) : list (list A) :=
  match cur with
  | [] => []
  | _ :: _ => [cur]
  end.

(** The maximal non-empty runs of non-separators of [s], left to right;
    [cur] is the run being read. *)
Fixpoint fields (sep : A -> bool) (s cur : list A) : list (list A) :=
  match s with
  | [] => emit cur
  | c :: s' =>
      if sep c then emit cur ++ fields sep s' []
      else fields sep s' (cur ++ [c])
  end.
End Fields.

(** [s.split()]: the whitespace-separated tokens of [s]. *)
Definition split (s : string) : list string :=
  map text_of (fields isspace (chars (list_ascii_of_string s)) []).

(** [s.strip()]: [s] without the white space at its ends. *)
Fixpoint lstrip (l : list char) : list char :=
  match l with
  | [] => []
  | c :: l' => if isspace c then lstrip l' else l
  end.

Definition strip (s : string) : string :=
  text_of (rev (lstrip (rev (lstrip (chars (list_ascii_of_string s)))))).

(** [sep.join(l)] *)
Definition join (sep : string) (l : list string) : string := String.concat sep l.

Section Unicode.
(** Python's Unicode database on a character beyond ASCII: whether it is
    alphanumeric ([str.isalnum]), and its lowercase in UTF-8.  (The
    lowercase of the Greek capital sigma depends on its place in the word;
    both forms are letters beyond ASCII.) *)
Variable unicode_alnum : char -> bool.
Variable unicode_lower : char -> list ascii.

(** The class [\w] of a pattern on [str]: the alphanumeric characters and
    the underscore. *)
Definition isword (c : char) : bool :=
  match ascii_char c with
  | Some b => ascii_word b
  | None => unicode_alnum c
  end.

Definition lower_char (c : char) : list ascii :=
  match ascii_char c with
  | Some b => [lower_byte b]
  | None => unicode_lower c
  end.

(** [s.lower()] *)
Definition lower (s : string) : string :=
  string_of_list_ascii (flat_map lower_char (chars (list_ascii_of_string s))).

(** [re.findall(r'\b[a-zA-Z]{3,}\b', s)].  A match must start and end at a
    word boundary, that is at a change between [\w] and non-[\w] (or at an
    end of the text).  The letters of the class are inside [\w], so a match
    is a whole [\w]-run; it must consist of ASCII letters only and have at
    least three of them.  Matches are found left to right and do not
    overlap. *)
Definition is_match (w : list char) : bool :=
  forallb letter w && (3 <=? List.length w).

Definition findall_words (s : string) : list string :=
  map text_of
    (filter is_match
       (fields (fun c => negb (isword c)) (chars (list_ascii_of_string s)) [])).
End Unicode.

(** ** [collections.Counter] *)

Section Counter.
Context {A : Type} (eqb : A -> A -> bool).

(** [self[k] = self.get(k, 0) + 1] on an insertion-ordered dict. *)
Fixpoint incr (k : A) (tbl : list (A * nat)) : list (A * nat) :=
  match tbl with
  | [] => [(k, 1)]
  | (k', c) :: t => if eqb k k' then (k', S c) :: t else (k', c) :: incr k t
  end.

(** [Counter(iterable)] *)
Definition Counter (l : list A) : list (A * nat) :=
  fold_left (fun tbl k => incr k tbl) l [].

(** Stable sort by decreasing count: an entry is placed before the first
    entry whose count is not larger, so entries of equal count keep their
    order. *)
Fixpoint insert_desc (e : A * nat) (l : list (A * nat)) : list (A * nat) :=
  match l with
  | [] => [e]
  | y :: ys => if snd y <=? snd e then e :: y :: ys else y :: insert_desc e ys
  end.

Definition sort_desc (l : list (A * nat)) : list (A * nat) :=
  fold_right insert_desc [] l.

(** [counter.most_common(n)], which is
    [sorted(items, key=count, reverse=True)[:n]]; empty for [n <= 0]. *)
Definition most_common (n : Z) (tbl : list (A * nat)) : list (A * nat) :=
  firstn (Z.to_nat n) (sort_desc tbl).
End Counter.

(** [words, counts = zip( *pairs )]: unpacking the transposition of a list of
    pairs into two names.  A non-empty list of pairs transposes into exactly
    two tuples; the empty list transposes into nothing, and the unpacking
    raises [ValueError]. *)
Definition unzip2 {A B : Type} (l : list (A * B)) : result (list A * list B) :=
  match l with
  | [] => Raised ValueError
  | _ :: _ => Returned (map fst l, map snd l)
  end.

End Py.

Import Py.

(* ================================================================== *)
(** * The pandas operations used by the programs *)
(* ================================================================== *)

Module Pd.

(** A calendar date with the offset from UTC, in minutes, of a timestamp
    that carries one; the time of day plays no role in the programs. *)
Record Timestamp : Set := mkTimestamp {
  ts_year : Z;
  ts_month : Z;
  ts_day : Z;
  ts_offset : option Z
}.

(** A cell. *)
Inductive value : Set :=
| NA
| Str (s : string)
| Num (z : Z)
| Date (t : Timestamp).

Definition offset_eqb (a b : option Z) : bool :=
  match a, b with
  | None, None => true
  | Some x, Some y => (x =? y)%Z
  | _, _ => false
  end.

Definition Timestamp_eqb (a b : Timestamp) : bool :=
  (ts_year a =? ts_year b)%Z && (ts_month a =? ts_month b)%Z
  && (ts_day a =? ts_day b)%Z && offset_eqb (ts_offset a) (ts_offset b).

Definition value_eqb (a b : value) : bool :=
  match a, b with
  | NA, NA => true
  | Str x, Str y => String.eqb x y
  | Num x, Num y => (x =? y)%Z
  | Date x, Date y => Timestamp_eqb x y
  | _, _ => false
  end.

Definition Series : Set := list value.

(** Columns in order, each with its label. *)
Definition DataFrame : Set := list (string * Series).

(** A key-to-count table such as [value_counts] returns: a Series of counts
    indexed by the counted values. *)
Definition Counts : Set := list (value * nat).

Definition isna (v : value) : bool :=
  match v with
  | NA => true
  | _ => false
  end.

Definition notna (v : value) : bool := negb (isna v).

(** [df.columns] *)
Definition columns (df : DataFrame) : list string := map fst df.

(** [c in df.columns] *)
Definition has_column (c : string) (df : DataFrame) : bool :=
  existsb (String.eqb c) (columns df).

(** [df[c]] *)
Fixpoint getitem (c : string) (df : DataFrame) : result Series :=
  match df with
  | [] => Raised KeyError
  | (c', s) :: rest => if String.eqb c c' then Returned s else getitem c rest
  end.

(** [df[c] = s]: replaces the column in place, or appends a new last column. *)
Fixpoint setitem (c : string) (s : Series) (df : DataFrame) : DataFrame :=
  match df with
  | [] => [(c, s)]
  | (c', s') :: rest =>
      if String.eqb c c' then (c', s) :: rest else (c', s') :: setitem c s rest
  end.

(** Boolean indexing of one column: the entries at the positions where the
    mask is true. *)
Fixpoint select {A : Type} (mask : list bool) (s : list A) : list A :=
  match mask, s with
  | b :: m, v :: s' => if b then v :: select m s' else select m s'
  | _, _ => []
  end.

(** [df[mask]]: the rows at the positions where the mask is true. *)
Definition loc (mask : list bool) (df : DataFrame) : DataFrame :=
  map (fun cs => (fst cs, select mask (snd cs))) df.

(** [df.dropna(subset=[c])] *)
Definition dropna_subset (c : string) (df : DataFrame) : result DataFrame :=
  s <- getitem c df ;;
  Returned (loc (map notna s) df).

(** [s.fillna(fill)] *)
Definition fillna (fill : value) (s : Series) : Series :=
  map (fun v => if isna v then fill else v) s.

(** ** Dates *)

(** The UTC offsets of the timestamps of a Series. *)
Definition offsets (s : Series) : list (option Z) :=
  flat_map (fun v => match v with
                     | Date t => [ts_offset t]
                     | _ => []
                     end) s.

(** One offset for all timestamps, or none: what a datetime column can
    hold. *)
Definition one_offset (s : Series) : bool :=
  match offsets s with
  | [] => true
  | o :: os => forallb (offset_eqb o) os
  end.

Section ToDatetime.
(** The two scalar conversions that [pd.to_datetime] applies to the values
    of the column: a text is parsed, a number is read as an offset from the
    epoch.  [None] stands for a value that cannot be converted.  The parser
    is the one of the column at hand: since pandas 2 the format is inferred
    from the first text of the column, and a text in another format cannot
    be converted. *)
Variable parse_datetime : string -> option Timestamp.
Variable epoch_datetime : Z -> option Timestamp.

(** Timestamps of different UTC offsets do not fit into one datetime
    column: pandas 3 raises [ValueError], [errors='coerce'] or not, where
    pandas 2 returns them as a column of objects. *)
Variable strict_offsets : bool.

Definition to_datetime_scalar (v : value) : value :=
  match v with
  | NA => NA
  | Date t => Date t
  | Str s =>
      match parse_datetime s with
      | Some t => Date t
      | None => NA
      end
  | Num z =>
      match epoch_datetime z with
      | Some t => Date t
      | None => NA
      end
  end.

(** [pd.to_datetime(s, errors='coerce')]: a value that cannot be converted
    becomes missing (NaT). *)
Definition to_datetime (s : Series) : result Series :=
  let converted := map to_datetime_scalar s in
  if one_offset converted || negb strict_offsets then Returned converted
  else Raised ValueError.
End ToDatetime.

Definition is_datetimelike (v : value) : bool :=
  match v with
  | NA | Date _ => true
  | _ => false
  end.

Definition year_of (v : value) : value :=
  match v with
  | Date t => Num (ts_year t)
  | _ => NA
  end.

(** [s.dt.year]; the [.dt] accessor is refused on a Series that is no
    datetime column: one that holds other values than timestamps, or
    timestamps of different UTC offsets. *)
Definition dt_year (s : Series) : result Series :=
  if forallb is_datetimelike s && one_offset s then Returned (map year_of s)
  else Raised AttributeError.

(** ** Text *)

Definition is_num (v : value) : bool :=
  match v with
  | Num _ => true
  | _ => false
  end.

Definition is_date (v : value) : bool :=
  match v with
  | Date _ => true
  | _ => false
  end.

Section StrAccessor.
(** The dtype of a Series without any value that is present is not shown by
    its cells: [object] for a column read from a file without rows, and for
    texts whose rows were all dropped; a numeric dtype for numbers and for
    blanks whose rows were all dropped. *)
Variable empty_as_object : bool.

(** The [.str] accessor is refused ("Can only use .str accessor with string
    values") on a Series of numbers or of timestamps: when the values that
    are present are all numbers or all timestamps, and for a Series without
    such value when its dtype is not [object].  It is accepted on texts and
    on mixed values. *)
Definition str_accessor (s : Series) : result Series :=
  match filter notna s with
  | [] => if empty_as_object then Returned s else Raised AttributeError
  | present =>
      if forallb is_num present || forallb is_date present
      then Raised AttributeError
      else Returned s
  end.

(** [s.str.split()]: the token list of a text, missing for any other value. *)
Definition str_split (s : Series) : result (list (option (list string))) :=
  s' <- str_accessor s ;;
  Returned (map (fun v => match v with
                          | Str x => Some (split x)
                          | _ => None
                          end) s').
End StrAccessor.

(** [s.str.len()] on the Series of token lists that [str.split] returned. *)
Definition str_len (s : list (option (list string))) : Series :=
  map (fun o => match o with
                | Some l => Num (Z.of_nat (List.length l))
                | None => NA
                end) s.

Section AsType.
(** Python's [str()] of a scalar that is not a text (a number, a
    timestamp, NaN). *)
Variable str_of_scalar : value -> string.

(** [s.astype(str)] *)
Definition astype_str (s : Series) : list string :=
  map (fun v => match v with
                | Str x => x
                | _ => str_of_scalar v
                end) s.
End AsType.

(** ** Counting and ordering *)

Section ValueCounts.
(** The sort of [value_counts] is by count only, and by default it is not a
    stable one: the order in which it leaves two values of equal count is
    not fixed by the interface of pandas.  [ties a b] tells whether [a] is
    put before [b] when their counts are equal. *)
Variable ties : value -> value -> bool.

Fixpoint insert_count (e : value * nat) (l : Counts) : Counts :=
  match l with
  | [] => [e]
  | y :: ys =>
      if (snd y <? snd e) || (snd y =? snd e) && ties (fst e) (fst y)
      then e :: y :: ys
      else y :: insert_count e ys
  end.

(** [counts.sort_values(ascending=False)] *)
Definition sort_values (l : Counts) : Counts := fold_right insert_count [] l.

(** [s.value_counts()]: the values that are present with their numbers of
    occurrences, by decreasing count. *)
Definition value_counts (s : Series) : Counts :=
  sort_values (Counter value_eqb (filter notna s)).
End ValueCounts.

Definition kind (v : value) : nat :=
  match v with
  | NA => 0
  | Str _ => 1
  | Num _ => 2
  | Date _ => 3
  end.

Definition Timestamp_leb (a b : Timestamp) : bool :=
  (ts_year a <? ts_year b)%Z
  || (ts_year a =? ts_year b)%Z
     && ((ts_month a <? ts_month b)%Z
         || (ts_month a =? ts_month b)%Z && (ts_day a <=? ts_day b)%Z).

(** Order of two labels of the same kind. *)
Definition value_leb (a b : value) : bool :=
  match a, b with
  | Num x, Num y => (x <=? y)%Z
  | Str x, Str y => String.leb x y
  | Date x, Date y => Timestamp_leb x y
  | _, _ => true
  end.

Definition same_kind (keys : list value) : bool :=
  match keys with
  | [] => true
  | k :: ks => forallb (fun k' => kind k' =? kind k) ks
  end.

Fixpoint insert_key (e : value * nat) (l : Counts) : Counts :=
  match l with
  | [] => [e]
  | y :: ys =>
      if value_leb (fst e) (fst y) then e :: y :: ys else y :: insert_key e ys
  end.

(** [s.sort_index()]: by ascending label; labels of different kinds cannot
    be compared. *)
Definition sort_index (l : Counts) : result Counts :=
  if same_kind (map fst l) then Returned (fold_right insert_key [] l)
  else Raised TypeError.

(** [s.head(n)]: the first [n] entries, or all but the last [-n] for a
    negative [n]. *)
Definition head {A : Type} (n : Z) (l : list A) : list A :=
  if (0 <=? n)%Z then firstn (Z.to_nat n) l
  else firstn (List.length l - Z.to_nat (- n)) l.

(** ** Comparisons with a number *)

(** [v >= k] and [v <= k] inside a Series comparison: false for a missing
    value, an error for a text or a timestamp. *)
Definition ge_scalar (k : Z) (v : value) : result bool :=
  match v with
  | NA => Returned false
  | Num y => Returned (k <=? y)%Z
  | _ => Raised TypeError
  end.

Definition le_scalar (k : Z) (v : value) : result bool :=
  match v with
  | NA => Returned false
  | Num y => Returned (y <=? k)%Z
  | _ => Raised TypeError
  end.

(** [s >= k], [s <= k] *)
Definition series_ge (s : Series) (k : Z) : result (list bool) := mapM (ge_scalar k) s.
Definition series_le (s : Series) (k : Z) : result (list bool) := mapM (le_scalar k) s.

(** [m1 & m2] *)
Definition mask_and (m1 m2 : list bool) : list bool :=
  map (fun p => fst p && snd p) (combine m1 m2).

(** ** Export *)

(** [len(df)] *)
Definition nrows (df : DataFrame) : nat :=
  match df with
  | [] => 0
  | (_, s) :: _ => List.length s
  end.

(** [df.empty]: no column or no row. *)
Definition empty (df : DataFrame) : bool :=
  (List.length (columns df) =? 0) || (nrows df =? 0).

(** [df.iloc[i]] as the list of the row's cells in column order. *)
Definition row (i : nat) (df : DataFrame) : list value :=
  map (fun cs => nth i (snd cs) NA) df.

(** Delimited text: a header line and one record per row. *)
Record csv : Set := mkCsv { header : list string; records : list (list value) }.

(** The rows of a frame, first to last. *)
Definition rows (df : DataFrame) : list (list value) :=
  map (fun i => row i df) (seq 0 (nrows df)).

(** [df.to_csv(index=False)] *)
Definition to_csv (df : DataFrame) : csv :=
  {| header := columns df; records := rows df |}.

End Pd.

Import Pd.

(* ================================================================== *)
(** * The chart calls *)
(* ================================================================== *)

Module Charts.

(** [plt.pie(counts.values, labels=counts.index, ...)]: [ValueError] on
    data without entry. *)
Definition plt_pie (counts : Counts) : result unit :=
  match counts with
  | [] => Raised ValueError
  | _ :: _ => Returned tt
  end.

(** [px.bar(x=..., y=..., ...)] on the labels and the values of a counting
    table: [ValueError] on data without entry. *)
Definition px_bar (counts : Counts) : result unit :=
  match counts with
  | [] => Raised ValueError
  | _ :: _ => Returned tt
  end.

End Charts.

Import Charts.

(* ================================================================== *)
(** * cord19_analysis.py *)
(* ================================================================== *)

Module cord19_analysis.

(** The object state of a [CORD19Analyzer]; [None] is Python's [None]. *)
Record CORD19Analyzer : Set := mkAnalyzer {
  data_path : string;
  df : option DataFrame;
  cleaned_df : option DataFrame
}.

(** [CORD19Analyzer(data_path)] *)
Definition init (path : string) : CORD19Analyzer :=
  {| data_path := path; df := None; cleaned_df := None |}.

(** Using an attribute of a frame that is still [None]. *)
Definition frame (o : option DataFrame) : result DataFrame :=
  match o with
  | Some d => Returned d
  | None => Raised AttributeError
  end.

(** A parameter with a default value. *)
Definition arg_or (default : Z) (a : option Z) : Z :=
  match a with
  | Some n => n
  | None => default
  end.

(** The stop words of [analyze_title_words], as listed in the source. *)
Definition stop_words : list string :=
  ["the"; "and"; "for"; "are"; "with"; "this"; "that"; "from"; "they"; "been";
   "have"; "were"; "said"; "each"; "which"; "their"; "time"; "will"; "about";
   "can"; "when"; "make"; "like"; "into"; "him"; "has"; "two"; "more"; "her";
   "would"; "there"; "could"; "way"; "been"; "who"; "its"; "now"; "find";
   "long"; "down"; "day"; "did"; "get"; "come"; "made"; "may"; "part"].

(** [word in stop_words] *)
Definition is_stop_word (word : string) : bool :=
  existsb (String.eqb word) stop_words.

Section Methods.
Variable parse_datetime : string -> option Timestamp.
Variable epoch_datetime : Z -> option Timestamp.
Variable strict_offsets : bool.
Variable empty_as_object : bool.
Variable ties : value -> value -> bool.
Variable unicode_alnum : char -> bool.
Variable unicode_lower : char -> list ascii.
Variable str_of_scalar : value -> string.

(** [clean_data(self)]: stores the cleaned frame in the object and
    returns it. *)
Definition clean_data (self : CORD19Analyzer)
  : result (CORD19Analyzer * DataFrame) :=
  cleaned <- frame (df self) ;;
  cleaned <-
    (if has_column "publish_time" cleaned then
       pt <- getitem "publish_time" cleaned ;;
       dates <- to_datetime parse_datetime epoch_datetime strict_offsets pt ;;
       let cleaned := setitem "publish_time" dates cleaned in
       pt <- getitem "publish_time" cleaned ;;
       year <- dt_year pt ;;
       Returned (setitem "year" year cleaned)
     else Returned cleaned) ;;
  cleaned <-
    (if has_column "abstract" cleaned then
       abstract <- getitem "abstract" cleaned ;;
       tokens <- str_split empty_as_object (fillna (Str "") abstract) ;;
       Returned (setitem "abstract_word_count" (str_len tokens) cleaned)
     else Returned cleaned) ;;
  cleaned <-
    (if has_column "title" cleaned then dropna_subset "title" cleaned
     else Returned cleaned) ;;
  Returned ({| data_path := data_path self;
               df := df self;
               cleaned_df := Some cleaned |}, cleaned).

(** [analyze_publications_by_year(self)] *)
Definition analyze_publications_by_year (self : CORD19Analyzer)
  : result (option Counts) :=
  cleaned <- frame (cleaned_df self) ;;
  if negb (has_column "year" cleaned) then Returned None
  else
    year <- getitem "year" cleaned ;;
    year_counts <- sort_index (value_counts ties year) ;;
    Returned (Some year_counts).

(** [analyze_top_journals(self, top_n=10)] *)
Definition analyze_top_journals (self : CORD19Analyzer) (top_n : option Z)
  : result (option Counts) :=
  let top_n := arg_or 10%Z top_n in
  cleaned <- frame (cleaned_df self) ;;
  if negb (has_column "journal" cleaned) then Returned None
  else
    journal <- getitem "journal" cleaned ;;
    let journal_counts := head top_n (value_counts ties journal) in
    Returned (Some journal_counts).

(** The frequency list that [analyze_title_words] builds from the title
    column (the lines from "Extract words from titles" to [most_common]). *)
Definition word_freq (title : Series) (top_n : Z) : list (string * nat) :=
  let all_titles := join " " (astype_str str_of_scalar (fillna (Str "") title)) in
  let words := findall_words unicode_alnum (lower unicode_lower all_titles) in
  let filtered_words := filter (fun word => negb (is_stop_word word)) words in
  most_common top_n (Counter String.eqb filtered_words).

(** [analyze_title_words(self, top_n=20)] *)
Definition analyze_title_words (self : CORD19Analyzer) (top_n : option Z)
  : result (option (list (string * nat))) :=
  let top_n := arg_or 20%Z top_n in
  cleaned <- frame (cleaned_df self) ;;
  if negb (has_column "title" cleaned) then Returned None
  else
    title <- getitem "title" cleaned ;;
    let word_freq := word_freq title top_n in
    _ <- unzip2 word_freq ;;
    Returned (Some word_freq).

(** [analyze_sources(self, top_n=10)] *)
Definition analyze_sources (self : CORD19Analyzer) (top_n : option Z)
  : result (option Counts) :=
  let top_n := arg_or 10%Z top_n in
  cleaned <- frame (cleaned_df self) ;;
  if negb (has_column "source_x" cleaned) then Returned None
  else
    source <- getitem "source_x" cleaned ;;
    let source_counts := head top_n (value_counts ties source) in
    _ <- plt_pie source_counts ;;
    Returned (Some source_counts).
End Methods.

End cord19_analysis.

(* ================================================================== *)
(** * streamlit_app.py *)
(* ================================================================== *)

Module streamlit_app.

Section App.
Variable parse_datetime : string -> option Timestamp.
Variable epoch_datetime : Z -> option Timestamp.
Variable strict_offsets : bool.
Variable empty_as_object : bool.
Variable ties : value -> value -> bool.
Variable unicode_alnum : char -> bool.
Variable unicode_lower : char -> list ascii.
Variable str_of_scalar : value -> string.

(** [clean_data(df)] *)
Definition clean_data (df : DataFrame) : result DataFrame :=
  let cleaned_df := df in
  cleaned_df <-
    (if has_column "publish_time" cleaned_df then
       pt <- getitem "publish_time" cleaned_df ;;
       dates <- to_datetime parse_datetime epoch_datetime strict_offsets pt ;;
       let cleaned_df := setitem "publish_time" dates cleaned_df in
       pt <- getitem "publish_time" cleaned_df ;;
       year <- dt_year pt ;;
       Returned (setitem "year" year cleaned_df)
     else Returned cleaned_df) ;;
  cleaned_df <-
    (if has_column "abstract" cleaned_df then
       abstract <- getitem "abstract" cleaned_df ;;
       tokens <- str_split empty_as_object (fillna (Str "") abstract) ;;
       Returned (setitem "abstract_word_count" (str_len tokens) cleaned_df)
     else Returned cleaned_df) ;;
  if has_column "title" cleaned_df then dropna_subset "title" cleaned_df
  else Returned cleaned_df.

(** The year filter of [main]: [year_range] is the pair chosen on the
    slider. *)
Definition filtered_df (cleaned_df : DataFrame) (year_range : Z * Z)
  : result DataFrame :=
  if has_column "year" cleaned_df then
    year <- getitem "year" cleaned_df ;;
    lower_ok <- series_ge year (fst year_range) ;;
    upper_ok <- series_le year (snd year_range) ;;
    Returned (loc (mask_and lower_ok upper_ok) cleaned_df)
  else Returned cleaned_df.

(** Tab "Publications by Year": the counts that the tab computes, before
    it charts them. *)
Definition year_counts (filtered_df : DataFrame) : result (option Counts) :=
  if has_column "year" filtered_df then
    year <- getitem "year" filtered_df ;;
    year_counts <- sort_index (value_counts ties year) ;;
    Returned (Some year_counts)
  else Returned None.

(** Tab "Top Journals": the counts and their chart. *)
Definition journal_counts (filtered_df : DataFrame) (top_n : Z)
  : result (option Counts) :=
  if has_column "journal" filtered_df then
    journal <- getitem "journal" filtered_df ;;
    let journal_counts := head top_n (value_counts ties journal) in
    _ <- px_bar journal_counts ;;
    Returned (Some journal_counts)
  else Returned None.

(** Tab "Title Analysis": the same frequency list as in
    [cord19_analysis]; the chart is drawn only [if word_freq:]. *)
Definition title_words (filtered_df : DataFrame) (top_n_words : Z)
  : result (option (list string * list nat)) :=
  if has_column "title" filtered_df then
    title <- getitem "title" filtered_df ;;
    let word_freq :=
      cord19_analysis.word_freq unicode_alnum unicode_lower str_of_scalar
        title top_n_words in
    match word_freq with
    | [] => Returned None
    | _ :: _ =>
        chart <- unzip2 word_freq ;;
        Returned (Some chart)
    end
  else Returned None.
End App.

End streamlit_app.

(* ================================================================== *)
(** * Data for the scenarios *)
(* ================================================================== *)

Module Scenario.

Definition digit (c : ascii) : option Z :=
  if in_range 48 57 c then Some (Z.of_nat (nat_of_ascii c - 48)) else None.

Fixpoint digits (acc : Z) (s : list ascii) : option Z :=
  match s with
  | [] => Some acc
  | c :: s' =>
      match digit c with
      | Some d => digits (10 * acc + d)%Z s'
      | None => None
      end
  end.

Definition leap (y : Z) : bool :=
  ((y mod 4 =? 0) && negb (y mod 100 =? 0) || (y mod 400 =? 0))%Z.

Definition days_in_month (y m : Z) : Z :=
  if (m =? 2)%Z then (if leap y then 29%Z else 28%Z)
  else if ((m =? 4) || (m =? 6) || (m =? 9) || (m =? 11))%Z then 30%Z
  else 31%Z.

(** A day of the calendar, in the years that a timestamp of pandas can
    hold whatever its resolution. *)
Definition calendar_date (y m d : Z) : bool :=
  ((1678 <=? y) && (y <=? 2261) && (1 <=? m) && (m <=? 12)
   && (1 <=? d) && (d <=? days_in_month y m))%Z.

(** [YYYY-MM-DD] *)
Definition parse_date (s : list ascii) : option (Z * Z * Z) :=
  match s with
  | [y1; y2; y3; y4; d1; m1; m2; d2; a1; a2] =>
      if Ascii.eqb d1 "-" && Ascii.eqb d2 "-" then
        match digits 0 [y1; y2; y3; y4], digits 0 [m1; m2], digits 0 [a1; a2] with
        | Some y, Some m, Some d =>
            if calendar_date y m d then Some (y, m, d) else None
        | _, _, _ => None
        end
      else None
  | _ => None
  end.

(** [Thh:mm:ss+HH:MM] or [Thh:mm:ss-HH:MM]: the offset from UTC in
    minutes. *)
Definition parse_time_offset (s : list ascii) : option Z :=
  match s with
  | [t; h1; h2; c1; n1; n2; c2; s1; s2; sign; o1; o2; c3; p1; p2] =>
      if Ascii.eqb t "T" && Ascii.eqb c1 ":" && Ascii.eqb c2 ":" && Ascii.eqb c3 ":"
      then
        match digits 0 [h1; h2], digits 0 [n1; n2], digits 0 [s1; s2],
              digits 0 [o1; o2], digits 0 [p1; p2] with
        | Some h, Some n, Some sec, Some oh, Some om =>
            if ((h <=? 23) && (n <=? 59) && (sec <=? 59)
                && (oh <=? 14) && (om <=? 59))%Z
            then
              if Ascii.eqb sign "+" then Some (60 * oh + om)%Z
              else if Ascii.eqb sign "-" then Some (- (60 * oh + om))%Z
              else None
            else None
        | _, _, _, _, _ => None
        end
      else None
  | _ => None
  end.

(** ISO calendar dates [YYYY-MM-DD], and ISO timestamps with an offset from
    UTC, [YYYY-MM-DDThh:mm:ss+HH:MM]: two of the formats that
    [pd.to_datetime] reads.  A column of the scenarios is in one of the
    two. *)
Definition parse_iso_date (s : string) : option Timestamp :=
  let l := list_ascii_of_string s in
  match parse_date (firstn 10 l) with
  | Some (y, m, d) =>
      match skipn 10 l with
      | [] => Some (mkTimestamp y m d None)
      | rest =>
          match parse_time_offset rest with
          | Some o => Some (mkTimestamp y m d (Some o))
          | None => None
          end
      end
  | None => None
  end.

(** No number is converted in the scenarios. *)
Definition no_epoch (z : Z) : option Timestamp := None.

(** No scalar other than text is rendered in the scenarios. *)
Definition no_scalar (v : value) : string := "".

(** The Latin-1 part of the Unicode database, U+0080 to U+00FF: the
    alphanumeric characters are the letters (all of U+00C0..U+00FF but the
    signs of multiplication and division, the two ordinal indicators and
    the micro sign) and the superscript digits and fractions; the capital
    letters U+00C0..U+00DE have their lowercase 32 places further.  No
    character beyond Latin-1 occurs in the scenarios. *)
Definition latin_alnum (c : char) : bool :=
  match codes c with
  | [b1; b2] =>
      (b1 =? 194)
      && ((b2 =? 170) || (b2 =? 178) || (b2 =? 179) || (b2 =? 181)
          || (b2 =? 185) || (b2 =? 186) || (188 <=? b2) && (b2 <=? 190))
      || (b1 =? 195) && (128 <=? b2) && (b2 <=? 191)
         && negb (b2 =? 151) && negb (b2 =? 183)
  | _ => false
  end.

Definition latin_lower (c : char) : list ascii :=
  match codes c with
  | [b1; b2] =>
      if (b1 =? 195) && (128 <=? b2) && (b2 <=? 158) && negb (b2 =? 151)
      then [ascii_of_nat 195; ascii_of_nat (b2 + 32)]
      else c
  | _ => c
  end.

(** Two orders of equal counts: the value met first in the column comes
    first, as a stable sort leaves it, or last. *)
Definition first_met (a b : value) : bool := true.
Definition last_met (a b : value) : bool := false.

(** Three papers: the third has no title, the second no abstract and a
    date that cannot be read. *)
Definition papers : DataFrame :=
  [("title", [Str "Covid spread patterns"; Str "Spread of the virus"; NA]);
   ("abstract",
    [Str "one two three four five six seven eight nine ten"; NA; Str "n/a"]);
   ("publish_time", [Str "2020-03-01"; Str "not-a-date"; Str "2021-07-15"]);
   ("journal", [Str "Nature"; Str "Lancet"; NA]);
   ("source_x", [Str "PMC"; Str "WHO"; Str "PMC"])].

(** A cleaned table without any of the columns that the aggregations read. *)
Definition bare : DataFrame := [("abstract", [Str "some text"])].

(** A cleaned table whose titles hold stop words only. *)
Definition stop_titles : DataFrame :=
  [("title", [Str "The and for"; Str "With THIS, that."; Str ""])].

Definition analyzer_of (cleaned : DataFrame) : cord19_analysis.CORD19Analyzer :=
  cord19_analysis.mkAnalyzer "asset/metadata.csv" (Some cleaned) (Some cleaned).

(** The titles of the fourth scenario. *)
Definition virus_titles : DataFrame :=
  [("title", [Str "The Virus Spreads"; Str "Virus Mutation Spreads Fast"])].

(** The journals of the third scenario. *)
Definition journals : DataFrame :=
  [("title", [Str "A"; Str "B"; Str "C"; Str "D"]);
   ("journal", [Str "Nature"; Str "Nature"; Str "Lancet"; Str "Cell"])].

(** Years as the Cleaner derives them, one of them missing. *)
Definition years : DataFrame :=
  [("title", [Str "A"; Str "B"; Str "C"; Str "D"]);
   ("year", [Num 2021; NA; Num 2020; Num 2021])].

(** The dates of the second scenario, every paper titled. *)
Definition dated : DataFrame :=
  [("title", [Str "A"; Str "B"; Str "C"]);
   ("publish_time", [Str "2020-03-01"; Str "not-a-date"; Str "2021-07-15"])].

(** Two papers whose dates are given in different time zones. *)
Definition zoned : DataFrame :=
  [("title", [Str "A"; Str "B"]);
   ("publish_time", [Str "2020-03-01T09:00:00+01:00";
                     Str "2021-07-15T09:00:00-05:00"])].

(** A file whose abstracts are a number and a blank: the column is read as
    a column of numbers, 5 and NaN. *)
Definition numbered_abstracts : DataFrame :=
  [("title", [Str "T"; NA]);
   ("abstract", [Num 5; NA])].

(** The same abstracts, both papers titled. *)
Definition counted_abstracts : DataFrame :=
  [("title", [Str "T"; Str "U"]);
   ("abstract", [Num 5; NA])].

(** Two papers, both titled and dated, in different years. *)
Definition two_years : DataFrame :=
  [("title", [Str "Covid spread patterns"; Str "Spread of the virus"]);
   ("abstract", [Str "one two three"; NA]);
   ("publish_time", [Str "2020-03-01"; Str "2021-07-15"])].

(** The same two papers, cleaned. *)
Definition two_years_cleaned : DataFrame :=
  [("title", [Str "Covid spread patterns"; Str "Spread of the virus"]);
   ("abstract", [Str "one two three"; NA]);
   ("publish_time", [Date (mkTimestamp 2020 3 1 None);
                     Date (mkTimestamp 2021 7 15 None)]);
   ("year", [Num 2020; Num 2021]);
   ("abstract_word_count", [Num 3; Num 0])].

End Scenario.

(* ================================================================== *)
(** * Vocabulary of the properties *)
(* ================================================================== *)

Module Spec.

(** A cell of the [year] column: an integer or missing. *)
Definition is_year (v : value) : bool :=
  match v with
  | NA | Num _ => true
  | _ => false
  end.

Definition is_str (v : value) : bool :=
  match v with
  | Str _ => true
  | _ => false
  end.

(** The abstract column, when there is one, holds a text. *)
Definition abstract_with_text (df : DataFrame) : bool :=
  match getitem "abstract" df with
  | Returned a => existsb is_str a
  | Raised _ => true
  end.

(** The word count that [clean_data] gives to an abstract cell. *)
Definition word_count_of (v : value) : value :=
  match v with
  | NA => Num 0
  | Str s => Num (Z.of_nat (List.length (split s)))
  | _ => NA
  end.

(** The number of places of a list at which a run of non-separators
    starts: a non-separator that is the first element or follows a
    separator.  [after_sep] tells whether the list follows a separator or
    starts the text. *)
Fixpoint run_starts {A : Type} (sep : A -> bool) (after_sep : bool) (s : list A)
  : nat :=
  match s with
  | [] => 0
  | c :: s' =>
      if sep c then run_starts sep true s'
      else (if after_sep then 1 else 0) + run_starts sep false s'
  end.

(** The number of whitespace-separated tokens of a text. *)
Definition token_count (s : string) : nat :=
  run_starts isspace true (chars (list_ascii_of_string s)).

(** A text without any token: empty, or whitespace only. *)
Definition blank (s : string) : bool :=
  forallb isspace (chars (list_ascii_of_string s)).

Section ClosedForm.
Variable parse_datetime : string -> option Timestamp.
Variable epoch_datetime : Z -> option Timestamp.

(** The year that [clean_data] derives from a [publish_time] cell. *)
Definition year_cell (v : value) : value :=
  year_of (to_datetime_scalar parse_datetime epoch_datetime v).

(** The dates that [to_datetime] gives carry one UTC offset, or none. *)
Definition dates_agree (df : DataFrame) : bool :=
  match getitem "publish_time" df with
  | Returned pt => one_offset (map (to_datetime_scalar parse_datetime epoch_datetime) pt)
  | Raised _ => true
  end.

(** The three phases of [clean_data] on a frame on which the conversion of
    the dates and the [.str] accessor apply, without the exception
    plumbing. *)
Definition derive_year (df : DataFrame) : DataFrame :=
  match getitem "publish_time" df with
  | Returned pt =>
      let pt' := map (to_datetime_scalar parse_datetime epoch_datetime) pt in
      setitem "year" (map year_of pt') (setitem "publish_time" pt' df)
  | Raised _ => df
  end.

Definition derive_word_count (df : DataFrame) : DataFrame :=
  match getitem "abstract" df with
  | Returned a => setitem "abstract_word_count" (map word_count_of a) df
  | Raised _ => df
  end.

Definition drop_untitled (df : DataFrame) : DataFrame :=
  match getitem "title" df with
  | Returned t => loc (map notna t) df
  | Raised _ => df
  end.

Definition cleaned (df : DataFrame) : DataFrame :=
  drop_untitled (derive_word_count (derive_year df)).
End ClosedForm.

Section Occurrences.
Context {A : Type} (eqb : A -> A -> bool).

(** Number of occurrences of [k] in [l]. *)
Definition occurrences (k : A) (l : list A) : nat :=
  List.length (filter (eqb k) l).

(** Position of the first occurrence of [k] in [l]. *)
Fixpoint first_index (k : A) (l : list A) : nat :=
  match l with
  | [] => 0
  | x :: l' => if eqb k x then 0 else S (first_index k l')
  end.

(** The distinct elements of [l] in order of first occurrence. *)
Fixpoint uniq (l : list A) : list A :=
  match l with
  | [] => []
  | x :: l' => x :: filter (fun k => negb (eqb k x)) (uniq l')
  end.

(** Ranking of the entries of a frequency table built from [l]: a larger
    count comes first, and among equal counts the key met first in [l]
    comes first. *)
Definition ranks_before (l : list A) (e1 e2 : A * nat) : Prop :=
  snd e2 < snd e1 \/
  (snd e1 = snd e2 /\ first_index (fst e1) l < first_index (fst e2) l).
End Occurrences.

(** [w] is a whole run of [s]: a non-empty stretch without separator that
    is delimited on each side by a separator or by an end of [s]. *)
Definition whole_run {A : Type} (sep : A -> bool) (s w : list A) : Prop :=
  w <> [] /\
  forallb (fun c => negb (sep c)) w = true /\
  exists pre post,
    s = pre ++ w ++ post /\
    (pre = [] \/ exists p c, pre = p ++ [c] /\ sep c = true) /\
    (post = [] \/ exists c q, post = c :: q /\ sep c = true).

(** [runs] is the list of the runs of [s], first to last: [s] is read
    from the left as separators, which are skipped, and runs, each a
    non-empty stretch without separator that goes up to a separator or to
    the end of [s]. *)
Inductive Runs {A : Type} (sep : A -> bool) : list A -> list (list A) -> Prop :=
| Runs_end : Runs sep [] []
| Runs_skip (c : A) (s : list A) (runs : list (list A)) :
    sep c = true -> Runs sep s runs -> Runs sep (c :: s) runs
| Runs_run (w s : list A) (runs : list (list A)) :
    w <> [] ->
    forallb (fun c => negb (sep c)) w = true ->
    (s = [] \/ exists c s', s = c :: s' /\ sep c = true) ->
    Runs sep s runs -> Runs sep (w ++ s) (w :: runs).

(** A lowercase letter of ASCII. *)
Definition lowercase_letter (c : char) : bool :=
  match c with
  | [b] => in_range 97 122 b
  | _ => false
  end.

(** A table of lowercase forms gives no capital of ASCII: the lowercase of
    a character beyond ASCII holds none. *)
Definition no_capital (unicode_lower : char -> list ascii) : Prop :=
  forall c,
    forallb (fun b => negb (is_ascii b)) c = true ->
    forallb (fun b => negb (isupper b)) (unicode_lower c) = true.

(** The text in which [analyze_title_words] looks for words. *)
Definition title_text (unicode_lower : char -> list ascii)
           (str_of_scalar : value -> string) (title : Series) : string :=
  lower unicode_lower (join " " (astype_str str_of_scalar (fillna (Str "") title))).

(** The tokens of the title analysis as the specification words them: the
    runs of three or more alphabetic characters. *)
Definition letter_runs (s : string) : list string :=
  map text_of
    (filter (fun w => 3 <=? List.length w)
       (fields (fun c => negb (letter c)) (chars (list_ascii_of_string s)) [])).

(** The frequency list of the title analysis with the tokens as the
    specification words them. *)
Definition word_freq_as_stated (unicode_lower : char -> list ascii)
           (str_of_scalar : value -> string)
           (title : Series) (top_n : Z) : list (string * nat) :=
  let all_titles := join " " (astype_str str_of_scalar (fillna (Str "") title)) in
  let words := letter_runs (lower unicode_lower all_titles) in
  let filtered_words :=
    filter (fun word => negb (cord19_analysis.is_stop_word word)) words in
  most_common top_n (Counter String.eqb filtered_words).

(** Every column of the frame has [n] cells. *)
Definition rectangular (n : nat) (df : DataFrame) : bool :=
  forallb (fun cs => List.length (snd cs) =? n) df.

(** The frame without its first row. *)
Definition tails (df : DataFrame) : DataFrame :=
  map (fun cs => (fst cs, tl (snd cs))) df.

(** A year inside the inclusive range of the slider. *)
Definition year_in_range (year_range : Z * Z) (v : value) : bool :=
  match v with
  | Num y => (fst year_range <=? y)%Z && (y <=? snd year_range)%Z
  | _ => false
  end.

(** The columns that [clean_data] appends to those of [t]. *)
Definition derived_columns (t : DataFrame) : list string :=
  (if has_column "publish_time" t && negb (has_column "year" t)
   then ["year"] else [])
  ++ (if has_column "abstract" t && negb (has_column "abstract_word_count" t)
      then ["abstract_word_count"] else []).

(** Ascending order of two entries by their integer labels. *)
Definition key_lt (e1 e2 : value * nat) : Prop :=
  match fst e1, fst e2 with
  | Num a, Num b => (a < b)%Z
  | _, _ => False
  end.

(** The part of a column of [df] that survives the removal of the rows
    without title. *)
Definition kept {A : Type} (df : DataFrame) (s : list A) : list A :=
  match getitem "title" df with
  | Returned t => select (map notna t) s
  | Raised _ => s
  end.

End Spec.

(* ================================================================== *)
(** * More of pandas: distinct values, extremes, column lists *)
(* ================================================================== *)

Module PdMore.

(** [s.unique()]: the distinct values in order of first occurrence, a
    missing value included once. *)
Definition unique_add (v : value) (seen : list value) : list value :=
  if existsb (value_eqb v) seen then seen else seen ++ [v].

Definition unique (s : Series) : list value :=
  fold_left (fun seen v => unique_add v seen) s [].

(** [s.nunique()]: the number of distinct values that are present. *)
Definition nunique (s : Series) : nat := List.length (filter notna (unique s)).

(** A cell of a column of numbers: a number or missing. *)
Definition is_number (v : value) : bool :=
  match v with
  | NA | Num _ => true
  | _ => false
  end.

(** The numbers of a column, missing values skipped. *)
Definition numbers (s : Series) : list Z :=
  flat_map (fun v => match v with
                     | Num z => [z]
                     | _ => []
                     end) s.

Definition minimum (l : list Z) : option Z :=
  match l with
  | [] => None
  | x :: r => Some (fold_left Z.min r x)
  end.

Definition maximum (l : list Z) : option Z :=
  match l with
  | [] => None
  | x :: r => Some (fold_left Z.max r x)
  end.

(** [counts.idxmax()]: the label of the first entry with the greatest
    count; [ValueError] on an empty Series. *)
Definition idxmax (c : Counts) : result value :=
  match c with
  | [] => Raised ValueError
  | e :: r =>
      Returned (fst (fold_left (fun best x => if snd best <? snd x then x else best)
                               r e))
  end.

(** [df[cols]] for a list of labels: the named columns in the order of the
    list; [KeyError] when a label is no column. *)
Definition getitems (cols : list string) (df : DataFrame) : result DataFrame :=
  mapM (fun c => s <- getitem c df ;; Returned (c, s)) cols.

(** [df.head(n)] *)
Definition head_rows (n : Z) (df : DataFrame) : DataFrame :=
  map (fun cs => (fst cs, head n (snd cs))) df.

(** [str(z)] for an integer. *)
Definition decimal (z : Z) : string := NilZero.string_of_int (Z.to_int z).

End PdMore.

Import PdMore.

(* ================================================================== *)
(** * cord19_analysis.py: the figures of the report *)
(* ================================================================== *)

Module Report.

Section Figures.
(** The extremes that pandas gives on a year column that holds texts or
    timestamps, and what formatting them with [:.0f] does; the report is
    modelled on columns of numbers and missing values. *)
Variable years_other : Series -> result (value * value).

(** [generate_report], "Publication years": the smallest and the largest
    year of the cleaned table, missing values skipped; both are NaN when no
    row has a year, and NaN is printed, not refused.  Nothing is printed
    without a year column. *)
Definition publication_years (cleaned_df : DataFrame)
  : result (option (value * value)) :=
  if has_column "year" cleaned_df then
    year <- getitem "year" cleaned_df ;;
    if forallb Spec.is_year year then
      match minimum (numbers year), maximum (numbers year) with
      | Some lo, Some hi => Returned (Some (Num lo, Num hi))
      | _, _ => Returned (Some (NA, NA))
      end
    else
      r <- years_other year ;;
      Returned (Some r)
  else Returned None.
End Figures.

(** [generate_report], "Unique journals". *)
Definition unique_journals (cleaned_df : DataFrame) : result (option nat) :=
  if has_column "journal" cleaned_df then
    journal <- getitem "journal" cleaned_df ;;
    Returned (Some (nunique journal))
  else Returned None.

End Report.

(* ================================================================== *)
(** * streamlit_app.py: the rest of [main] *)
(* ================================================================== *)

Module Dashboard.

(** [main] can also fail on a local variable that was never assigned, and
    in a widget that refuses its arguments. *)
Inductive error : Set :=
| Exn (e : exn)
| UnboundLocalError
| StreamlitAPIException.

Inductive outcome (A : Type) : Type :=
| Done (a : A)
| Failed (e : error).

Arguments Done {A} a.
Arguments Failed {A} e.

Definition lift {A : Type} (r : result A) : outcome A :=
  match r with
  | Returned a => Done a
  | Raised e => Failed (Exn e)
  end.

Definition obind {A B : Type} (m : outcome A) (k : A -> outcome B) : outcome B :=
  match m with
  | Done a => k a
  | Failed e => Failed e
  end.

Notation "x <~ m ;; k" := (obind m (fun x => k))
  (at level 61, m at next level, right associativity).

(** Reading a local variable of [main]; [None] is a variable that no
    executed statement has assigned. *)
Definition local {A : Type} (v : option A) : outcome A :=
  match v with
  | Some a => Done a
  | None => Failed UnboundLocalError
  end.

Section Main.
(** What [int(cleaned_df['year'].min())] and [int(cleaned_df['year'].max())]
    give on a year column that holds texts or timestamps; the bounds are
    modelled on columns of numbers and missing values. *)
Variable bounds_other : Series -> result (Z * Z).

(** [min_year] and [max_year]: without any year the minimum is NaN, which
    [int] refuses. *)
Definition year_bounds (cleaned_df : DataFrame) : result (Z * Z) :=
  year <- getitem "year" cleaned_df ;;
  if forallb Spec.is_year year then
    match minimum (numbers year) with
    | Some min_year =>
        match maximum (numbers year) with
        | Some max_year => Returned (min_year, max_year)
        | None => Raised ValueError
        end
    | None => Raised ValueError
    end
  else bounds_other year.

(** The sidebar: the bounds of the slider, the range chosen on it and the
    filtered frame.  [slider] is the widget: from the bounds, which are
    also its initial value, to the range that the user has set, unless the
    widget refuses the bounds.  Without year column nothing is filtered and
    [year_range] stays unassigned. *)
Definition sidebar (cleaned_df : DataFrame) (slider : Z * Z -> outcome (Z * Z))
  : outcome (DataFrame * option (Z * Z)) :=
  if has_column "year" cleaned_df then
    bounds <~ lift (year_bounds cleaned_df) ;;
    year_range <~ slider bounds ;;
    filtered_df <~ lift (streamlit_app.filtered_df cleaned_df year_range) ;;
    Done (filtered_df, Some year_range)
  else Done (cleaned_df, None).

(** The order of equal counts in [value_counts]. *)
Variable ties : value -> value -> bool.

(** Tab "Publications by Year" with its chart and its statistics: the
    counts, the peak year with its count, and the total of the counts. *)
Definition publications_tab (filtered_df : DataFrame)
  : result (option (Counts * value * nat * nat)) :=
  if has_column "year" filtered_df then
    year <- getitem "year" filtered_df ;;
    year_counts <- sort_index (value_counts ties year) ;;
    _ <- px_bar year_counts ;;
    peak <- idxmax year_counts ;;
    Returned (Some (year_counts, peak,
                    list_max (map snd year_counts),
                    list_sum (map snd year_counts)))
  else Returned None.
End Main.

(** [st.sidebar.slider(label, min_year, max_year, (min_year, max_year))]:
    the widget refuses bounds that leave it no room, and else returns the
    range that the user has set, the bounds themselves before any move.
    [user] is the user: from the bounds to the range set. *)
Definition st_slider (user : Z * Z -> Z * Z) (bounds : Z * Z) : outcome (Z * Z) :=
  if (fst bounds <? snd bounds)%Z then Done (user bounds)
  else Failed StreamlitAPIException.

(** The default of the column selection. *)
Definition default_cols (available_cols : list string) : list string :=
  if 5 <=? List.length available_cols then firstn 5 available_cols
  else available_cols.

(** The name of the downloaded file. *)
Definition file_name (year_range : Z * Z) : string :=
  String.append "cord19_filtered_"
    (String.append (decimal (fst year_range))
       (String.append "_" (String.append (decimal (snd year_range)) ".csv"))).

(** What tab "Data Sample" shows: the sample, if columns are selected, and
    the download. *)
Record sample : Set := mkSample {
  shown : option DataFrame;
  download_name : string;
  download_data : csv
}.

(** Tab "Data Sample".  [multiselect] is the widget: from the options and
    the default to the selected columns; [sample_size] is the value of the
    second slider; [year_range] is the local variable of the sidebar. *)
Definition data_sample (filtered_df : DataFrame) (year_range : option (Z * Z))
           (multiselect : list string -> list string -> list string)
           (sample_size : Z) : outcome (option sample) :=
  if negb (empty filtered_df) then
    let available_cols := columns filtered_df in
    let selected_cols := multiselect available_cols (default_cols available_cols) in
    shown <~ match selected_cols with
             | [] => Done None
             | _ :: _ =>
                 part <~ lift (getitems selected_cols filtered_df) ;;
                 Done (Some (head_rows sample_size part))
             end ;;
    let csv := to_csv filtered_df in
    year_range <~ local year_range ;;
    Done (Some {| shown := shown;
                  download_name := file_name year_range;
                  download_data := csv |})
  else Done None.

Section Script.
Variable parse_datetime : string -> option Timestamp.
Variable epoch_datetime : Z -> option Timestamp.
Variable strict_offsets : bool.
Variable empty_as_object : bool.
Variable ties : value -> value -> bool.
Variable unicode_alnum : char -> bool.
Variable unicode_lower : char -> list ascii.
Variable str_of_scalar : value -> string.
Variable bounds_other : Series -> result (Z * Z).

(** What [filtered_df['abstract_word_count'].mean()] and its formatting
    with [:.0f] do on a column that holds texts or timestamps; on a column
    of numbers the mean is a number or NaN, and both are printed. *)
Variable mean_other : Series -> result unit.

(** [WordCloud(width=800, height=400, background_color='white')
    .generate(text)] of the wordcloud library, which raises when it finds
    no word to draw. *)
Variable generate : string -> result unit.

(** The three figures above the tabs.  The number of rows and the number
    of distinct journals are defined on every frame. *)
Definition metrics (filtered_df : DataFrame) : result unit :=
  if has_column "abstract_word_count" filtered_df then
    counts <- getitem "abstract_word_count" filtered_df ;;
    if forallb is_number counts then Returned tt else mean_other counts
  else Returned tt.

(** Tab "Word Cloud": the cloud is drawn [if all_titles.strip():]. *)
Definition word_cloud (filtered_df : DataFrame) : result unit :=
  if has_column "title" filtered_df then
    title <- getitem "title" filtered_df ;;
    let all_titles := join " " (astype_str str_of_scalar (fillna (Str "") title)) in
    if negb (String.eqb (strip all_titles) "") then generate all_titles
    else Returned tt
  else Returned tt.

(** [main] on a frame that [load_data] has returned, up to the download
    of tab "Data Sample".  [user] is the user at the year slider, [top_n]
    and [top_n_words] are the values of the two select boxes,
    [multiselect] and [sample_size] the widgets of the last tab.  An
    exception that a statement raises ends the script there. *)
Definition main (df : DataFrame) (user : Z * Z -> Z * Z) (top_n top_n_words : Z)
           (multiselect : list string -> list string -> list string)
           (sample_size : Z) : outcome (option sample) :=
  cleaned_df <~ lift (streamlit_app.clean_data parse_datetime epoch_datetime
                        strict_offsets empty_as_object df) ;;
  side <~ sidebar bounds_other cleaned_df (st_slider user) ;;
  let filtered_df := fst side in
  let year_range := snd side in
  _ <~ lift (metrics filtered_df) ;;
  _ <~ lift (publications_tab ties filtered_df) ;;
  _ <~ lift (streamlit_app.journal_counts ties filtered_df top_n) ;;
  _ <~ lift (streamlit_app.title_words unicode_alnum unicode_lower str_of_scalar
               filtered_df top_n_words) ;;
  _ <~ lift (word_cloud filtered_df) ;;
  data_sample filtered_df year_range multiselect sample_size.
End Script.

End Dashboard.

(* ================================================================== *)
(** * More vocabulary and data *)
(* ================================================================== *)

Module Vocab.

(** The abstract column is one on which the [.str] accessor is refused: it
    holds numbers only, or timestamps only, or it has no row and its dtype
    is not [object]. *)
Definition refused_abstract (empty_as_object : bool) (t : DataFrame) : bool :=
  match getitem "abstract" t with
  | Returned [] => negb empty_as_object
  | Returned (v :: a) => forallb is_num (v :: a) || forallb is_date (v :: a)
  | Raised _ => false
  end.

(** The number of rows that [clean_data] keeps of a table of [n] rows. *)
Definition kept_rows (n : nat) (t : DataFrame) : nat :=
  match getitem "title" t with
  | Returned title => List.length (filter notna title)
  | Raised _ => n
  end.

(** The text of a title cell in the title analysis. *)
Definition cell_text (str_of_scalar : value -> string) (v : value) : string :=
  match v with
  | NA => ""
  | Str x => x
  | _ => str_of_scalar v
  end.

(** A text with its ASCII letters in lowercase. *)
Definition ascii_lower (s : string) : string :=
  string_of_list_ascii (map lower_byte (list_ascii_of_string s)).

(** A cell with the ASCII letters of its text in lowercase. *)
Definition lower_cell (v : value) : value :=
  match v with
  | Str x => Str (ascii_lower x)
  | _ => v
  end.

(** The number of entries that [head n] keeps of a list of [d] entries. *)
Definition head_length (n : Z) (d : nat) : nat :=
  if (0 <=? n)%Z then Nat.min (Z.to_nat n) d else d - Z.to_nat (- n).

End Vocab.

Module Cases.

(** A slider left at its initial value. *)
Definition untouched (bounds : Z * Z) : Dashboard.outcome (Z * Z) :=
  Dashboard.Done bounds.

(** A user who does not move the slider. *)
Definition idle (bounds : Z * Z) : Z * Z := bounds.

(** A word cloud that is drawn of every text that is not blank, and a
    mean that plays no role in the cases. *)
Definition cloud (text : string) : result unit :=
  if Spec.blank text then Raised ValueError else Returned tt.
Definition no_mean (s : Series) : result unit := Raised TypeError.

(** A column selection left at its default. *)
Definition default_selection (options default : list string) : list string :=
  default.

(** Bounds and extremes of non-numeric year columns play no role in the
    cases. *)
Definition no_bounds (s : Series) : result (Z * Z) := Raised TypeError.
Definition no_extremes (s : Series) : result (value * value) := Raised TypeError.

(** A cleaned table with years 2018 and 2021 and one paper without year. *)
Definition spread : DataFrame :=
  [("title", [Str "A"; Str "B"; Str "C"; Str "D"]);
   ("journal", [Str "Nature"; NA; Str "Cell"; Str "Nature"]);
   ("source_x", [Str "PMC"; Str "WHO"; Str "PMC"; Str "PMC"]);
   ("year", [Num 2021; NA; Num 2018; Num 2021])].

(** A table whose dates cannot be read. *)
Definition undated : DataFrame :=
  [("title", [Str "A"; Str "B"]);
   ("publish_time", [Str "soon"; Str "unknown"])].

(** A table without dates. *)
Definition dateless : DataFrame :=
  [("title", [Str "Covid spread"; Str "Virus"]);
   ("abstract", [Str "some text"; NA])].

(** A table whose abstracts are numbers. *)
Definition numbered : DataFrame :=
  [("title", [Str "A"; Str "B"]);
   ("abstract", [Num 1; Num 2])].

End Cases.
(* ================================================================== *)
(** * Properties *)
(* ================================================================== *)

(** ** Frames: reading, writing and masking columns *)

Lemma has_column_getitem (c : string) (df : DataFrame) :
  has_column c df = true -> exists s, getitem c df = Returned s.
Proof.
  unfold has_column, columns.
  induction df as [|[c' s'] rest IH]; simpl; intros H.
  - discriminate H.
  - destruct (String.eqb c c').
    + exists s'; reflexivity.
    + apply IH; exact H.
Qed.

Lemma no_column_getitem (c : string) (df : DataFrame) :
  has_column c df = false -> getitem c df = Raised KeyError.
Proof.
  unfold has_column, columns.
  induction df as [|[c' s'] rest IH]; simpl; intros H.
  - reflexivity.
  - destruct (String.eqb c c').
    + discriminate H.
    + apply IH; exact H.
Qed.

Lemma getitem_has_column (c : string) (df : DataFrame) (s : Series) :
  getitem c df = Returned s -> has_column c df = true.
Proof.
  intros H. destruct (has_column c df) eqn:E; [reflexivity|].
  rewrite (no_column_getitem _ _ E) in H. discriminate H.
Qed.

Lemma getitem_Raised (c : string) (df : DataFrame) (e : exn) :
  getitem c df = Raised e -> has_column c df = false.
Proof.
  intros H. destruct (has_column c df) eqn:E; [|reflexivity].
  destruct (has_column_getitem _ _ E) as [s Hs]. congruence.
Qed.

Lemma getitem_setitem (c c' : string) (s : Series) (df : DataFrame) :
  getitem c' (setitem c s df) =
  if String.eqb c' c then Returned s else getitem c' df.
Proof.
  induction df as [|[c0 s0] rest IH]; simpl.
  - destruct (String.eqb c' c); reflexivity.
  - destruct (String.eqb c c0) eqn:E0; simpl.
    + apply String.eqb_eq in E0. subst c0.
      destruct (String.eqb c' c); reflexivity.
    + destruct (String.eqb c' c0) eqn:E1.
      * apply String.eqb_eq in E1. subst c0.
        rewrite String.eqb_sym, E0. reflexivity.
      * exact IH.
Qed.

Lemma setitem_same (c : string) (s : Series) (df : DataFrame) :
  getitem c df = Returned s -> setitem c s df = df.
Proof.
  induction df as [|[c0 s0] rest IH]; simpl; intros H.
  - discriminate H.
  - destruct (String.eqb c c0).
    + congruence.
    + rewrite (IH H). reflexivity.
Qed.

Lemma columns_setitem (c : string) (s : Series) (df : DataFrame) :
  columns (setitem c s df) =
  if has_column c df then columns df else columns df ++ [c].
Proof.
  unfold has_column, columns.
  induction df as [|[c0 s0] rest IH]; simpl.
  - reflexivity.
  - destruct (String.eqb c c0); simpl.
    + reflexivity.
    + rewrite IH. destruct (existsb (String.eqb c) (map fst rest)); reflexivity.
Qed.

Lemma columns_loc (m : list bool) (df : DataFrame) :
  columns (loc m df) = columns df.
Proof.
  unfold columns, loc. rewrite map_map. reflexivity.
Qed.

Lemma getitem_loc (c : string) (m : list bool) (df : DataFrame) :
  getitem c (loc m df) = (s <- getitem c df ;; Returned (select m s)).
Proof.
  induction df as [|[c0 s0] rest IH]; simpl.
  - reflexivity.
  - destruct (String.eqb c c0); [reflexivity | exact IH].
Qed.

Lemma select_map {A B : Type} (f : A -> B) (m : list bool) (s : list A) :
  select m (map f s) = map f (select m s).
Proof.
  revert s. induction m as [|b m IH]; intros [|v s]; simpl; try reflexivity.
  destruct b; simpl; rewrite IH; reflexivity.
Qed.

Lemma select_filter {A : Type} (p : A -> bool) (s : list A) :
  select (map p s) s = filter p s.
Proof.
  induction s as [|v s IH]; simpl; [reflexivity|].
  destruct (p v); rewrite IH; reflexivity.
Qed.

Lemma select_nil_r {A : Type} (m : list bool) : select m (@nil A) = [].
Proof. destruct m as [|[] m]; reflexivity. Qed.

Lemma select_again {A B : Type} (p : A -> bool) (t : list A) (s : list B) :
  select (map p (select (map p t) t)) (select (map p t) s) = select (map p t) s.
Proof.
  revert s. induction t as [|v t IH]; intros s; simpl.
  - reflexivity.
  - destruct s as [|x s].
    + rewrite !select_nil_r. reflexivity.
    + destruct (p v) eqn:E; simpl.
      * rewrite E. rewrite IH. reflexivity.
      * apply IH.
Qed.

(** ** The cleaning steps, cell by cell *)

Lemma forallb_select {A : Type} (p : A -> bool) (m : list bool) (s : list A) :
  forallb p s = true -> forallb p (select m s) = true.
Proof.
  revert s. induction m as [|b m IH]; intros [|v s]; simpl; try reflexivity.
  intros H. apply andb_true_iff in H. destruct H as [Hv Hs].
  destruct b; simpl; [rewrite Hv|]; apply IH; exact Hs.
Qed.

(** A selection of timestamps of one offset has one offset. *)
Lemma offsets_select (m : list bool) (s : Series) :
  exists keep, offsets (select m s) = select keep (offsets s).
Proof.
  revert s. induction m as [|b m IH]; intros s.
  - exists []. reflexivity.
  - destruct s as [|v s]; [exists []; reflexivity|].
    destruct (IH s) as [keep Hk].
    destruct b.
    + destruct v as [|x|z|t];
        try (exists keep; simpl; exact Hk).
      exists (true :: keep). simpl. rewrite Hk. reflexivity.
    + destruct v as [|x|z|t];
        try (exists keep; simpl; exact Hk).
      exists (false :: keep). simpl. exact Hk.
Qed.

Lemma one_offset_forall (s : Series) :
  one_offset s = true <->
  forall a b, In a (offsets s) -> In b (offsets s) -> offset_eqb a b = true.
Proof.
  assert (Hrefl : forall a, offset_eqb a a = true).
  { intros [a|]; simpl; [apply Z.eqb_refl | reflexivity]. }
  assert (Heq : forall a b, offset_eqb a b = true -> a = b).
  { intros [a|] [b|]; simpl; intros H; try discriminate H; [|reflexivity].
    apply Z.eqb_eq in H. subst b. reflexivity. }
  unfold one_offset. destruct (offsets s) as [|o os]; simpl.
  - split; [intros _ a b [] | reflexivity].
  - rewrite forallb_forall. split.
    + intros H a b Ha Hb.
      assert (Ha' : a = o).
      { destruct Ha as [Ha|Ha]; [auto | symmetry; apply Heq, H, Ha]. }
      assert (Hb' : b = o).
      { destruct Hb as [Hb|Hb]; [auto | symmetry; apply Heq, H, Hb]. }
      subst a b. apply Hrefl.
    + intros H x Hx. apply H; [left; reflexivity | right; exact Hx].
Qed.

Lemma In_select {A : Type} (m : list bool) (s : list A) (x : A) :
  In x (select m s) -> In x s.
Proof.
  revert s. induction m as [|b m IH]; intros [|v s]; simpl; try contradiction.
  destruct b; simpl; intros H.
  - destruct H as [H|H]; [left; exact H | right; apply IH; exact H].
  - right. apply IH. exact H.
Qed.

Lemma one_offset_select (m : list bool) (s : Series) :
  one_offset s = true -> one_offset (select m s) = true.
Proof.
  rewrite !one_offset_forall. intros H a b Ha Hb.
  destruct (offsets_select m s) as [keep Hk]. rewrite Hk in Ha, Hb.
  apply H; eapply In_select; eassumption.
Qed.

Section Cleaning.
Variable parse_datetime : string -> option Timestamp.
Variable epoch_datetime : Z -> option Timestamp.
Variable strict_offsets : bool.
Variable empty_as_object : bool.

Let convert := map (to_datetime_scalar parse_datetime epoch_datetime).
Let clean :=
  streamlit_app.clean_data parse_datetime epoch_datetime strict_offsets
    empty_as_object.
Let cleaned := Spec.cleaned parse_datetime epoch_datetime.
Let derive_year := Spec.derive_year parse_datetime epoch_datetime.
Let dates_agree := Spec.dates_agree parse_datetime epoch_datetime.

Lemma convert_datetimelike (s : Series) :
  forallb is_datetimelike (convert s) = true.
Proof.
  induction s as [|v s IH]; simpl; [reflexivity|].
  rewrite IH, andb_true_r.
  destruct v as [|x|z|t]; simpl; try reflexivity.
  - destruct (parse_datetime x); reflexivity.
  - destruct (epoch_datetime z); reflexivity.
Qed.

Lemma convert_fixed (s : Series) :
  forallb is_datetimelike s = true -> convert s = s.
Proof.
  induction s as [|v s IH]; simpl; intros H; [reflexivity|].
  apply andb_true_iff in H. destruct H as [Hv Hs].
  fold (convert s). rewrite (IH Hs).
  destruct v; simpl in *; try discriminate; reflexivity.
Qed.

Lemma str_len_split (a : Series) :
  str_len (map (fun v => match v with
                         | Str x => Some (split x)
                         | _ => None
                         end) (fillna (Str "") a))
  = map Spec.word_count_of a.
Proof.
  unfold str_len, fillna. rewrite !map_map.
  apply map_ext. intros [|x|z|t]; reflexivity.
Qed.

Lemma filter_notna_fillna (a : Series) :
  filter notna (fillna (Str "") a) = fillna (Str "") a.
Proof.
  induction a as [|v a IH]; simpl; [reflexivity|].
  destruct v; simpl; rewrite IH; reflexivity.
Qed.

Lemma forallb_is_num_fillna (a : Series) :
  forallb is_num (fillna (Str "") a) = forallb is_num a.
Proof.
  induction a as [|v a IH]; simpl; [reflexivity|].
  destruct v; simpl; rewrite ?IH; reflexivity.
Qed.

Lemma forallb_is_date_fillna (a : Series) :
  forallb is_date (fillna (Str "") a) = forallb is_date a.
Proof.
  induction a as [|v a IH]; simpl; [reflexivity|].
  destruct v; simpl; rewrite ?IH; reflexivity.
Qed.

(** The [.str] accessor on the filled abstract column. *)
Lemma str_accessor_fillna (a : Series) :
  str_accessor empty_as_object (fillna (Str "") a) =
  match a with
  | [] => if empty_as_object then Returned [] else Raised AttributeError
  | _ :: _ =>
      if forallb is_num a || forallb is_date a then Raised AttributeError
      else Returned (fillna (Str "") a)
  end.
Proof.
  unfold str_accessor. rewrite filter_notna_fillna.
  destruct a as [|v a]; [reflexivity|].
  rewrite <- (forallb_is_num_fillna (v :: a)), <- (forallb_is_date_fillna (v :: a)).
  destruct (fillna (Str "") (v :: a)) eqn:E; [discriminate E|]. reflexivity.
Qed.

(** The conversion of the dates and the derivation of the year. *)
Lemma derive_year_outcome (t : DataFrame) :
  (if has_column "publish_time" t
   then pt <- getitem "publish_time" t ;;
        dates <- to_datetime parse_datetime epoch_datetime strict_offsets pt ;;
        pt0 <- getitem "publish_time" (setitem "publish_time" dates t) ;;
        year <- dt_year pt0 ;;
        Returned (setitem "year" year (setitem "publish_time" dates t))
   else Returned t)
  = if dates_agree t then Returned (derive_year t)
    else Raised (if strict_offsets then ValueError else AttributeError).
Proof.
  unfold dates_agree, Spec.dates_agree, derive_year, Spec.derive_year.
  destruct (has_column "publish_time" t) eqn:Hpt.
  - destruct (has_column_getitem _ _ Hpt) as [pt Hget]. rewrite Hget.
    cbn [bind]. unfold to_datetime. cbv zeta. fold (convert pt).
    destruct (one_offset (convert pt)) eqn:Hone; cbn [orb bind].
    + rewrite getitem_setitem. cbn [String.eqb Ascii.eqb Bool.eqb bind].
      unfold dt_year. rewrite convert_datetimelike, Hone. reflexivity.
    + destruct strict_offsets; cbn [negb bind]; [reflexivity|].
      rewrite getitem_setitem. cbn [String.eqb Ascii.eqb Bool.eqb bind].
      unfold dt_year. rewrite convert_datetimelike, Hone. reflexivity.
  - rewrite (no_column_getitem _ _ Hpt). reflexivity.
Qed.

(** [clean_data] on any table: it raises when the dates carry different UTC
    offsets, and when the abstract column is refused; it returns the closed
    form otherwise. *)
Lemma clean_data_outcome (t : DataFrame) :
  clean t =
  if dates_agree t then
    if Vocab.refused_abstract empty_as_object t then Raised AttributeError
    else Returned (cleaned t)
  else Raised (if strict_offsets then ValueError else AttributeError).
Proof.
  unfold clean, streamlit_app.clean_data. cbv zeta.
  rewrite derive_year_outcome.
  destruct (dates_agree t); [|reflexivity].
  cbn [bind].
  set (d1 := derive_year t).
  unfold Vocab.refused_abstract, cleaned, Spec.cleaned. fold derive_year. fold d1.
  unfold Spec.derive_word_count.
  assert (Habs : getitem "abstract" d1 = getitem "abstract" t).
  { unfold d1, derive_year, Spec.derive_year.
    destruct (getitem "publish_time" t); [|reflexivity].
    rewrite !getitem_setitem. reflexivity. }
  rewrite <- Habs.
  assert (Hdrop : forall d,
             (if has_column "title" d then dropna_subset "title" d else Returned d)
             = Returned (Spec.drop_untitled d)).
  { intros d. unfold Spec.drop_untitled, dropna_subset.
    destruct (has_column "title" d) eqn:Ht.
    - destruct (has_column_getitem _ _ Ht) as [x Hx]. rewrite Hx. reflexivity.
    - rewrite (no_column_getitem _ _ Ht). reflexivity. }
  destruct (has_column "abstract" d1) eqn:Ha.
  - destruct (has_column_getitem _ _ Ha) as [a Hget]. rewrite Hget.
    cbn [bind]. unfold str_split. rewrite str_accessor_fillna.
    destruct a as [|v a].
    + destruct empty_as_object; cbn [negb bind]; [apply Hdrop | reflexivity].
    + set (l := v :: a).
      destruct (forallb is_num l || forallb is_date l); cbn [bind];
        [reflexivity|].
      rewrite (str_len_split l). apply Hdrop.
  - rewrite (no_column_getitem _ _ Ha). simpl. apply Hdrop.
Qed.

(** When [clean_data] returns, it returns the closed form. *)
Lemma clean_data_Returned (t t' : DataFrame) :
  clean t = Returned t' ->
  dates_agree t = true /\ Vocab.refused_abstract empty_as_object t = false /\
  t' = cleaned t.
Proof.
  rewrite clean_data_outcome.
  destruct (dates_agree t); [|discriminate].
  destruct (Vocab.refused_abstract empty_as_object t); [discriminate|].
  intros H. injection H as <-. auto.
Qed.
End Cleaning.

(** ** The closed form of [clean_data], column by column *)

Section ClosedFormFacts.
Variable parse_datetime : string -> option Timestamp.
Variable epoch_datetime : Z -> option Timestamp.

Let cleaned := Spec.cleaned parse_datetime epoch_datetime.
Let derive_year := Spec.derive_year parse_datetime epoch_datetime.

(** A frame in which [year] is already the year of [publish_time]. *)
Let year_derived (d : DataFrame) : Prop :=
  forall pt, getitem "publish_time" d = Returned pt ->
    forallb is_datetimelike pt = true /\
    getitem "year" d = Returned (map year_of pt).

(** A frame in which [abstract_word_count] is already the count of
    [abstract]. *)
Let count_derived (d : DataFrame) : Prop :=
  forall a, getitem "abstract" d = Returned a ->
    getitem "abstract_word_count" d = Returned (map Spec.word_count_of a).

Lemma getitem_derive_year (c : string) (df : DataFrame) :
  String.eqb c "publish_time" = false -> String.eqb c "year" = false ->
  getitem c (derive_year df) = getitem c df.
Proof.
  intros H1 H2. unfold derive_year, Spec.derive_year.
  destruct (getitem "publish_time" df); [|reflexivity].
  rewrite !getitem_setitem, H1, H2. reflexivity.
Qed.

Lemma getitem_derive_word_count (c : string) (d : DataFrame) :
  String.eqb c "abstract_word_count" = false ->
  getitem c (Spec.derive_word_count d) = getitem c d.
Proof.
  intros H. unfold Spec.derive_word_count.
  destruct (getitem "abstract" d); [|reflexivity].
  rewrite getitem_setitem, H. reflexivity.
Qed.

Lemma getitem_drop_untitled (c : string) (d : DataFrame) :
  getitem c (Spec.drop_untitled d) =
  (s <- getitem c d ;; Returned (Spec.kept d s)).
Proof.
  unfold Spec.drop_untitled, Spec.kept.
  destruct (getitem "title" d) as [t|e].
  - apply getitem_loc.
  - destruct (getitem c d); reflexivity.
Qed.

Lemma kept_derived (df : DataFrame) {A : Type} (s : list A) :
  Spec.kept (Spec.derive_word_count (derive_year df)) s = Spec.kept df s.
Proof.
  unfold Spec.kept.
  rewrite getitem_derive_word_count by reflexivity.
  rewrite getitem_derive_year by reflexivity. reflexivity.
Qed.

Lemma kept_map {A B : Type} (f : A -> B) (d : DataFrame) (s : list A) :
  Spec.kept d (map f s) = map f (Spec.kept d s).
Proof.
  unfold Spec.kept. destruct (getitem "title" d); [apply select_map | reflexivity].
Qed.

Lemma forallb_kept {A : Type} (p : A -> bool) (d : DataFrame) (s : list A) :
  forallb p s = true -> forallb p (Spec.kept d s) = true.
Proof.
  unfold Spec.kept. destruct (getitem "title" d); [apply forallb_select | auto].
Qed.

Lemma derive_year_fixed (d : DataFrame) : year_derived d -> derive_year d = d.
Proof.
  intros H. unfold derive_year, Spec.derive_year.
  destruct (getitem "publish_time" d) as [pt|e] eqn:Hpt; [|reflexivity].
  destruct (H pt Hpt) as [Hlike Hyear].
  cbv zeta. rewrite (convert_fixed _ _ _ Hlike).
  rewrite (setitem_same _ _ _ Hpt). apply setitem_same. exact Hyear.
Qed.

Lemma derive_word_count_fixed (d : DataFrame) :
  count_derived d -> Spec.derive_word_count d = d.
Proof.
  intros H. unfold Spec.derive_word_count.
  destruct (getitem "abstract" d) as [a|e] eqn:Ha; [|reflexivity].
  apply setitem_same. apply H. exact Ha.
Qed.

Lemma drop_untitled_again (d : DataFrame) :
  Spec.drop_untitled (Spec.drop_untitled d) = Spec.drop_untitled d.
Proof.
  unfold Spec.drop_untitled at 2 3.
  destruct (getitem "title" d) as [t|e] eqn:Ht.
  - unfold Spec.drop_untitled. rewrite getitem_loc, Ht. simpl.
    unfold loc. rewrite map_map. apply map_ext. intros [c s]. simpl.
    rewrite select_again. reflexivity.
  - unfold Spec.drop_untitled. rewrite Ht. reflexivity.
Qed.

Lemma year_derived_derive (df : DataFrame) :
  year_derived (Spec.derive_word_count (derive_year df)).
Proof.
  intros pt. rewrite !getitem_derive_word_count by reflexivity.
  unfold derive_year, Spec.derive_year.
  destruct (getitem "publish_time" df) as [p|e] eqn:Hp.
  - rewrite !getitem_setitem. simpl. intros H. injection H as <-.
    split; [apply convert_datetimelike | reflexivity].
  - rewrite Hp. discriminate.
Qed.

Lemma count_derived_derive (d : DataFrame) :
  count_derived (Spec.derive_word_count d).
Proof.
  intros a. unfold Spec.derive_word_count.
  destruct (getitem "abstract" d) as [a0|e] eqn:Ha.
  - rewrite !getitem_setitem. simpl. rewrite Ha. intros H. injection H as <-.
    reflexivity.
  - rewrite Ha. discriminate.
Qed.

Lemma year_derived_drop (d : DataFrame) :
  year_derived d -> year_derived (Spec.drop_untitled d).
Proof.
  intros H pt. rewrite !getitem_drop_untitled.
  destruct (getitem "publish_time" d) as [p|e] eqn:Hp; simpl; [|discriminate].
  intros E. injection E as <-.
  destruct (H p Hp) as [Hlike Hyear]. rewrite Hyear. simpl.
  split; [apply forallb_kept; exact Hlike | rewrite kept_map; reflexivity].
Qed.

Lemma count_derived_drop (d : DataFrame) :
  count_derived d -> count_derived (Spec.drop_untitled d).
Proof.
  intros H a. rewrite !getitem_drop_untitled.
  destruct (getitem "abstract" d) as [a0|e] eqn:Ha; simpl; [|discriminate].
  intros E. injection E as <-.
  rewrite (H a0 Ha). simpl. rewrite kept_map. reflexivity.
Qed.

(** The closed form is a fixed point of itself. *)
Lemma cleaned_again (df : DataFrame) : cleaned (cleaned df) = cleaned df.
Proof.
  unfold cleaned, Spec.cleaned. fold derive_year.
  set (x := Spec.derive_word_count (derive_year df)).
  assert (Hy : year_derived (Spec.drop_untitled x))
    by apply year_derived_drop, year_derived_derive.
  assert (Hc : count_derived (Spec.drop_untitled x))
    by apply count_derived_drop, count_derived_derive.
  pose proof (derive_year_fixed _ Hy) as E1.
  pose proof (derive_word_count_fixed _ Hc) as E2.
  unfold derive_year in *. subst x. rewrite E1, E2.
  apply drop_untitled_again.
Qed.

Lemma getitem_cleaned_abstract (df : DataFrame) :
  getitem "abstract" (cleaned df) =
  (a <- getitem "abstract" df ;; Returned (Spec.kept df a)).
Proof.
  unfold cleaned, Spec.cleaned. fold derive_year.
  rewrite getitem_drop_untitled.
  rewrite getitem_derive_word_count, getitem_derive_year by reflexivity.
  destruct (getitem "abstract" df); simpl; [|reflexivity].
  rewrite kept_derived. reflexivity.
Qed.

(** A table that holds a text in its abstract column is accepted by the
    [.str] accessor, whatever the dtype of a column without rows. *)
Lemma accepted_with_text (empty_as_object : bool) (d : DataFrame) :
  Spec.abstract_with_text d = true ->
  Vocab.refused_abstract empty_as_object d = false.
Proof.
  unfold Spec.abstract_with_text, Vocab.refused_abstract.
  destruct (getitem "abstract" d) as [a|e]; [|reflexivity].
  intros H. apply existsb_exists in H. destruct H as [v [Hv Hs]].
  destruct v as [|x|z|u]; try discriminate Hs.
  destruct a as [|v0 a]; [contradiction|].
  apply orb_false_iff. split.
  - destruct (forallb is_num (v0 :: a)) eqn:E; [|reflexivity].
    rewrite forallb_forall in E. specialize (E _ Hv). discriminate E.
  - destruct (forallb is_date (v0 :: a)) eqn:E; [|reflexivity].
    rewrite forallb_forall in E. specialize (E _ Hv). discriminate E.
Qed.

(** The dates of a cleaned table are converted already, and agree when
    those of the input do. *)
Lemma dates_agree_cleaned (df : DataFrame) :
  Spec.dates_agree parse_datetime epoch_datetime df = true ->
  Spec.dates_agree parse_datetime epoch_datetime (cleaned df) = true.
Proof.
  unfold Spec.dates_agree.
  assert (Hpt : getitem "publish_time" (cleaned df) =
                (pt <- getitem "publish_time" df ;;
                 Returned (Spec.kept df
                             (map (to_datetime_scalar parse_datetime epoch_datetime)
                                  pt)))).
  { unfold cleaned, Spec.cleaned. fold derive_year.
    rewrite getitem_drop_untitled.
    rewrite getitem_derive_word_count by reflexivity.
    unfold derive_year, Spec.derive_year.
    destruct (getitem "publish_time" df) as [pt|e] eqn:E.
    - rewrite !getitem_setitem. simpl.
      pose proof (kept_derived df
                    (map (to_datetime_scalar parse_datetime epoch_datetime) pt)) as Hk.
      unfold derive_year, Spec.derive_year in Hk. rewrite E in Hk.
      rewrite Hk. reflexivity.
    - rewrite E. reflexivity. }
  rewrite Hpt.
  destruct (getitem "publish_time" df) as [pt|e]; simpl; [|reflexivity].
  intros Hone.
  rewrite convert_fixed.
  - unfold Spec.kept. destruct (getitem "title" df); [|exact Hone].
    apply one_offset_select. exact Hone.
  - apply forallb_kept. apply convert_datetimelike.
Qed.
End ClosedFormFacts.

(** The method of the analyzer runs the same steps as the function of the
    dashboard and stores the result. *)
Lemma analyzer_clean_data parse_datetime epoch_datetime strict_offsets
      empty_as_object (self : cord19_analysis.CORD19Analyzer) :
  cord19_analysis.clean_data parse_datetime epoch_datetime strict_offsets
    empty_as_object self =
  (d <- cord19_analysis.frame (cord19_analysis.df self) ;;
   c <- streamlit_app.clean_data parse_datetime epoch_datetime strict_offsets
          empty_as_object d ;;
   Returned ({| cord19_analysis.data_path := cord19_analysis.data_path self;
                cord19_analysis.df := cord19_analysis.df self;
                cord19_analysis.cleaned_df := Some c |}, c)).
Proof.
  unfold cord19_analysis.clean_data, streamlit_app.clean_data.
  destruct (cord19_analysis.frame (cord19_analysis.df self)) as [d|e]; simpl;
    [|reflexivity].
  match goal with
  | |- bind ?m _ = _ => destruct m as [d1|e1]; simpl; [|reflexivity]
  end.
  match goal with
  | |- bind ?m _ = _ => destruct m as [d2|e2]; simpl; reflexivity
  end.
Qed.


Section CleanedColumns.
Variable parse_datetime : string -> option Timestamp.
Variable epoch_datetime : Z -> option Timestamp.

Let cleaned := Spec.cleaned parse_datetime epoch_datetime.
Let derive_year := Spec.derive_year parse_datetime epoch_datetime.

Lemma getitem_cleaned (c : string) (t : DataFrame) :
  getitem c (cleaned t) =
  (s <- getitem c (Spec.derive_word_count (derive_year t)) ;;
   Returned (Spec.kept t s)).
Proof.
  unfold cleaned, Spec.cleaned. rewrite getitem_drop_untitled.
  fold derive_year.
  destruct (getitem c (Spec.derive_word_count (derive_year t))); simpl;
    [|reflexivity].
  unfold derive_year. rewrite kept_derived. reflexivity.
Qed.

Lemma getitem_cleaned_input (c : string) (t : DataFrame) :
  String.eqb c "publish_time" = false ->
  String.eqb c "year" = false ->
  String.eqb c "abstract_word_count" = false ->
  getitem c (cleaned t) = (s <- getitem c t ;; Returned (Spec.kept t s)).
Proof.
  intros H1 H2 H3. rewrite getitem_cleaned.
  rewrite getitem_derive_word_count by exact H3.
  unfold derive_year. rewrite getitem_derive_year by assumption. reflexivity.
Qed.

Lemma getitem_cleaned_word_count (t : DataFrame) (a : Series) :
  getitem "abstract" t = Returned a ->
  getitem "abstract_word_count" (cleaned t) =
  Returned (map Spec.word_count_of (Spec.kept t a)).
Proof.
  intros Ha. rewrite getitem_cleaned.
  unfold Spec.derive_word_count, derive_year.
  rewrite getitem_derive_year by reflexivity. rewrite Ha.
  rewrite getitem_setitem. simpl. rewrite kept_map. reflexivity.
Qed.

Lemma getitem_cleaned_dates (t : DataFrame) (pt : Series) :
  getitem "publish_time" t = Returned pt ->
  getitem "publish_time" (cleaned t) =
    Returned (Spec.kept t (map (to_datetime_scalar parse_datetime epoch_datetime)
                             pt)) /\
  getitem "year" (cleaned t) =
    Returned (Spec.kept t (map (Spec.year_cell parse_datetime epoch_datetime) pt)).
Proof.
  intros Hpt. rewrite !getitem_cleaned.
  rewrite !getitem_derive_word_count by reflexivity.
  unfold derive_year, Spec.derive_year. rewrite Hpt.
  rewrite !getitem_setitem. simpl. split; [reflexivity|].
  unfold Spec.year_cell. rewrite map_map. reflexivity.
Qed.
End CleanedColumns.

(** ** Rows of a frame *)


Lemma rectangular_Forall (n : nat) (df : DataFrame) :
  Spec.rectangular n df = true <->
  Forall (fun cs => List.length (snd cs) = n) df.
Proof.
  unfold Spec.rectangular. rewrite forallb_forall, Forall_forall.
  split; intros H cs Hcs; [apply Nat.eqb_eq | apply Nat.eqb_eq]; apply H; exact Hcs.
Qed.

Lemma row_succ (i : nat) (df : DataFrame) : row (S i) df = row i (Spec.tails df).
Proof.
  unfold row, Spec.tails. rewrite map_map. apply map_ext. intros [c s]. simpl.
  destruct s as [|v s]; [destruct i; reflexivity | reflexivity].
Qed.

Lemma rows_cons (df : DataFrame) (n : nat) :
  df <> [] -> Spec.rectangular (S n) df = true ->
  rows df = row 0 df :: rows (Spec.tails df).
Proof.
  intros Hne Hrect. apply rectangular_Forall in Hrect.
  destruct df as [|[c0 s0] rest]; [contradiction|].
  inversion Hrect as [|? ? Hlen _]; subst. simpl in Hlen.
  unfold rows. simpl nrows. rewrite Hlen.
  destruct s0 as [|v0 s0]; [discriminate Hlen|].
  simpl in Hlen. injection Hlen as Hlen. simpl tl. rewrite Hlen.
  rewrite <- cons_seq, <- seq_shift, map_cons, map_map. f_equal.
  apply map_ext. intros i. apply row_succ.
Qed.

Lemma rows_empty (df : DataFrame) :
  Spec.rectangular 0 df = true -> rows df = [].
Proof.
  intros Hrect. apply rectangular_Forall in Hrect.
  unfold rows. destruct df as [|[c0 s0] rest]; [reflexivity|].
  inversion Hrect as [|? ? Hlen _]; subst. simpl in Hlen. simpl. rewrite Hlen.
  reflexivity.
Qed.

Lemma rectangular_tails (n : nat) (df : DataFrame) :
  Spec.rectangular (S n) df = true -> Spec.rectangular n (Spec.tails df) = true.
Proof.
  rewrite !rectangular_Forall. intros H. unfold Spec.tails. apply Forall_map.
  eapply Forall_impl; [|exact H]. intros [c s] Hs. simpl in *.
  destruct s; [discriminate Hs | simpl in *; lia].
Qed.

Lemma count_select {A : Type} (m : list bool) (s : list A) :
  List.length s = List.length m ->
  List.length (select m s) = List.length (filter (fun b => b) m).
Proof.
  revert s. induction m as [|b m IH]; intros [|v s]; simpl; intros H;
    try reflexivity; try discriminate H.
  injection H as H. destruct b; simpl; rewrite (IH s H); reflexivity.
Qed.

Lemma rectangular_loc (m : list bool) (df : DataFrame) :
  Spec.rectangular (List.length m) df = true ->
  Spec.rectangular (List.length (filter (fun b => b) m)) (loc m df) = true.
Proof.
  rewrite !rectangular_Forall. intros H. unfold loc. apply Forall_map.
  eapply Forall_impl; [|exact H]. intros [c s] Hs. simpl in *.
  apply count_select. exact Hs.
Qed.

Lemma loc_cons (b : bool) (m : list bool) (df : DataFrame) :
  Spec.rectangular (S (List.length m)) df = true ->
  Spec.tails (loc (true :: m) df) = loc m (Spec.tails df) /\
  row 0 (loc (true :: m) df) = row 0 df /\
  loc (false :: m) df = loc m (Spec.tails df).
Proof.
  intros H. apply rectangular_Forall in H. unfold loc, row, Spec.tails.
  rewrite !map_map.
  repeat split; apply map_ext_in; intros [c s] Hcs;
    rewrite Forall_forall in H; specialize (H _ Hcs); simpl in *;
    destruct s as [|v s]; try discriminate H; reflexivity.
Qed.

(** The rows of a masked frame are the rows at the positions where the mask
    is true. *)
Lemma rows_loc (m : list bool) (df : DataFrame) :
  Spec.rectangular (List.length m) df = true ->
  rows (loc m df) = select m (rows df).
Proof.
  revert df. induction m as [|b m IH]; intros df Hrect.
  - simpl in Hrect. rewrite (rows_empty df Hrect). simpl.
    apply rows_empty. apply (rectangular_loc [] df). exact Hrect.
  - destruct df as [|cs0 rest] eqn:Edf; [reflexivity|]. rewrite <- Edf in *.
    assert (Hne : df <> []) by (rewrite Edf; discriminate).
    simpl List.length in Hrect.
    rewrite (rows_cons df _ Hne Hrect).
    destruct (loc_cons b m df Hrect) as (Ht & Hr & Hf).
    pose proof (rectangular_tails _ _ Hrect) as Hrt.
    destruct b; simpl select.
    + pose proof (rectangular_loc (true :: m) df Hrect) as Hl. simpl in Hl.
      rewrite (rows_cons (loc (true :: m) df) _) with (2 := Hl).
      * rewrite Ht, Hr, (IH _ Hrt). reflexivity.
      * rewrite Edf. discriminate.
    + rewrite Hf. apply IH. exact Hrt.
Qed.

Lemma rectangular_setitem (n : nat) (c : string) (s : Series) (df : DataFrame) :
  Spec.rectangular n df = true -> List.length s = n ->
  Spec.rectangular n (setitem c s df) = true.
Proof.
  intros H Hs. unfold Spec.rectangular in *.
  induction df as [|[c0 s0] rest IH]; simpl in *.
  - rewrite Hs, Nat.eqb_refl. reflexivity.
  - apply andb_true_iff in H. destruct H as [H0 Hrest].
    destruct (String.eqb c c0); simpl.
    + rewrite Hs, Nat.eqb_refl, Hrest. reflexivity.
    + rewrite H0. apply IH. exact Hrest.
Qed.

Lemma getitem_rectangular (n : nat) (c : string) (s : Series) (df : DataFrame) :
  Spec.rectangular n df = true -> getitem c df = Returned s -> List.length s = n.
Proof.
  intros H. unfold Spec.rectangular in H.
  induction df as [|[c0 s0] rest IH]; simpl in *; [discriminate|].
  apply andb_true_iff in H. destruct H as [H0 Hrest].
  destruct (String.eqb c c0).
  - intros E. injection E as <-. apply Nat.eqb_eq. exact H0.
  - apply IH. exact Hrest.
Qed.

Lemma rectangular_derived parse_datetime epoch_datetime (n : nat) (t : DataFrame) :
  Spec.rectangular n t = true ->
  Spec.rectangular n
    (Spec.derive_word_count (Spec.derive_year parse_datetime epoch_datetime t))
  = true.
Proof.
  intros H.
  assert (H1 : Spec.rectangular n (Spec.derive_year parse_datetime epoch_datetime t)
               = true).
  { unfold Spec.derive_year.
    destruct (getitem "publish_time" t) as [pt|e] eqn:Hpt; [|exact H].
    pose proof (getitem_rectangular _ _ _ _ H Hpt) as Hlen.
    apply rectangular_setitem; [apply rectangular_setitem; [exact H|]|];
      rewrite ?length_map; exact Hlen. }
  unfold Spec.derive_word_count.
  destruct (getitem "abstract" _) as [a|e] eqn:Ha; [|exact H1].
  apply rectangular_setitem; [exact H1|].
  rewrite length_map. apply (getitem_rectangular _ _ _ _ H1 Ha).
Qed.

(** ** Fields of a list *)

Lemma emit_nil {A : Type} (cur : list A) : emit cur = [] <-> cur = [].
Proof. destruct cur; simpl; split; intros H; try reflexivity; discriminate H. Qed.

Lemma fields_nil {A : Type} (sep : A -> bool) (s cur : list A) :
  fields sep s cur = [] <-> cur = [] /\ forallb sep s = true.
Proof.
  revert cur. induction s as [|c s IH]; intros cur; simpl.
  - rewrite emit_nil. tauto.
  - destruct (sep c); simpl.
    + split.
      * intros H. apply app_eq_nil in H. destruct H as [H1 H2].
        apply (proj1 (emit_nil cur)) in H1. apply IH in H2. tauto.
      * intros [-> H]. simpl. apply IH. tauto.
    + rewrite IH. split.
      * intros [H _]. destruct cur; discriminate H.
      * intros [_ H]. discriminate H.
Qed.

(** The number of fields is the number of places where a run starts. *)
Lemma fields_length {A : Type} (sep : A -> bool) (s cur : list A) :
  List.length (fields sep s cur) =
  match cur with
  | [] => Spec.run_starts sep true s
  | _ :: _ => 1 + Spec.run_starts sep false s
  end.
Proof.
  revert cur. induction s as [|c s IH]; intros cur; simpl.
  - destruct cur; reflexivity.
  - destruct (sep c).
    + rewrite length_app, (IH []). destruct cur; simpl; reflexivity.
    + rewrite IH. destruct cur; simpl; reflexivity.
Qed.

(** A separator between two lists keeps their fields apart. *)
Lemma fields_app_sep {A : Type} (sep : A -> bool) (a b cur : list A) (c : A) :
  sep c = true ->
  fields sep (a ++ c :: b) cur = fields sep a cur ++ fields sep b [].
Proof.
  intros Hc. revert cur. induction a as [|x a IH]; intros cur; simpl.
  - rewrite Hc. reflexivity.
  - destruct (sep x); [|apply IH].
    rewrite IH, app_assoc. reflexivity.
Qed.

Section FieldsOfList.
Context {A : Type}.
Variable sep : A -> bool.

Let plain (l : list A) : Prop := forallb (fun c => negb (sep c)) l = true.

Lemma plain_app (l1 l2 : list A) : plain (l1 ++ l2) <-> plain l1 /\ plain l2.
Proof. unfold plain. rewrite forallb_app, andb_true_iff. reflexivity. Qed.

Lemma plain_cons (c : A) (l : list A) :
  plain (c :: l) <-> sep c = false /\ plain l.
Proof.
  unfold plain. simpl. rewrite andb_true_iff, negb_true_iff. reflexivity.
Qed.

Lemma plain_no_last (l p : list A) (c : A) :
  plain l -> l = p ++ [c] -> sep c = true -> False.
Proof.
  intros Hl -> Hc. apply plain_app in Hl. destruct Hl as [_ Hl].
  apply plain_cons in Hl. destruct Hl as [Hl _]. congruence.
Qed.

Lemma plain_no_first (l q : list A) (c : A) :
  plain l -> l = c :: q -> sep c = true -> False.
Proof.
  intros Hl -> Hc. apply plain_cons in Hl. destruct Hl as [Hl _]. congruence.
Qed.

(** A text without separator has one whole run, itself. *)
Lemma whole_run_plain (cur w : list A) :
  plain cur -> Spec.whole_run sep cur w -> w = cur.
Proof.
  intros Hcur (Hne & Hw & pre & post & E & Hpre & Hpost).
  rewrite E in Hcur. apply plain_app in Hcur. destruct Hcur as [Hp Hq].
  apply plain_app in Hq. destruct Hq as [_ Hq].
  destruct Hpre as [->|(p & c & Ep & Hc)];
    [|exfalso; exact (plain_no_last _ _ _ Hp Ep Hc)].
  destruct Hpost as [->|(c & q & Eq & Hc)];
    [|exfalso; exact (plain_no_first _ _ _ Hq Eq Hc)].
  rewrite E, app_nil_r. reflexivity.
Qed.

Lemma whole_run_self (cur post : list A) :
  cur <> [] -> plain cur ->
  (post = [] \/ exists c q, post = c :: q /\ sep c = true) ->
  Spec.whole_run sep (cur ++ post) cur.
Proof.
  intros Hne Hcur Hpost. split; [exact Hne|]. split; [exact Hcur|].
  exists [], post. simpl. auto.
Qed.

(** Behind a separator, the whole runs are those of the rest. *)
Lemma whole_run_after (cur s w : list A) (c : A) :
  sep c = true -> Spec.whole_run sep s w ->
  Spec.whole_run sep (cur ++ c :: s) w.
Proof.
  intros Hc (Hne & Hw & pre & post & E & Hpre & Hpost).
  split; [exact Hne|]. split; [exact Hw|].
  exists (cur ++ c :: pre), post.
  split; [rewrite E, <- app_assoc; reflexivity|].
  split; [|exact Hpost].
  right. destruct Hpre as [->|(p & c' & -> & Hc')].
  - exists cur, c. auto.
  - exists (cur ++ c :: p), c'. split; [|exact Hc'].
    rewrite <- app_assoc. reflexivity.
Qed.

(** A whole run of a text with a separator lies before or behind it. *)
Lemma whole_run_split (cur s w : list A) (c : A) :
  plain cur -> sep c = true ->
  Spec.whole_run sep (cur ++ c :: s) w ->
  (w = cur /\ cur <> []) \/ Spec.whole_run sep s w.
Proof.
  intros Hcur Hc (Hne & Hw & pre & post & E & Hpre & Hpost).
  apply app_eq_app in E. destruct E as [l [[E1 E2]|[E1 E2]]].
  - (* the run starts inside [cur] *)
    left.
    assert (pre = []) as ->.
    { destruct Hpre as [->|(p & c' & Ep & Hc')]; [reflexivity|].
      exfalso. rewrite E1 in Hcur. apply plain_app in Hcur.
      exact (plain_no_last _ _ _ (proj1 Hcur) Ep Hc'). }
    simpl in E1. subst l.
    apply app_eq_app in E2. destruct E2 as [l [[E3 E4]|[E3 E4]]].
    + (* cur ++ l = w, c :: s = l ++ post *)
      destruct l as [|c0 l].
      * rewrite app_nil_r in E3. subst w. auto.
      * exfalso. injection E4 as <- _.
        rewrite E3 in Hw. apply plain_app in Hw. destruct Hw as [_ Hw].
        exact (plain_no_first _ _ _ Hw eq_refl Hc).
    + (* w ++ l = cur, post = l ++ c :: s *)
      destruct l as [|c0 l].
      * rewrite app_nil_r in E3. subst w. auto.
      * exfalso. simpl in E4.
        destruct Hpost as [->|(c1 & q & Eq & Hc1)]; [discriminate E4|].
        rewrite Eq in E4. injection E4 as -> _.
        rewrite E3 in Hcur. apply plain_app in Hcur. destruct Hcur as [_ Hl].
        exact (plain_no_first _ _ _ Hl eq_refl Hc1).
  - (* the run starts behind [cur] *)
    right. destruct l as [|c0 l].
    + exfalso. simpl in E2. destruct w as [|c1 w]; [contradiction|].
      injection E2 as <- _.
      exact (plain_no_first _ _ _ Hw eq_refl Hc).
    + injection E2 as <- E2.
      split; [exact Hne|]. split; [exact Hw|].
      exists l, post. split; [exact E2|]. split; [|exact Hpost].
      destruct l as [|a l]; [left; reflexivity | right].
      destruct (@exists_last _ (a :: l)) as (p & c' & Ep); [discriminate|].
      exists p, c'. split; [exact Ep|].
      destruct Hpre as [->|(p0 & c0 & Ep0 & Hc0)];
        [destruct cur; discriminate E1|].
      rewrite Ep0, Ep in E1.
      change (cur ++ c :: p ++ [c']) with (cur ++ (c :: p) ++ [c']) in E1.
      rewrite app_assoc in E1. apply app_inj_tail in E1.
      destruct E1 as [_ ->]. exact Hc0.
Qed.

(** [fields] lists exactly the whole runs. *)
Lemma fields_whole_run (s cur w : list A) :
  plain cur ->
  (In w (fields sep s cur) <-> Spec.whole_run sep (cur ++ s) w).
Proof.
  revert cur. induction s as [|c s IH]; intros cur Hcur; simpl.
  - rewrite app_nil_r. split.
    + intros H. destruct cur as [|a cur]; [contradiction|].
      destruct H as [<-|[]].
      rewrite <- (app_nil_r (a :: cur)) at 1.
      apply whole_run_self; [discriminate | exact Hcur | auto].
    + intros H. pose proof (whole_run_plain _ _ Hcur H) as ->.
      destruct H as [Hne _]. destruct cur; [contradiction | left; reflexivity].
  - destruct (sep c) eqn:Hc.
    + rewrite in_app_iff, (IH [] eq_refl). simpl. split.
      * intros [H|H].
        -- destruct cur as [|a cur]; [contradiction|].
           destruct H as [<-|[]].
           apply whole_run_self; [discriminate | exact Hcur |].
           right. exists c, s. auto.
        -- apply whole_run_after; assumption.
      * intros H. destruct (whole_run_split _ _ _ _ Hcur Hc H) as [[-> Hne]|H'].
        -- left. destruct cur; [contradiction | left; reflexivity].
        -- right. exact H'.
    + rewrite IH.
      * rewrite <- app_assoc. reflexivity.
      * apply plain_app. split; [exact Hcur|].
        apply plain_cons. split; [exact Hc | reflexivity].
Qed.
(** [fields] lists the runs of a text. *)
Lemma fields_Runs (s cur : list A) :
  plain cur -> Spec.Runs sep (cur ++ s) (fields sep s cur).
Proof.
  revert cur. induction s as [|c s IH]; intros cur Hcur; simpl.
  - rewrite app_nil_r. destruct cur as [|x cur]; [constructor|].
    simpl. rewrite <- (app_nil_r (x :: cur)) at 1.
    apply Spec.Runs_run; [discriminate | exact Hcur | left; reflexivity |
                          constructor].
  - destruct (sep c) eqn:Hc.
    + specialize (IH [] eq_refl). simpl in IH.
      destruct cur as [|x cur]; simpl.
      * apply Spec.Runs_skip; assumption.
      * change (x :: cur ++ c :: s) with ((x :: cur) ++ c :: s).
        apply Spec.Runs_run; [discriminate | exact Hcur | |].
        -- right. exists c, s. split; [reflexivity | exact Hc].
        -- apply Spec.Runs_skip; assumption.
    + replace (cur ++ c :: s) with ((cur ++ [c]) ++ s)
        by (rewrite <- app_assoc; reflexivity).
      apply IH. apply plain_app. split; [exact Hcur|].
      unfold plain. simpl. rewrite Hc. reflexivity.
Qed.

Lemma run_unique (w1 w2 s1 s2 : list A) :
  plain w1 -> plain w2 ->
  (s1 = [] \/ exists c s', s1 = c :: s' /\ sep c = true) ->
  (s2 = [] \/ exists c s', s2 = c :: s' /\ sep c = true) ->
  w1 ++ s1 = w2 ++ s2 -> w1 = w2 /\ s1 = s2.
Proof.
  revert w2. induction w1 as [|x w1 IH]; intros w2 H1 H2 B1 B2 E.
  - destruct w2 as [|y w2]; [split; [reflexivity | exact E]|].
    exfalso. simpl in E. apply plain_cons in H2. destruct H2 as [Hy _].
    destruct B1 as [->|(c & s' & -> & Hc)]; [discriminate E|].
    injection E as -> _. congruence.
  - destruct w2 as [|y w2].
    + exfalso. simpl in E. apply plain_cons in H1. destruct H1 as [Hx _].
      destruct B2 as [->|(c & s' & -> & Hc)]; [discriminate E|].
      injection E as <- _. congruence.
    + simpl in E. injection E as <- E.
      apply plain_cons in H1. apply plain_cons in H2.
      destruct (IH w2 (proj2 H1) (proj2 H2) B1 B2 E) as [-> ->].
      split; reflexivity.
Qed.

Lemma Runs_inv (s : list A) (l : list (list A)) :
  Spec.Runs sep s l ->
  match s with
  | [] => l = []
  | c :: s' =>
      (sep c = true /\ Spec.Runs sep s' l) \/
      (sep c = false /\
       exists w s2 l',
         c :: s' = w ++ s2 /\ l = w :: l' /\ w <> [] /\ plain w /\
         (s2 = [] \/ exists c2 s3, s2 = c2 :: s3 /\ sep c2 = true) /\
         Spec.Runs sep s2 l')
  end.
Proof.
  intros H. destruct H as [|c s l Hc H|w s l Hw Hp Hb H].
  - reflexivity.
  - left. split; assumption.
  - destruct w as [|x w]; [contradiction|]. simpl. right.
    split; [apply plain_cons in Hp; tauto|].
    exists (x :: w), s, l. repeat split; assumption.
Qed.

(** A text has one list of runs. *)
Lemma Runs_unique (s : list A) (l1 l2 : list (list A)) :
  Spec.Runs sep s l1 -> Spec.Runs sep s l2 -> l1 = l2.
Proof.
  intros H1. revert l2.
  induction H1 as [|c s l1 Hc H1 IH|w s l1 Hw Hp Hb H1 IH]; intros l2 H2.
  - apply Runs_inv in H2. symmetry. exact H2.
  - apply Runs_inv in H2. destruct H2 as [[_ H2]|[Hc' _]]; [|congruence].
    apply IH. exact H2.
  - destruct w as [|x w]; [contradiction|].
    apply Runs_inv in H2. simpl in H2.
    destruct H2 as [[Hx _]|[_ (w' & s' & l' & E & -> & Hw' & Hp' & Hb' & H')]].
    + apply plain_cons in Hp. destruct Hp as [Hx' _]. congruence.
    + change (x :: w ++ s) with ((x :: w) ++ s) in E.
      destruct (run_unique (x :: w) w' s s' Hp Hp' Hb Hb' E) as [<- <-].
      f_equal. apply IH. exact H'.
Qed.
End FieldsOfList.

(** ** The characters of a text *)

Lemma chars_cons (b : ascii) (s : list ascii) :
  exists g rest, chars (b :: s) = (b :: g) :: rest.
Proof.
  simpl. destruct (chars s) as [|[|c w] rest].
  - exists [], []. reflexivity.
  - exists [], ([] :: rest). reflexivity.
  - destruct (negb (is_ascii b) && is_continuation c).
    + exists (c :: w), rest. reflexivity.
    + exists [], ((c :: w) :: rest). reflexivity.
Qed.

Lemma chars_cons_ascii (b : ascii) (s : list ascii) :
  is_ascii b = true -> chars (b :: s) = [b] :: chars s.
Proof.
  intros H. simpl. rewrite H. simpl.
  destruct (chars s) as [|[|c w] rest]; reflexivity.
Qed.

Lemma ascii_not_continuation (b : ascii) :
  is_ascii b = true -> is_continuation b = false.
Proof.
  unfold is_ascii, is_continuation, in_range. intros H.
  apply Nat.ltb_lt in H. apply andb_false_iff. left. apply Nat.leb_gt. lia.
Qed.

(** An ASCII character keeps the characters before it and behind it
    apart. *)
Lemma chars_app_ascii (a s : list ascii) (b : ascii) :
  is_ascii b = true -> chars (a ++ b :: s) = chars a ++ [b] :: chars s.
Proof.
  intros Hb. induction a as [|x a IH].
  - apply chars_cons_ascii. exact Hb.
  - change ((x :: a) ++ b :: s) with (x :: (a ++ b :: s)).
    cbn [chars]. rewrite IH.
    destruct a as [|y a].
    + simpl. rewrite (ascii_not_continuation b Hb), andb_false_r. reflexivity.
    + destruct (chars_cons y a) as (g & rest & E). rewrite E. simpl.
      destruct (negb (is_ascii x) && is_continuation y); reflexivity.
Qed.

(** The characters of a text are its bytes, in their order. *)
Lemma concat_chars (s : list ascii) : List.concat (chars s) = s.
Proof.
  induction s as [|b s IH]; [reflexivity|].
  cbn [chars]. destruct (chars s) as [|[|c w] rest] eqn:E.
  - simpl in *. rewrite <- IH. reflexivity.
  - simpl in *. rewrite <- IH. reflexivity.
  - destruct (negb (is_ascii b) && is_continuation c); simpl in *;
      rewrite <- IH; reflexivity.
Qed.

(** A character is one byte, or several bytes beyond ASCII. *)
Lemma chars_bytes (s : list ascii) :
  Forall (fun g => (exists b, g = [b]) \/
                   forallb (fun b => negb (is_ascii b)) g = true) (chars s).
Proof.
  induction s as [|b s IH]; [constructor|].
  cbn [chars]. destruct (chars s) as [|[|c w] rest] eqn:E.
  - constructor; [left; eauto | constructor].
  - constructor; [left; eauto | exact IH].
  - destruct (negb (is_ascii b) && is_continuation c) eqn:Hm.
    + inversion IH as [|? ? Hg Hrest]; subst.
      constructor; [|exact Hrest]. right.
      apply andb_true_iff in Hm. destruct Hm as [Hb Hc].
      cbn [forallb]. rewrite Hb. cbn [andb].
      destruct Hg as [[b0 Hg]|Hg].
      * injection Hg as -> ->. simpl. rewrite andb_true_r.
        unfold is_continuation, in_range in Hc. unfold is_ascii.
        apply andb_true_iff in Hc. destruct Hc as [Hc _].
        apply Nat.leb_le in Hc. apply negb_true_iff. apply Nat.ltb_ge. lia.
      * exact Hg.
    + constructor; [left; eauto | exact IH].
Qed.

(** A character of a text that is no ASCII character has no ASCII byte. *)
Lemma chars_beyond_ascii (s : list ascii) (c : char) :
  In c (chars s) -> ascii_char c = None ->
  forallb (fun b => negb (is_ascii b)) c = true.
Proof.
  intros Hc Hn. pose proof (chars_bytes s) as H.
  rewrite Forall_forall in H. destruct (H c Hc) as [[b ->]|Hall]; [|exact Hall].
  simpl in *. destruct (is_ascii b); [discriminate Hn | reflexivity].
Qed.

Lemma lower_byte_ascii (b : ascii) : is_ascii (lower_byte b) = is_ascii b.
Proof. destruct b as [[] [] [] [] [] [] [] []]; reflexivity. Qed.

Lemma lower_byte_continuation (b : ascii) :
  is_continuation (lower_byte b) = is_continuation b.
Proof. destruct b as [[] [] [] [] [] [] [] []]; reflexivity. Qed.

Lemma lower_byte_not_upper (b : ascii) : isupper (lower_byte b) = false.
Proof. destruct b as [[] [] [] [] [] [] [] []]; reflexivity. Qed.

Lemma lower_byte_idem (b : ascii) : lower_byte (lower_byte b) = lower_byte b.
Proof. destruct b as [[] [] [] [] [] [] [] []]; reflexivity. Qed.

Lemma lower_byte_beyond_ascii (b : ascii) :
  is_ascii b = false -> lower_byte b = b.
Proof. destruct b as [[] [] [] [] [] [] [] []]; simpl; intros H; try reflexivity; discriminate H. Qed.

(** Putting the ASCII letters in lowercase leaves the characters in
    place. *)
Lemma chars_map_lower_byte (s : list ascii) :
  chars (map lower_byte s) = map (map lower_byte) (chars s).
Proof.
  induction s as [|b s IH]; [reflexivity|].
  cbn [map chars]. rewrite IH.
  destruct (chars s) as [|[|c w] rest]; cbn [map]; try reflexivity.
  rewrite lower_byte_ascii, lower_byte_continuation.
  destruct (negb (is_ascii b) && is_continuation c); reflexivity.
Qed.

(** ** Tokens of a text *)

Lemma split_nil (s : string) : List.length (split s) = 0 <-> Spec.blank s = true.
Proof.
  unfold split, Spec.blank. rewrite length_map, length_zero_iff_nil, fields_nil.
  tauto.
Qed.

(** [str.split] gives as many tokens as the text has places where a run of
    characters that are no white space starts. *)
Lemma split_count (s : string) : List.length (split s) = Spec.token_count s.
Proof.
  unfold split, Spec.token_count. rewrite length_map.
  apply (fields_length isspace _ []).
Qed.

(** The tokens of [str.split] are the whole runs of characters that are no
    white space. *)
Lemma split_whole_runs (s w : string) :
  In w (split s) <->
  exists run,
    w = text_of run /\
    Spec.whole_run isspace (chars (list_ascii_of_string s)) run.
Proof.
  unfold split. rewrite in_map_iff. split.
  - intros [run [<- H]]. exists run. split; [reflexivity|].
    apply (fields_whole_run isspace _ [] run eq_refl) in H. exact H.
  - intros [run [-> H]]. exists run. split; [reflexivity|].
    apply (fields_whole_run isspace _ [] run eq_refl). exact H.
Qed.

Lemma blank_no_token (s : string) : Spec.token_count s = 0 <-> Spec.blank s = true.
Proof. rewrite <- split_count. apply split_nil. Qed.

(** ** The Cleaner applied twice *)

(** The claim C1 as stated fails.  A file whose abstracts are a number and
    a blank is read with a column of numbers, 5 and NaN; the blank is in
    the row without title.  The first cleaning fills the blank, so that the
    [.str] accessor finds a text beside the number; it then drops the row
    and leaves the number alone in the column.  The second cleaning raises
    [AttributeError] on that column: cleaning a cleaned table is no
    no-op. *)
Lemma clean_data_not_idempotent :
  exists t',
    forall strict_offsets empty_as_object,
      streamlit_app.clean_data Scenario.parse_iso_date Scenario.no_epoch
        strict_offsets empty_as_object Scenario.numbered_abstracts
      = Returned t' /\
      streamlit_app.clean_data Scenario.parse_iso_date Scenario.no_epoch
        strict_offsets empty_as_object t'
      = Raised AttributeError.
Proof.
  exists [("title", [Str "T"]); ("abstract", [Num 5]);
          ("abstract_word_count", [NA])].
  intros [] []; split; reflexivity.
Qed.

(** C1, amended.  Cleaning the table that a first cleaning has returned
    gives that very table again, so the re-derived [year] and
    [abstract_word_count] columns are unchanged, unless the [.str] accessor
    is refused on the abstract column that the first cleaning has left: on
    a column of numbers only (or timestamps only), and on a column without
    rows whose dtype is not [object], the second cleaning raises
    [AttributeError].  The same holds when the cleaning is done by the
    method of the analyzer. *)
Theorem clean_data_idempotent parse_datetime epoch_datetime strict_offsets
        empty_as_object (t t' : DataFrame) :
  streamlit_app.clean_data parse_datetime epoch_datetime strict_offsets
    empty_as_object t = Returned t' ->
  (Vocab.refused_abstract empty_as_object t' = false ->
   streamlit_app.clean_data parse_datetime epoch_datetime strict_offsets
     empty_as_object t' = Returned t' /\
   forall path c,
     exists self1 self2,
       cord19_analysis.clean_data parse_datetime epoch_datetime strict_offsets
         empty_as_object (cord19_analysis.mkAnalyzer path (Some t) c)
       = Returned (self1, t') /\
       cord19_analysis.cleaned_df self1 = Some t' /\
       cord19_analysis.clean_data parse_datetime epoch_datetime strict_offsets
         empty_as_object (cord19_analysis.mkAnalyzer path (Some t') c)
       = Returned (self2, t') /\
       cord19_analysis.cleaned_df self2 = Some t') /\
  (Spec.abstract_with_text t' = true ->
   Vocab.refused_abstract empty_as_object t' = false) /\
  (Vocab.refused_abstract empty_as_object t' = true ->
   streamlit_app.clean_data parse_datetime epoch_datetime strict_offsets
     empty_as_object t' = Raised AttributeError).
Proof.
  intros H1.
  destruct (clean_data_Returned _ _ _ _ _ _ H1) as (Hd & Hr & ->).
  pose proof (dates_agree_cleaned parse_datetime epoch_datetime t Hd) as Hd'.
  pose proof (clean_data_outcome parse_datetime epoch_datetime strict_offsets
                empty_as_object
                (Spec.cleaned parse_datetime epoch_datetime t)) as H2.
  rewrite Hd', cleaned_again in H2.
  split; [|split].
  - intros Hacc. rewrite Hacc in H2. split; [exact H2|].
    intros path c. eexists. eexists.
    rewrite !analyzer_clean_data. simpl. rewrite H1, H2. simpl.
    repeat split.
  - apply accepted_with_text.
  - intros Href. rewrite Href in H2. exact H2.
Qed.

Lemma clean_data_idempotent_witness :
  (Vocab.refused_abstract true Scenario.two_years_cleaned = false ->
   streamlit_app.clean_data Scenario.parse_iso_date Scenario.no_epoch true true
     Scenario.two_years_cleaned = Returned Scenario.two_years_cleaned /\
   forall path c,
     exists self1 self2,
       cord19_analysis.clean_data Scenario.parse_iso_date Scenario.no_epoch
         true true (cord19_analysis.mkAnalyzer path (Some Scenario.two_years) c)
       = Returned (self1, Scenario.two_years_cleaned) /\
       cord19_analysis.cleaned_df self1 = Some Scenario.two_years_cleaned /\
       cord19_analysis.clean_data Scenario.parse_iso_date Scenario.no_epoch
         true true
         (cord19_analysis.mkAnalyzer path (Some Scenario.two_years_cleaned) c)
       = Returned (self2, Scenario.two_years_cleaned) /\
       cord19_analysis.cleaned_df self2 = Some Scenario.two_years_cleaned) /\
  (Spec.abstract_with_text Scenario.two_years_cleaned = true ->
   Vocab.refused_abstract true Scenario.two_years_cleaned = false) /\
  (Vocab.refused_abstract true Scenario.two_years_cleaned = true ->
   streamlit_app.clean_data Scenario.parse_iso_date Scenario.no_epoch true true
     Scenario.two_years_cleaned = Raised AttributeError).
Proof.
  apply (clean_data_idempotent Scenario.parse_iso_date Scenario.no_epoch true true
           Scenario.two_years Scenario.two_years_cleaned). reflexivity.
Defined.

(** ** The rows that the Cleaner keeps *)

Lemma titles_present (title : Series) :
  (forall v, In v (filter notna title) <-> In v title /\ v <> NA) /\
  List.length (filter notna title) + Spec.occurrences value_eqb NA title
  = List.length title.
Proof.
  split.
  - intros v. rewrite filter_In. destruct v; simpl; split;
      intros [H1 H2]; split; try assumption; try discriminate; try reflexivity;
      congruence.
  - unfold Spec.occurrences.
    induction title as [|v title IH]; simpl; [reflexivity|].
    destruct v; simpl; lia.
Qed.

(** C3. On a table with a title column, the table that [clean_data]
    returns holds exactly the rows whose title is
    present, in their order: its title column is the input's without the
    missing entries, no title in it is missing, every title of the input
    that is present is in it, as many rows are dropped as the input has
    missing titles, and every column is the
    column of the table with the derived columns, restricted to the
    positions where the title is present; the columns of the input that are
    not re-derived are the input's own.  Row by row, on a table whose
    columns all have the length of the title column: the rows of the
    cleaned table are the rows with a title of the table with the derived
    columns.  [clean_data] returns a table when the dates of the table
    carry one UTC offset and the [.str] accessor takes the abstract
    column. *)
Theorem clean_data_drops_untitled parse_datetime epoch_datetime strict_offsets
        empty_as_object (t : DataFrame) (title : Series) :
  getitem "title" t = Returned title ->
  (Spec.dates_agree parse_datetime epoch_datetime t = true ->
   Vocab.refused_abstract empty_as_object t = false ->
   exists t',
     streamlit_app.clean_data parse_datetime epoch_datetime strict_offsets
       empty_as_object t = Returned t') /\
  forall t',
    streamlit_app.clean_data parse_datetime epoch_datetime strict_offsets
      empty_as_object t = Returned t' ->
    getitem "title" t' = Returned (filter notna title) /\
    Forall (fun v => v <> NA) (filter notna title) /\
    (forall v, In v (filter notna title) <-> In v title /\ v <> NA) /\
    List.length (filter notna title) + Spec.occurrences value_eqb NA title
    = List.length title /\
    (forall c,
        getitem c t' =
        (s <- getitem c (Spec.derive_word_count
                           (Spec.derive_year parse_datetime epoch_datetime t)) ;;
         Returned (select (map notna title) s))) /\
    (forall c s,
        c <> "publish_time" -> c <> "year" -> c <> "abstract_word_count" ->
        getitem c t = Returned s ->
        getitem c t' = Returned (select (map notna title) s)) /\
    (Spec.rectangular (List.length title) t = true ->
     rows t' =
     select (map notna title)
       (rows (Spec.derive_word_count
                (Spec.derive_year parse_datetime epoch_datetime t)))).
Proof.
  intros Htitle. split.
  { intros Hd Hr. eexists.
    rewrite clean_data_outcome, Hd, Hr. reflexivity. }
  intros t' Hclean.
  destruct (clean_data_Returned _ _ _ _ _ _ Hclean) as (_ & _ & ->).
  assert (Hkept : forall A (s : list A), Spec.kept t s = select (map notna title) s).
  { intros A s. unfold Spec.kept. rewrite Htitle. reflexivity. }
  split.
  { rewrite getitem_cleaned_input by reflexivity. rewrite Htitle. simpl.
    rewrite Hkept, select_filter. reflexivity. }
  split.
  { apply Forall_forall. intros v Hv. apply filter_In in Hv.
    destruct Hv as [_ Hv]. intros ->. discriminate Hv. }
  split; [apply titles_present|].
  split; [apply titles_present|].
  split.
  { intros c. rewrite getitem_cleaned.
    destruct (getitem c _); simpl; [rewrite Hkept|]; reflexivity. }
  split.
  { intros c s H1 H2 H3 Hc.
    rewrite getitem_cleaned_input by (apply String.eqb_neq; assumption).
    rewrite Hc. simpl. rewrite Hkept. reflexivity. }
  intros Hrect. unfold Spec.cleaned, Spec.drop_untitled.
  rewrite getitem_derive_word_count, getitem_derive_year by reflexivity.
  rewrite Htitle. apply rows_loc. rewrite length_map.
  apply rectangular_derived. exact Hrect.
Qed.

Lemma clean_data_drops_untitled_witness :
  (Spec.dates_agree Scenario.parse_iso_date Scenario.no_epoch Scenario.papers
   = true ->
   Vocab.refused_abstract true Scenario.papers = false ->
   exists t',
     streamlit_app.clean_data Scenario.parse_iso_date Scenario.no_epoch true true
       Scenario.papers = Returned t') /\
  forall t',
    streamlit_app.clean_data Scenario.parse_iso_date Scenario.no_epoch true true
      Scenario.papers = Returned t' ->
    getitem "title" t' =
      Returned (filter notna [Str "Covid spread patterns"; Str "Spread of the virus"; NA]) /\
    Forall (fun v => v <> NA)
      (filter notna [Str "Covid spread patterns"; Str "Spread of the virus"; NA]) /\
    (forall v,
        In v (filter notna
                [Str "Covid spread patterns"; Str "Spread of the virus"; NA]) <->
        In v [Str "Covid spread patterns"; Str "Spread of the virus"; NA] /\
        v <> NA) /\
    List.length (filter notna
                   [Str "Covid spread patterns"; Str "Spread of the virus"; NA])
    + Spec.occurrences value_eqb NA
        [Str "Covid spread patterns"; Str "Spread of the virus"; NA]
    = List.length [Str "Covid spread patterns"; Str "Spread of the virus"; NA] /\
    (forall c,
        getitem c t' =
        (s <- getitem c (Spec.derive_word_count
                           (Spec.derive_year Scenario.parse_iso_date
                              Scenario.no_epoch Scenario.papers)) ;;
         Returned (select (map notna
                     [Str "Covid spread patterns"; Str "Spread of the virus"; NA]) s))) /\
    (forall c s,
        c <> "publish_time" -> c <> "year" -> c <> "abstract_word_count" ->
        getitem c Scenario.papers = Returned s ->
        getitem c t' =
        Returned (select (map notna
                    [Str "Covid spread patterns"; Str "Spread of the virus"; NA]) s)) /\
    (Spec.rectangular
       (List.length [Str "Covid spread patterns"; Str "Spread of the virus"; NA])
       Scenario.papers = true ->
     rows t' =
     select (map notna [Str "Covid spread patterns"; Str "Spread of the virus"; NA])
       (rows (Spec.derive_word_count
                (Spec.derive_year Scenario.parse_iso_date Scenario.no_epoch
                   Scenario.papers)))).
Proof.
  apply (clean_data_drops_untitled Scenario.parse_iso_date Scenario.no_epoch
           true true Scenario.papers); reflexivity.
Defined.

(** The scenario of the three papers: the third row is dropped, and the
    word count of the second is zero. *)
Example papers_cleaned :
  streamlit_app.clean_data Scenario.parse_iso_date Scenario.no_epoch true true
    Scenario.papers
  = Returned
      [("title", [Str "Covid spread patterns"; Str "Spread of the virus"]);
       ("abstract",
        [Str "one two three four five six seven eight nine ten"; NA]);
       ("publish_time", [Date (mkTimestamp 2020 3 1 None); NA]);
       ("journal", [Str "Nature"; Str "Lancet"]);
       ("source_x", [Str "PMC"; Str "WHO"]);
       ("year", [Num 2020; NA]);
       ("abstract_word_count", [Num 10; Num 0])].
Proof. reflexivity. Qed.

(** ** The word count of the abstracts *)

(** The claim C4 as stated fails.  In a file whose abstracts are a number
    and a blank the column is one of numbers; the first paper, whose
    abstract is the number, gets no word count at all, neither zero nor
    another integer. *)
Lemma word_count_not_a_number :
  exists t',
    forall strict_offsets empty_as_object,
      streamlit_app.clean_data Scenario.parse_iso_date Scenario.no_epoch
        strict_offsets empty_as_object Scenario.counted_abstracts
      = Returned t' /\
      getitem "abstract" t' = Returned [Num 5; NA] /\
      getitem "abstract_word_count" t' = Returned [NA; Num 0].
Proof.
  exists [("title", [Str "T"; Str "U"]); ("abstract", [Num 5; NA]);
          ("abstract_word_count", [NA; Num 0])].
  intros [] []; repeat split.
Qed.

(** C4, amended.  In the table that [clean_data] returns for a table with
    an abstract column, every row whose abstract is a text has as word
    count a non-negative integer, the number of whitespace-separated tokens
    of the abstract, which is zero exactly when the abstract is empty or
    white space only; a row whose abstract is missing has the word count
    zero; a row whose abstract is a number or a timestamp has no word
    count. *)
Theorem abstract_word_count_correct parse_datetime epoch_datetime strict_offsets
        empty_as_object (t t' : DataFrame) :
  has_column "abstract" t = true ->
  streamlit_app.clean_data parse_datetime epoch_datetime strict_offsets
    empty_as_object t = Returned t' ->
  exists abstract counts,
    getitem "abstract" t' = Returned abstract /\
    getitem "abstract_word_count" t' = Returned counts /\
    Forall2 (fun a w =>
               match a with
               | NA => w = Num 0
               | Str s =>
                   exists n : nat,
                     w = Num (Z.of_nat n) /\
                     n = Spec.token_count s /\
                     (n = 0 <-> Spec.blank s = true)
               | Num _ | Date _ => w = NA
               end)
            abstract counts.
Proof.
  intros Hhas Hclean.
  destruct (clean_data_Returned _ _ _ _ _ _ Hclean) as (_ & _ & ->).
  destruct (has_column_getitem _ _ Hhas) as [a Ha].
  exists (Spec.kept t a), (map Spec.word_count_of (Spec.kept t a)).
  split; [rewrite getitem_cleaned_abstract, Ha; reflexivity|].
  split; [apply getitem_cleaned_word_count; exact Ha|].
  induction (Spec.kept t a) as [|v l IH]; simpl; constructor; [|exact IH].
  destruct v as [|x|z|d]; simpl; try reflexivity.
  exists (Spec.token_count x).
  split; [rewrite split_count; reflexivity|].
  split; [reflexivity | apply blank_no_token].
Qed.

Lemma abstract_word_count_correct_witness :
  exists abstract counts,
    getitem "abstract" Scenario.two_years_cleaned = Returned abstract /\
    getitem "abstract_word_count" Scenario.two_years_cleaned = Returned counts /\
    Forall2 (fun a w =>
               match a with
               | NA => w = Num 0
               | Str s =>
                   exists n : nat,
                     w = Num (Z.of_nat n) /\
                     n = Spec.token_count s /\
                     (n = 0 <-> Spec.blank s = true)
               | Num _ | Date _ => w = NA
               end)
            abstract counts.
Proof.
  apply (abstract_word_count_correct Scenario.parse_iso_date Scenario.no_epoch
           true true Scenario.two_years Scenario.two_years_cleaned);
    reflexivity.
Defined.

(** The tokens of an abstract are cut at any white space, also beyond
    ASCII: here a no-break space, a tabulator and an ideographic space. *)
Example tokens_counted :
  Spec.token_count "one two three four five six seven eight nine ten" = 10 /\
  Spec.token_count "  " = 0 /\
  Spec.token_count "n/a" = 1 /\
  split "a b	c　d" = ["a"; "b"; "c"; "d"].
Proof. repeat split. Qed.

(** ** Dates that cannot be read, and dates that do not agree *)

(** The claim C8 as stated fails.  Each of the two dates can be read, but
    they carry different offsets from UTC: the conversion of the column
    raises [ValueError] in pandas 3, in spite of [errors='coerce'], and
    leaves a column of objects in pandas 2, on which [.dt] raises
    [AttributeError].  The Cleaner raises on a table without any unreadable
    date. *)
Lemma clean_data_raises_on_offsets :
  Scenario.parse_iso_date "2020-03-01T09:00:00+01:00"
    = Some (mkTimestamp 2020 3 1 (Some 60%Z)) /\
  Scenario.parse_iso_date "2021-07-15T09:00:00-05:00"
    = Some (mkTimestamp 2021 7 15 (Some (-300)%Z)) /\
  forall empty_as_object,
    streamlit_app.clean_data Scenario.parse_iso_date Scenario.no_epoch
      true empty_as_object Scenario.zoned = Raised ValueError /\
    streamlit_app.clean_data Scenario.parse_iso_date Scenario.no_epoch
      false empty_as_object Scenario.zoned = Raised AttributeError.
Proof.
  split; [reflexivity|]. split; [reflexivity|].
  intros []; split; reflexivity.
Qed.

(** C8, amended.  A date that cannot be read never makes the Cleaner
    raise.  On a table whose dates, as far as they can be read, carry one
    offset from UTC or none, and whose abstract column is taken by the
    [.str] accessor, [clean_data] returns a table; in each row that it
    keeps, a [publish_time] text that cannot be parsed has become a missing
    date and a missing year, and a text that can be parsed has become its
    date and the integer year of that date.  When the dates that can be
    read carry different offsets from UTC, [clean_data] raises:
    [ValueError] from the conversion, or [AttributeError] from the [.dt]
    accessor. *)
Theorem clean_data_coerces_dates parse_datetime epoch_datetime strict_offsets
        empty_as_object (t : DataFrame) (pt : Series) :
  getitem "publish_time" t = Returned pt ->
  (Spec.dates_agree parse_datetime epoch_datetime t = false ->
   streamlit_app.clean_data parse_datetime epoch_datetime strict_offsets
     empty_as_object t
   = Raised (if strict_offsets then ValueError else AttributeError)) /\
  (Spec.dates_agree parse_datetime epoch_datetime t = true ->
   Vocab.refused_abstract empty_as_object t = false ->
   exists t' dates year,
     streamlit_app.clean_data parse_datetime epoch_datetime strict_offsets
       empty_as_object t = Returned t' /\
     getitem "publish_time" t' = Returned dates /\
     getitem "year" t' = Returned year /\
     List.length dates = List.length (Spec.kept t pt) /\
     List.length year = List.length (Spec.kept t pt) /\
     forall i s,
       nth_error (Spec.kept t pt) i = Some (Str s) ->
       match parse_datetime s with
       | None => nth_error dates i = Some NA /\ nth_error year i = Some NA
       | Some d =>
           nth_error dates i = Some (Date d) /\
           nth_error year i = Some (Num (ts_year d))
       end).
Proof.
  intros Hpt. split.
  { intros Hd. rewrite clean_data_outcome, Hd. reflexivity. }
  intros Hd Hr.
  destruct (getitem_cleaned_dates parse_datetime epoch_datetime t pt Hpt)
    as [Hdates Hyear].
  rewrite kept_map in Hdates, Hyear.
  eexists. eexists. eexists.
  split; [rewrite clean_data_outcome, Hd, Hr; reflexivity|].
  split; [exact Hdates|]. split; [exact Hyear|].
  split; [apply length_map|]. split; [apply length_map|].
  intros i s Hi. rewrite !nth_error_map, Hi. simpl.
  unfold Spec.year_cell. simpl.
  destruct (parse_datetime s); split; reflexivity.
Qed.

Lemma clean_data_coerces_dates_witness :
  (Spec.dates_agree Scenario.parse_iso_date Scenario.no_epoch Scenario.dated
   = false ->
   streamlit_app.clean_data Scenario.parse_iso_date Scenario.no_epoch true true
     Scenario.dated
   = Raised (if true then ValueError else AttributeError)) /\
  (Spec.dates_agree Scenario.parse_iso_date Scenario.no_epoch Scenario.dated
   = true ->
   Vocab.refused_abstract true Scenario.dated = false ->
   exists t' dates year,
     streamlit_app.clean_data Scenario.parse_iso_date Scenario.no_epoch true true
       Scenario.dated = Returned t' /\
     getitem "publish_time" t' = Returned dates /\
     getitem "year" t' = Returned year /\
     List.length dates =
       List.length (Spec.kept Scenario.dated
                      [Str "2020-03-01"; Str "not-a-date"; Str "2021-07-15"]) /\
     List.length year =
       List.length (Spec.kept Scenario.dated
                      [Str "2020-03-01"; Str "not-a-date"; Str "2021-07-15"]) /\
     forall i s,
       nth_error (Spec.kept Scenario.dated
                    [Str "2020-03-01"; Str "not-a-date"; Str "2021-07-15"]) i
       = Some (Str s) ->
       match Scenario.parse_iso_date s with
       | None => nth_error dates i = Some NA /\ nth_error year i = Some NA
       | Some d =>
           nth_error dates i = Some (Date d) /\
           nth_error year i = Some (Num (ts_year d))
       end).
Proof.
  apply (clean_data_coerces_dates Scenario.parse_iso_date Scenario.no_epoch
           true true Scenario.dated
           [Str "2020-03-01"; Str "not-a-date"; Str "2021-07-15"]).
  reflexivity.
Defined.

(** The scenario of the dates: years 2020, missing, 2021. *)
Example dated_years :
  (t' <- streamlit_app.clean_data Scenario.parse_iso_date Scenario.no_epoch
           true true Scenario.dated ;;
   getitem "year" t') = Returned [Num 2020; NA; Num 2021].
Proof. reflexivity. Qed.

(** ** Aggregations on a table without the column they read *)

(** C2. When the column it reads is absent from the cleaned table, each of
    the four aggregations returns [None], the empty result, and does not
    raise. *)
Theorem aggregations_without_column ties unicode_alnum unicode_lower
        str_of_scalar (self : cord19_analysis.CORD19Analyzer) (cleaned : DataFrame)
        (top_n : option Z) :
  cord19_analysis.cleaned_df self = Some cleaned ->
  (has_column "year" cleaned = false ->
   cord19_analysis.analyze_publications_by_year ties self = Returned None) /\
  (has_column "journal" cleaned = false ->
   cord19_analysis.analyze_top_journals ties self top_n = Returned None) /\
  (has_column "title" cleaned = false ->
   cord19_analysis.analyze_title_words unicode_alnum unicode_lower str_of_scalar
     self top_n = Returned None) /\
  (has_column "source_x" cleaned = false ->
   cord19_analysis.analyze_sources ties self top_n = Returned None).
Proof.
  intros Hself.
  unfold cord19_analysis.analyze_publications_by_year,
    cord19_analysis.analyze_top_journals,
    cord19_analysis.analyze_title_words,
    cord19_analysis.analyze_sources.
  rewrite Hself. simpl.
  repeat split; intros ->; reflexivity.
Qed.

Lemma aggregations_without_column_witness :
  cord19_analysis.analyze_publications_by_year Scenario.first_met
    (Scenario.analyzer_of Scenario.bare) = Returned None /\
  cord19_analysis.analyze_top_journals Scenario.first_met
    (Scenario.analyzer_of Scenario.bare) None = Returned None /\
  cord19_analysis.analyze_title_words Scenario.latin_alnum
    Scenario.latin_lower Scenario.no_scalar
    (Scenario.analyzer_of Scenario.bare) None = Returned None /\
  cord19_analysis.analyze_sources Scenario.first_met
    (Scenario.analyzer_of Scenario.bare) None = Returned None.
Proof.
  destruct (aggregations_without_column Scenario.first_met
              Scenario.latin_alnum Scenario.latin_lower Scenario.no_scalar
              (Scenario.analyzer_of Scenario.bare) Scenario.bare None eq_refl)
    as (H1 & H2 & H3 & H4).
  split; [apply H1; reflexivity|].
  split; [apply H2; reflexivity|].
  split; [apply H3; reflexivity | apply H4; reflexivity].
Defined.

(** ** Title words without any token *)

(** C10. When the title column is present but no token of the titles
    survives the tokenization and the stop-word filter, the one-shot
    [analyze_title_words] raises [ValueError] at the unpacking of the empty
    frequency list; it returns no result. *)
Theorem analyze_title_words_raises unicode_alnum unicode_lower str_of_scalar
        (self : cord19_analysis.CORD19Analyzer) (cleaned : DataFrame)
        (title : Series) (top_n : option Z) :
  cord19_analysis.cleaned_df self = Some cleaned ->
  getitem "title" cleaned = Returned title ->
  filter (fun word => negb (cord19_analysis.is_stop_word word))
    (findall_words unicode_alnum
       (lower unicode_lower
          (join " " (astype_str str_of_scalar (fillna (Str "") title))))) = [] ->
  cord19_analysis.analyze_title_words unicode_alnum unicode_lower str_of_scalar
    self top_n = Raised ValueError.
Proof.
  intros Hself Htitle Hnone.
  unfold cord19_analysis.analyze_title_words. rewrite Hself. simpl.
  rewrite (getitem_has_column _ _ _ Htitle), Htitle. simpl.
  unfold cord19_analysis.word_freq. rewrite Hnone.
  unfold most_common, Counter. simpl. rewrite firstn_nil. reflexivity.
Qed.

Lemma analyze_title_words_raises_witness :
  cord19_analysis.analyze_title_words Scenario.latin_alnum
    Scenario.latin_lower Scenario.no_scalar
    (Scenario.analyzer_of Scenario.stop_titles) None = Raised ValueError.
Proof.
  apply (analyze_title_words_raises Scenario.latin_alnum Scenario.latin_lower
           Scenario.no_scalar
           (Scenario.analyzer_of Scenario.stop_titles) Scenario.stop_titles
           [Str "The and for"; Str "With THIS, that."; Str ""] None);
    reflexivity.
Defined.

(** The dashboard guards the unpacking and draws nothing on the same table. *)
Example title_words_guarded :
  streamlit_app.title_words Scenario.latin_alnum Scenario.latin_lower
    Scenario.no_scalar Scenario.stop_titles 15
  = Returned None.
Proof. reflexivity. Qed.

(** ** Counting tables *)

Section Counting.
Context {A : Type} (eqb : A -> A -> bool).
Hypothesis eqb_eq : forall x y, eqb x y = true <-> x = y.

Let occ := Spec.occurrences eqb.
Let uniq := Spec.uniq eqb.

Lemma eqb_refl' (x : A) : eqb x x = true.
Proof. apply eqb_eq. reflexivity. Qed.

Lemma eqb_neq' (x y : A) : eqb x y = false <-> x <> y.
Proof.
  split.
  - intros H E. apply eqb_eq in E. congruence.
  - intros H. destruct (eqb x y) eqn:E; [|reflexivity].
    apply eqb_eq in E. contradiction.
Qed.

Lemma Counter_snoc (l : list A) (x : A) :
  Counter eqb (l ++ [x]) = incr eqb x (Counter eqb l).
Proof. unfold Counter. rewrite fold_left_app. reflexivity. Qed.

Lemma incr_sum (x : A) (tbl : list (A * nat)) :
  list_sum (map snd (incr eqb x tbl)) = S (list_sum (map snd tbl)).
Proof.
  induction tbl as [|[k c] tbl IH]; simpl; [reflexivity|].
  destruct (eqb x k); simpl; [reflexivity|]. rewrite IH. lia.
Qed.

(** The counts of a counting table add up to the number of counted
    elements. *)
Lemma Counter_sum (l : list A) :
  list_sum (map snd (Counter eqb l)) = List.length l.
Proof.
  induction l as [|x l IH] using rev_ind; [reflexivity|].
  rewrite Counter_snoc, incr_sum, IH, length_app. simpl. lia.
Qed.

Lemma occ_snoc (k x : A) (l : list A) :
  occ k (l ++ [x]) = occ k l + (if eqb k x then 1 else 0).
Proof.
  unfold occ, Spec.occurrences. rewrite filter_app, length_app. simpl.
  destruct (eqb k x); reflexivity.
Qed.

Lemma occ_snoc_same (x : A) (l : list A) : occ x (l ++ [x]) = S (occ x l).
Proof. rewrite occ_snoc, eqb_refl'. lia. Qed.

Lemma occ_snoc_other (k x : A) (l : list A) :
  k <> x -> occ k (l ++ [x]) = occ k l.
Proof.
  intros H. apply eqb_neq' in H. rewrite occ_snoc, H. lia.
Qed.

Lemma occ_absent (x : A) (l : list A) : ~ In x l -> occ x l = 0.
Proof.
  intros H. unfold occ, Spec.occurrences.
  induction l as [|y l IH]; simpl; [reflexivity|].
  destruct (eqb x y) eqn:E.
  - apply eqb_eq in E. subst y. exfalso. apply H. left. reflexivity.
  - apply IH. intros Hin. apply H. right. exact Hin.
Qed.

Lemma In_uniq (k : A) (l : list A) : In k (uniq l) <-> In k l.
Proof.
  induction l as [|x l IH]; simpl; [tauto|].
  rewrite filter_In, IH. split.
  - intros [H|[H _]]; auto.
  - intros [H|H]; [auto|].
    destruct (eqb k x) eqn:E.
    + left. symmetry. apply eqb_eq. exact E.
    + right. split; [exact H | reflexivity].
Qed.

Lemma NoDup_uniq (l : list A) : NoDup (uniq l).
Proof.
  induction l as [|x l IH]; simpl; constructor.
  - rewrite filter_In. intros [_ H]. rewrite eqb_refl' in H. discriminate H.
  - apply NoDup_filter. exact IH.
Qed.

Lemma uniq_snoc (l : list A) (x : A) :
  uniq (l ++ [x]) = if existsb (eqb x) l then uniq l else uniq l ++ [x].
Proof.
  induction l as [|a l IH]; simpl; [reflexivity|].
  fold (uniq (l ++ [x])). fold (uniq l). rewrite IH.
  destruct (eqb x a) eqn:E; simpl.
  - destruct (existsb (eqb x) l); [reflexivity|].
    rewrite filter_app. simpl. rewrite E. simpl. rewrite app_nil_r. reflexivity.
  - destruct (existsb (eqb x) l); [reflexivity|].
    rewrite filter_app. simpl. rewrite E. reflexivity.
Qed.

Lemma incr_absent (x : A) (tbl : list (A * nat)) :
  ~ In x (map fst tbl) -> incr eqb x tbl = tbl ++ [(x, 1)].
Proof.
  induction tbl as [|[k c] tbl IH]; simpl; intros H; [reflexivity|].
  destruct (eqb x k) eqn:E.
  - apply eqb_eq in E. subst k. tauto.
  - rewrite IH by tauto. reflexivity.
Qed.

Lemma incr_present (x : A) (f g : A -> nat) (ks : list A) :
  NoDup ks -> In x ks ->
  g x = S (f x) -> (forall k, k <> x -> g k = f k) ->
  incr eqb x (map (fun k => (k, f k)) ks) = map (fun k => (k, g k)) ks.
Proof.
  intros Hnd Hin Hx Hk.
  induction ks as [|k ks IH]; simpl; [contradiction|].
  inversion Hnd as [|? ? Hnotin Hnd']; subst.
  destruct (eqb x k) eqn:E.
  - apply eqb_eq in E. subst k. rewrite Hx. f_equal.
    apply map_ext_in. intros k Hkin. rewrite Hk; [reflexivity|].
    intros ->. contradiction.
  - apply eqb_neq' in E. rewrite Hk by congruence. f_equal.
    apply IH; [exact Hnd'|]. destruct Hin; [congruence | assumption].
Qed.

(** The counting table lists the distinct elements in order of first
    occurrence, each with its number of occurrences. *)
Lemma Counter_closed (l : list A) :
  Counter eqb l = map (fun k => (k, occ k l)) (uniq l).
Proof.
  induction l as [|x l IH] using rev_ind; [reflexivity|].
  rewrite Counter_snoc, IH, uniq_snoc.
  destruct (existsb (eqb x) l) eqn:E.
  - apply incr_present.
    + apply NoDup_uniq.
    + apply (proj2 (In_uniq _ _)). apply existsb_exists in E. destruct E as [y [Hy Hxy]].
      apply eqb_eq in Hxy. subst y. exact Hy.
    + apply occ_snoc_same.
    + intros k Hk. apply occ_snoc_other. exact Hk.
  - assert (Hnot : ~ In x l).
    { intros Hin. assert (existsb (eqb x) l = true); [|congruence].
      apply existsb_exists. exists x. split; [exact Hin | apply eqb_refl']. }
    rewrite incr_absent.
    + rewrite map_app. simpl. f_equal.
      * apply map_ext_in. intros k Hk. rewrite occ_snoc_other; [reflexivity|].
        intros ->. apply (proj1 (In_uniq _ _)) in Hk. contradiction.
      * rewrite occ_snoc_same, (occ_absent _ _ Hnot). reflexivity.
    + rewrite map_map. simpl. rewrite map_id. rewrite In_uniq. exact Hnot.
Qed.
End Counting.

(** ** Sorted lists *)

Lemma SSorted_In_impl {A : Type} (R R' : A -> A -> Prop) (l : list A) :
  (forall a b, In a l -> In b l -> R a b -> R' a b) ->
  StronglySorted R l -> StronglySorted R' l.
Proof.
  intros Himp H. induction H as [|a l Hs IH Hall]; constructor.
  - apply IH. intros x y Hx Hy. apply Himp; right; assumption.
  - rewrite Forall_forall in *. intros b Hb.
    apply Himp; [left; reflexivity | right; exact Hb | apply Hall; exact Hb].
Qed.

Lemma SSorted_filter {A : Type} (R : A -> A -> Prop) (q : A -> bool) (l : list A) :
  StronglySorted R l -> StronglySorted R (filter q l).
Proof.
  intros H. induction H as [|a l Hs IH Hall]; simpl; [constructor|].
  destruct (q a); [|exact IH].
  constructor; [exact IH|].
  rewrite Forall_forall in *. intros b Hb. apply filter_In in Hb.
  apply Hall. tauto.
Qed.

Lemma SSorted_app_inv {A : Type} (R : A -> A -> Prop) (l1 l2 : list A) :
  StronglySorted R (l1 ++ l2) ->
  StronglySorted R l1 /\ forall a b, In a l1 -> In b l2 -> R a b.
Proof.
  induction l1 as [|x l1 IH]; simpl; intros H.
  - split; [constructor | contradiction].
  - inversion H as [|? ? Hs Hall]; subst.
    destruct (IH Hs) as [Hs1 Hcross].
    rewrite Forall_forall in Hall.
    split.
    + constructor; [exact Hs1|]. apply Forall_forall. intros b Hb.
      apply Hall. apply in_or_app. left. exact Hb.
    + intros a b [<-|Ha] Hb.
      * apply Hall. apply in_or_app. right. exact Hb.
      * apply Hcross; assumption.
Qed.

Lemma SSorted_firstn {A : Type} (R : A -> A -> Prop) (n : nat) (l : list A) :
  StronglySorted R l ->
  StronglySorted R (firstn n l) /\
  forall a b, In a (firstn n l) -> In b (skipn n l) -> R a b.
Proof.
  intros H. apply SSorted_app_inv. rewrite firstn_skipn. exact H.
Qed.

(** ** Sorting a counting table by decreasing count *)

Section Ranking.
Context {A : Type} (r : A -> nat).

(** Larger count first; among equal counts, smaller rank first. *)
Let ranked (e1 e2 : A * nat) : Prop :=
  snd e2 < snd e1 \/ (snd e1 = snd e2 /\ r (fst e1) < r (fst e2)).

Lemma insert_desc_perm (e : A * nat) (l : list (A * nat)) :
  Permutation (e :: l) (insert_desc e l).
Proof.
  induction l as [|y ys IH]; simpl; [apply Permutation_refl|].
  destruct (snd y <=? snd e); [apply Permutation_refl|].
  eapply perm_trans; [apply perm_swap|]. apply perm_skip. exact IH.
Qed.

Lemma sort_desc_perm (l : list (A * nat)) : Permutation l (sort_desc l).
Proof.
  induction l as [|e l IH]; simpl; [constructor|].
  eapply perm_trans; [apply perm_skip; exact IH | apply insert_desc_perm].
Qed.

Lemma insert_desc_ranked (e : A * nat) (l : list (A * nat)) :
  StronglySorted ranked l ->
  Forall (fun y => r (fst e) < r (fst y)) l ->
  StronglySorted ranked (insert_desc e l).
Proof.
  intros Hs Hr. induction Hs as [|y ys Hs IH Hall]; simpl.
  - constructor; constructor.
  - inversion Hr as [|? ? Hry Hrys]; subst.
    destruct (snd y <=? snd e) eqn:E.
    + apply Nat.leb_le in E.
      constructor; [constructor; assumption|].
      constructor.
      * unfold ranked. destruct (Nat.eq_dec (snd y) (snd e)); [right | left]; lia.
      * rewrite Forall_forall in *. intros z Hz.
        pose proof (Hall z Hz) as Hyz. pose proof (Hrys z Hz) as Hrz.
        unfold ranked in *. lia.
    + apply Nat.leb_gt in E.
      constructor; [apply IH; exact Hrys|].
      apply Forall_forall. intros z Hz.
      apply (Permutation_in _ (Permutation_sym (insert_desc_perm e ys))) in Hz.
      destruct Hz as [<-|Hz].
      * unfold ranked. left. exact E.
      * rewrite Forall_forall in Hall. apply Hall. exact Hz.
Qed.

(** The sort is stable: on a table listed by increasing rank it yields the
    ranking by count, then rank. *)
Lemma sort_desc_ranked (l : list (A * nat)) :
  StronglySorted (fun a b => r (fst a) < r (fst b)) l ->
  StronglySorted ranked (sort_desc l).
Proof.
  intros H. induction H as [|e l Hs IH Hall]; simpl; [constructor|].
  apply insert_desc_ranked; [exact IH|].
  eapply Permutation_Forall; [apply sort_desc_perm | exact Hall].
Qed.
End Ranking.

(** ** The most frequent keys *)

Section TopCounts.
Context {A : Type} (eqb : A -> A -> bool).
Hypothesis eqb_eq : forall x y, eqb x y = true <-> x = y.

Let occ := Spec.occurrences eqb.
Let idx := Spec.first_index eqb.

Lemma first_index_head (x : A) (l : list A) : idx x (x :: l) = 0.
Proof. unfold idx. simpl. rewrite (eqb_refl' eqb eqb_eq). reflexivity. Qed.

Lemma first_index_tail (k x : A) (l : list A) :
  k <> x -> idx k (x :: l) = S (idx k l).
Proof.
  intros H. unfold idx. simpl.
  apply (eqb_neq' eqb eqb_eq) in H. rewrite H. reflexivity.
Qed.

(** The distinct elements that satisfy [p] are listed by increasing
    position of first occurrence in the whole list. *)
Lemma uniq_filter_by_first_index (p : A -> bool) (l : list A) :
  StronglySorted (fun a b => idx a l < idx b l) (Spec.uniq eqb (filter p l)).
Proof.
  induction l as [|x l IH]; [constructor|].
  assert (Htail : forall a b, a <> x -> b <> x ->
                    idx a l < idx b l -> idx a (x :: l) < idx b (x :: l)).
  { intros a b Ha Hb Hab. rewrite !first_index_tail by assumption. lia. }
  cbn [filter]. destruct (p x) eqn:Hp.
  - cbn [Spec.uniq]. constructor.
    + apply SSorted_In_impl with (R := fun a b => idx a l < idx b l).
      * intros a b Ha Hb Hab.
        apply filter_In in Ha. apply filter_In in Hb.
        destruct Ha as [_ Ha]. destruct Hb as [_ Hb].
        apply negb_true_iff in Ha. apply negb_true_iff in Hb.
        apply (eqb_neq' eqb eqb_eq) in Ha. apply (eqb_neq' eqb eqb_eq) in Hb.
        apply Htail; assumption.
      * apply SSorted_filter. exact IH.
    + apply Forall_forall. intros b Hb. apply filter_In in Hb.
      destruct Hb as [_ Hb]. apply negb_true_iff in Hb.
      apply (eqb_neq' eqb eqb_eq) in Hb.
      rewrite first_index_head, first_index_tail by assumption. lia.
  - apply SSorted_In_impl with (R := fun a b => idx a l < idx b l);
      [|exact IH].
    assert (Hne : forall a, In a (Spec.uniq eqb (filter p l)) -> a <> x).
    { intros a Ha ->. apply (proj1 (In_uniq eqb eqb_eq _ _)) in Ha. apply filter_In in Ha.
      destruct Ha as [_ Ha]. congruence. }
    intros a b Ha Hb Hab. apply Htail; auto.
Qed.

Lemma occ_filter (p : A -> bool) (k : A) (l : list A) :
  p k = true -> occ k (filter p l) = occ k l.
Proof.
  intros Hp. unfold occ, Spec.occurrences.
  induction l as [|x l IH]; simpl; [reflexivity|].
  destruct (p x) eqn:Hx; simpl.
  - destruct (eqb k x); simpl; rewrite IH; reflexivity.
  - destruct (eqb k x) eqn:E; [|exact IH].
    apply eqb_eq in E. subst x. congruence.
Qed.

Lemma occ_pos (k : A) (l : list A) : In k l -> 0 < occ k l.
Proof.
  intros H. unfold occ, Spec.occurrences.
  induction l as [|x l IH]; simpl; [contradiction|].
  destruct (eqb k x) eqn:E; simpl; [lia|].
  destruct H as [H|H]; [|apply IH; exact H].
  subst x. rewrite (eqb_refl' eqb eqb_eq) in E. discriminate E.
Qed.

(** What [Counter] holds of the elements of [l] that satisfy [p]. *)
Lemma Counter_filter_In (p : A -> bool) (l : list A) (k : A) (c : nat) :
  In (k, c) (Counter eqb (filter p l)) <-> (In k l /\ p k = true /\ c = occ k l).
Proof.
  rewrite (Counter_closed eqb eqb_eq). split.
  - intros H. apply in_map_iff in H.
    destruct H as [k' [E Hk]]. injection E as E1 E2. subst k' c.
    apply (proj1 (In_uniq eqb eqb_eq _ _)) in Hk. apply filter_In in Hk.
    destruct Hk as [Hin Hp].
    split; [exact Hin|]. split; [exact Hp|]. apply occ_filter. exact Hp.
  - intros (Hin & Hp & ->). apply in_map_iff.
    exists k. split.
    + f_equal. apply occ_filter. exact Hp.
    + apply (proj2 (In_uniq eqb eqb_eq _ _)). apply filter_In. tauto.
Qed.

Lemma Counter_keys_NoDup (l : list A) : NoDup (map fst (Counter eqb l)).
Proof.
  rewrite (Counter_closed eqb eqb_eq), map_map. simpl. rewrite map_id.
  apply NoDup_uniq. exact eqb_eq.
Qed.

(** The first [n] entries of a table of counts that is listed by
    non-increasing count, whatever the order of equal counts. *)
Lemma top_of_counts (p : A -> bool) (l : list A) (tbl : list (A * nat)) (n : nat) :
  Permutation (Counter eqb (filter p l)) tbl ->
  StronglySorted (fun e1 e2 => snd e2 <= snd e1) tbl ->
  let top := firstn n tbl in
  List.length top <= n /\
  StronglySorted (fun e1 e2 => snd e2 <= snd e1) top /\
  NoDup (map fst top) /\
  (forall k c, In (k, c) top -> In k l /\ p k = true /\ c = occ k l /\ 0 < c) /\
  (forall k, In k l -> p k = true ->
     In (k, occ k l) top \/
     (List.length top = n /\ forall e, In e top -> occ k l <= snd e)).
Proof.
  intros Hperm Hsorted top. subst top.
  destruct (SSorted_firstn _ n _ Hsorted) as [Hs Hcross].
  split; [apply firstn_le_length|].
  split; [exact Hs|].
  split.
  { rewrite <- firstn_map.
    assert (Hnd : NoDup (map fst tbl)).
    { eapply Permutation_NoDup; [apply Permutation_map; exact Hperm|].
      apply Counter_keys_NoDup. }
    rewrite <- (firstn_skipn n (map fst tbl)) in Hnd.
    apply NoDup_app_remove_r in Hnd. exact Hnd. }
  split.
  { intros k c Hin.
    assert (Hin' : In (k, c) tbl).
    { rewrite <- (firstn_skipn n tbl). apply in_or_app. left. exact Hin. }
    apply (Permutation_in _ (Permutation_sym Hperm)) in Hin'.
    apply Counter_filter_In in Hin'. destruct Hin' as (H1 & H2 & H3).
    repeat split; try assumption. subst c. apply occ_pos. exact H1. }
  intros k Hk Hp.
  assert (Hin : In (k, occ k l) tbl).
  { apply (Permutation_in _ Hperm). apply Counter_filter_In. auto. }
  rewrite <- (firstn_skipn n tbl) in Hin. apply in_app_or in Hin.
  destruct Hin as [Hin|Hin]; [left; exact Hin|].
  right. split.
  - rewrite length_firstn. apply Nat.min_l.
    destruct (Nat.le_gt_cases n (List.length tbl)) as [Hle|Hgt];
      [exact Hle|].
    rewrite skipn_all2 in Hin by lia. contradiction.
  - intros e He. apply (Hcross e (k, occ k l)); assumption.
Qed.

(** The table of the elements of [l] that satisfy [p], by decreasing
    count. *)
Let table (p : A -> bool) (l : list A) : list (A * nat) :=
  sort_desc (Counter eqb (filter p l)).

Lemma table_In (p : A -> bool) (l : list A) (k : A) (c : nat) :
  In (k, c) (table p l) <-> (In k l /\ p k = true /\ c = occ k l).
Proof.
  unfold table.
  split.
  - intros H.
    apply (Permutation_in _ (Permutation_sym (sort_desc_perm _))) in H.
    rewrite (Counter_closed eqb eqb_eq) in H. apply in_map_iff in H.
    destruct H as [k' [E Hk]]. injection E as E1 E2. subst k' c.
    apply (proj1 (In_uniq eqb eqb_eq _ _)) in Hk. apply filter_In in Hk.
    destruct Hk as [Hin Hp].
    split; [exact Hin|]. split; [exact Hp|]. apply occ_filter. exact Hp.
  - intros (Hin & Hp & ->).
    apply (Permutation_in _ (sort_desc_perm _)).
    rewrite (Counter_closed eqb eqb_eq). apply in_map_iff.
    exists k. split.
    + f_equal. apply occ_filter. exact Hp.
    + apply (proj2 (In_uniq eqb eqb_eq _ _)). apply filter_In. tauto.
Qed.

Lemma table_keys_NoDup (p : A -> bool) (l : list A) :
  NoDup (map fst (table p l)).
Proof.
  unfold table.
  eapply Permutation_NoDup.
  - apply Permutation_map. apply sort_desc_perm.
  - rewrite (Counter_closed eqb eqb_eq), map_map. simpl. rewrite map_id.
    apply NoDup_uniq. exact eqb_eq.
Qed.

Lemma table_ranked (p : A -> bool) (l : list A) :
  StronglySorted (Spec.ranks_before eqb l) (table p l).
Proof.
  unfold table.
  apply (sort_desc_ranked (fun k => idx k l)).
  rewrite (Counter_closed eqb eqb_eq).
  pose proof (uniq_filter_by_first_index p l) as H.
  induction H as [|a u Hs IH Hall]; simpl; constructor.
  - exact IH.
  - rewrite Forall_forall in *. intros e He. apply in_map_iff in He.
    destruct He as [b [<- Hb]]. simpl. apply Hall. exact Hb.
Qed.

(** The first [n] entries of the table are the [n] best ranked keys. *)
Lemma top_of_table (p : A -> bool) (l : list A) (n : nat) :
  let top := firstn n (table p l) in
  List.length top <= n /\
  StronglySorted (Spec.ranks_before eqb l) top /\
  StronglySorted (fun e1 e2 => snd e2 <= snd e1) top /\
  NoDup (map fst top) /\
  (forall k c, In (k, c) top -> In k l /\ p k = true /\ c = occ k l /\ 0 < c) /\
  (forall k, In k l -> p k = true ->
     In (k, occ k l) top \/
     (List.length top = n /\
      forall e, In e top -> Spec.ranks_before eqb l e (k, occ k l))).
Proof.
  intros top. subst top.
  destruct (SSorted_firstn _ n _ (table_ranked p l)) as [Hs Hcross].
  split; [apply firstn_le_length|].
  split; [exact Hs|].
  split.
  { eapply SSorted_In_impl; [|exact Hs].
    intros a b _ _ Hab. unfold Spec.ranks_before in Hab. lia. }
  split.
  { rewrite <- firstn_map.
    pose proof (table_keys_NoDup p l) as Hnd.
    rewrite <- (firstn_skipn n (map fst (table p l))) in Hnd.
    apply NoDup_app_remove_r in Hnd. exact Hnd. }
  split.
  { intros k c Hin.
    assert (Hin' : In (k, c) (table p l)).
    { rewrite <- (firstn_skipn n (table p l)). apply in_or_app. left. exact Hin. }
    apply table_In in Hin'. destruct Hin' as (H1 & H2 & H3).
    repeat split; try assumption. subst c. apply occ_pos. exact H1. }
  intros k Hk Hp.
  assert (Hin : In (k, occ k l) (table p l)) by (apply table_In; auto).
  rewrite <- (firstn_skipn n (table p l)) in Hin. apply in_app_or in Hin.
  destruct Hin as [Hin|Hin]; [left; exact Hin|].
  right. split.
  - rewrite length_firstn. apply Nat.min_l.
    destruct (Nat.le_gt_cases n (List.length (table p l))) as [Hle|Hgt];
      [exact Hle|].
    rewrite skipn_all2 in Hin by lia. contradiction.
  - intros e He. apply Hcross; assumption.
Qed.
End TopCounts.

(** ** Equality of cells *)

Lemma Timestamp_eqb_eq (a b : Timestamp) : Timestamp_eqb a b = true <-> a = b.
Proof.
  unfold Timestamp_eqb. destruct a as [y1 m1 d1 o1], b as [y2 m2 d2 o2]. simpl.
  rewrite !andb_true_iff, !Z.eqb_eq.
  assert (Ho : offset_eqb o1 o2 = true <-> o1 = o2).
  { destruct o1 as [x|], o2 as [y|]; simpl; try rewrite Z.eqb_eq;
      split; congruence. }
  rewrite Ho. split.
  - intros [[[-> ->] ->] ->]. reflexivity.
  - intros E. injection E as -> -> -> ->. auto.
Qed.

Lemma value_eqb_eq (a b : value) : value_eqb a b = true <-> a = b.
Proof.
  destruct a as [|x|x|x], b as [|y|y|y]; simpl;
    try (split; [discriminate | discriminate]); try tauto.
  - rewrite String.eqb_eq. split; [intros ->; reflexivity | intros E; injection E; auto].
  - rewrite Z.eqb_eq. split; [intros ->; reflexivity | intros E; injection E; auto].
  - rewrite Timestamp_eqb_eq. split; [intros ->; reflexivity | intros E; injection E; auto].
Qed.

Lemma string_eqb_eq (a b : string) : String.eqb a b = true <-> a = b.
Proof. apply String.eqb_eq. Qed.

Lemma notna_true (v : value) : notna v = true <-> v <> NA.
Proof. unfold notna. destruct v; simpl; split; intros H; congruence. Qed.

Lemma head_pos {A : Type} (n : Z) (l : list A) :
  (0 < n)%Z -> head n l = firstn (Z.to_nat n) l.
Proof.
  intros H. unfold head. destruct (0 <=? n)%Z eqn:E; [reflexivity|].
  apply Z.leb_gt in E. lia.
Qed.

(** ** Sorting a counting table by count, whatever the order of ties *)

Section SortValues.
Variable ties : value -> value -> bool.

Lemma insert_count_perm (e : value * nat) (l : Counts) :
  Permutation (e :: l) (insert_count ties e l).
Proof.
  induction l as [|y ys IH]; simpl; [apply Permutation_refl|].
  destruct ((snd y <? snd e) || (snd y =? snd e) && ties (fst e) (fst y));
    [apply Permutation_refl|].
  eapply perm_trans; [apply perm_swap|]. apply perm_skip. exact IH.
Qed.

Lemma sort_values_perm (l : Counts) : Permutation l (sort_values ties l).
Proof.
  induction l as [|e l IH]; simpl; [constructor|].
  eapply perm_trans; [apply perm_skip; exact IH | apply insert_count_perm].
Qed.

Lemma insert_count_sorted (e : value * nat) (l : Counts) :
  StronglySorted (fun e1 e2 => snd e2 <= snd e1) l ->
  StronglySorted (fun e1 e2 => snd e2 <= snd e1) (insert_count ties e l).
Proof.
  intros Hs. induction Hs as [|y ys Hs IH Hall]; simpl.
  - constructor; constructor.
  - destruct ((snd y <? snd e) || (snd y =? snd e) && ties (fst e) (fst y)) eqn:E.
    + assert (Hle : snd y <= snd e).
      { apply orb_true_iff in E. destruct E as [E|E].
        - apply Nat.ltb_lt in E. lia.
        - apply andb_true_iff in E. destruct E as [E _].
          apply Nat.eqb_eq in E. lia. }
      constructor; [constructor; assumption|].
      constructor; [exact Hle|].
      rewrite Forall_forall in *. intros z Hz.
      pose proof (Hall z Hz). lia.
    + apply orb_false_iff in E. destruct E as [E _].
      apply Nat.ltb_ge in E.
      constructor; [exact IH|].
      apply Forall_forall. intros z Hz.
      apply (Permutation_in _ (Permutation_sym (insert_count_perm e ys))) in Hz.
      destruct Hz as [<-|Hz]; [exact E|].
      rewrite Forall_forall in Hall. apply Hall. exact Hz.
Qed.

Lemma sort_values_sorted (l : Counts) :
  StronglySorted (fun e1 e2 => snd e2 <= snd e1) (sort_values ties l).
Proof.
  induction l as [|e l IH]; simpl; [constructor|].
  apply insert_count_sorted. exact IH.
Qed.

(** What [value_counts] holds, whatever its order. *)
Lemma value_counts_In (s : Series) (k : value) (c : nat) :
  In (k, c) (value_counts ties s) <->
  (In k s /\ k <> NA /\ c = Spec.occurrences value_eqb k s).
Proof.
  unfold value_counts.
  rewrite <- notna_true, <- (Counter_filter_In value_eqb value_eqb_eq).
  split; apply Permutation_in;
    [apply Permutation_sym |]; apply sort_values_perm.
Qed.

Lemma value_counts_sum (s : Series) :
  list_sum (map snd (value_counts ties s)) = List.length (filter notna s).
Proof.
  unfold value_counts.
  rewrite <- (Counter_sum value_eqb (filter notna s)).
  apply Permutation_list_sum, Permutation_map, Permutation_sym, sort_values_perm.
Qed.

Lemma value_counts_NoDup (s : Series) : NoDup (map fst (value_counts ties s)).
Proof.
  unfold value_counts.
  eapply Permutation_NoDup; [apply Permutation_map, sort_values_perm|].
  apply (Counter_keys_NoDup value_eqb value_eqb_eq).
Qed.
End SortValues.



(** ** Top journals *)




(** The scenario of the journals under a stable sort: two entries, Cell
    left out. *)
Example top_two_journals :
  cord19_analysis.analyze_top_journals Scenario.first_met
    (Scenario.analyzer_of Scenario.journals) (Some 2%Z)
  = Returned (Some [(Str "Nature", 2); (Str "Lancet", 1)]).
Proof. reflexivity. Qed.

(** ** Sorting a counting table by label *)

Lemma insert_key_perm (e : value * nat) (l : Counts) :
  Permutation (e :: l) (insert_key e l).
Proof.
  induction l as [|y ys IH]; simpl; [apply Permutation_refl|].
  destruct (value_leb (fst e) (fst y)); [apply Permutation_refl|].
  eapply perm_trans; [apply perm_swap|]. apply perm_skip. exact IH.
Qed.

Lemma sort_keys_perm (l : Counts) : Permutation l (fold_right insert_key [] l).
Proof.
  induction l as [|e l IH]; simpl; [constructor|].
  eapply perm_trans; [apply perm_skip; exact IH | apply insert_key_perm].
Qed.

Lemma key_lt_trans (a b c : value * nat) :
  Spec.key_lt a b -> Spec.key_lt b c -> Spec.key_lt a c.
Proof.
  unfold Spec.key_lt.
  destruct (fst a), (fst b), (fst c); try tauto. apply Z.lt_trans.
Qed.

Lemma insert_key_sorted (e : value * nat) (l : Counts) :
  Spec.is_year (fst e) = true -> fst e <> NA ->
  Forall (fun y => Spec.is_year (fst y) = true /\ fst y <> NA) l ->
  ~ In (fst e) (map fst l) ->
  StronglySorted Spec.key_lt l ->
  StronglySorted Spec.key_lt (insert_key e l).
Proof.
  intros He Hna Hl Hnotin Hs.
  induction Hs as [|y ys Hs IH Hall]; simpl.
  - constructor; constructor.
  - inversion Hl as [|? ? [Hy Hyna] Hys]; subst.
    simpl in Hnotin.
    assert (Hcmp : (value_leb (fst e) (fst y) = true /\ Spec.key_lt e y) \/
                   (value_leb (fst e) (fst y) = false /\ Spec.key_lt y e)).
    { unfold Spec.key_lt.
      destruct (fst e) as [| |a|]; try discriminate He; try congruence.
      destruct (fst y) as [| |b|]; try discriminate Hy; try congruence.
      simpl. destruct (a <=? b)%Z eqn:E.
      - left. split; [reflexivity|]. apply Z.leb_le in E.
        assert (a <> b) by (intros ->; apply Hnotin; left; reflexivity). lia.
      - right. split; [reflexivity|]. apply Z.leb_gt in E. exact E. }
    destruct Hcmp as [[-> Hlt]|[-> Hlt]].
    + constructor; [constructor; assumption|].
      constructor; [exact Hlt|].
      rewrite Forall_forall in *. intros z Hz.
      apply key_lt_trans with y; [exact Hlt | apply Hall; exact Hz].
    + constructor.
      * apply IH; [exact Hys | tauto].
      * apply Forall_forall. intros z Hz.
        apply (Permutation_in _ (Permutation_sym (insert_key_perm e ys))) in Hz.
        destruct Hz as [<-|Hz]; [exact Hlt|].
        rewrite Forall_forall in Hall. apply Hall. exact Hz.
Qed.

Lemma sort_keys_sorted (l : Counts) :
  Forall (fun y => Spec.is_year (fst y) = true /\ fst y <> NA) l ->
  NoDup (map fst l) ->
  StronglySorted Spec.key_lt (fold_right insert_key [] l).
Proof.
  induction l as [|e l IH]; simpl; intros Hl Hnd; [constructor|].
  inversion Hl as [|? ? [He Hna] Hl']; subst.
  inversion Hnd as [|? ? Hnotin Hnd']; subst.
  apply insert_key_sorted; try assumption.
  - eapply Permutation_Forall; [apply sort_keys_perm | exact Hl'].
  - intros Hin. apply Hnotin.
    eapply Permutation_in; [|exact Hin].
    apply Permutation_map, Permutation_sym, sort_keys_perm.
  - apply IH; assumption.
Qed.

Lemma same_kind_years (keys : list value) :
  Forall (fun k => Spec.is_year k = true /\ k <> NA) keys ->
  same_kind keys = true.
Proof.
  intros H. destruct H as [|k ks [Hk Hna] Hks]; simpl; [reflexivity|].
  apply forallb_forall. intros k' Hk'.
  rewrite Forall_forall in Hks. destruct (Hks k' Hk') as [H1 H2].
  destruct k; try discriminate Hk; try congruence.
  destruct k'; try discriminate H1; try congruence. reflexivity.
Qed.


(** ** Publications by year *)

(** C5. On a cleaned table whose year column holds integers and missing
    values, publications-by-year returns a table in strictly ascending order
    of year; its labels are exactly the years that occur, each with its
    number of rows; a missing year is not a label; the counts add up to the
    number of rows with a year.  The dashboard computes the same table. *)
Theorem publications_by_year_counts ties (self : cord19_analysis.CORD19Analyzer)
        (cleaned : DataFrame) (year : Series) :
  cord19_analysis.cleaned_df self = Some cleaned ->
  getitem "year" cleaned = Returned year ->
  forallb Spec.is_year year = true ->
  exists counts,
    cord19_analysis.analyze_publications_by_year ties self = Returned (Some counts) /\
    streamlit_app.year_counts ties cleaned = Returned (Some counts) /\
    StronglySorted Spec.key_lt counts /\
    (forall k c,
        In (k, c) counts <->
        (In k year /\ k <> NA /\ c = Spec.occurrences value_eqb k year)) /\
    ~ In NA (map fst counts) /\
    list_sum (map snd counts) = List.length (filter notna year).
Proof.
  intros Hself Hyear Hint.
  exists (fold_right insert_key [] (value_counts ties year)).
  assert (Hkeys : Forall (fun y => Spec.is_year (fst y) = true /\ fst y <> NA)
                         (value_counts ties year)).
  { apply Forall_forall. intros [k c] H. apply (value_counts_In ties) in H.
    destruct H as (Hin & Hna & _). simpl. split; [|exact Hna].
    rewrite forallb_forall in Hint. apply Hint. exact Hin. }
  assert (Hsort : sort_index (value_counts ties year) =
                  Returned (fold_right insert_key [] (value_counts ties year))).
  { unfold sort_index. rewrite same_kind_years; [reflexivity|].
    apply Forall_map. exact Hkeys. }
  split.
  { unfold cord19_analysis.analyze_publications_by_year. rewrite Hself. simpl.
    rewrite (getitem_has_column _ _ _ Hyear), Hyear. simpl.
    rewrite Hsort. reflexivity. }
  split.
  { unfold streamlit_app.year_counts.
    rewrite (getitem_has_column _ _ _ Hyear), Hyear. simpl.
    rewrite Hsort. reflexivity. }
  split.
  { apply sort_keys_sorted; [exact Hkeys|].
    apply value_counts_NoDup. }
  assert (Hin : forall k c,
             In (k, c) (fold_right insert_key [] (value_counts ties year)) <->
             (In k year /\ k <> NA /\ c = Spec.occurrences value_eqb k year)).
  { intros k c. rewrite <- (value_counts_In ties). split; intros H.
    - eapply Permutation_in; [apply Permutation_sym, sort_keys_perm | exact H].
    - eapply Permutation_in; [apply sort_keys_perm | exact H]. }
  split; [exact Hin|].
  split.
  { intros H. apply in_map_iff in H. destruct H as [[k c] [E H]].
    simpl in E. subst k. apply Hin in H. tauto. }
  rewrite <- (value_counts_sum ties).
  apply Permutation_list_sum, Permutation_map, Permutation_sym, sort_keys_perm.
Qed.

Lemma publications_by_year_counts_witness :
  exists counts,
    cord19_analysis.analyze_publications_by_year Scenario.last_met
      (Scenario.analyzer_of Scenario.years) = Returned (Some counts) /\
    streamlit_app.year_counts Scenario.last_met Scenario.years = Returned (Some counts) /\
    StronglySorted Spec.key_lt counts /\
    (forall k c,
        In (k, c) counts <->
        (In k [Num 2021; NA; Num 2020; Num 2021] /\ k <> NA /\
         c = Spec.occurrences value_eqb k [Num 2021; NA; Num 2020; Num 2021])) /\
    ~ In NA (map fst counts) /\
    list_sum (map snd counts) =
    List.length (filter notna [Num 2021; NA; Num 2020; Num 2021]).
Proof.
  apply (publications_by_year_counts Scenario.last_met
           (Scenario.analyzer_of Scenario.years)
           Scenario.years [Num 2021; NA; Num 2020; Num 2021]);
    reflexivity.
Defined.

(** Three dated rows out of four, in two years. *)
Example years_counted :
  cord19_analysis.analyze_publications_by_year Scenario.last_met
    (Scenario.analyzer_of Scenario.years)
  = Returned (Some [(Num 2020, 1); (Num 2021, 2)]).
Proof. reflexivity. Qed.

(** The scenario of the dates, counted: one paper in 2020, one in 2021. *)
Example dated_counts :
  (t' <- streamlit_app.clean_data Scenario.parse_iso_date Scenario.no_epoch
           true true Scenario.dated ;;
   streamlit_app.year_counts Scenario.first_met t')
  = Returned (Some [(Num 2020, 1); (Num 2021, 1)]).
Proof. reflexivity. Qed.

(** The Cleaner always leaves integers and missing values in a year column
    that it derives. *)
Lemma cleaned_year_is_year parse_datetime epoch_datetime
      (t : DataFrame) (pt year : Series) :
  getitem "publish_time" t = Returned pt ->
  getitem "year" (Spec.cleaned parse_datetime epoch_datetime t) = Returned year ->
  forallb Spec.is_year year = true.
Proof.
  intros Hpt Hy.
  destruct (getitem_cleaned_dates parse_datetime epoch_datetime t pt Hpt) as [_ H].
  rewrite H in Hy. injection Hy as <-.
  apply forallb_kept. apply forallb_forall. intros v Hv.
  apply in_map_iff in Hv. destruct Hv as [x [<- _]].
  unfold Spec.year_cell, year_of.
  destruct (to_datetime_scalar parse_datetime epoch_datetime x); reflexivity.
Qed.

(** ** Title words *)

Lemma lowercase_letter_byte (b : ascii) :
  isalpha b = true -> isupper b = false -> in_range 97 122 b = true.
Proof.
  unfold isalpha, isupper. intros H1 H2. rewrite H2 in H1. exact H1.
Qed.

Lemma lowercase_is_letter (c : char) :
  Spec.lowercase_letter c = true -> letter c = true.
Proof.
  destruct c as [|b [|b' c]]; simpl; try discriminate.
  unfold isalpha. intros ->. apply orb_true_r.
Qed.

Lemma beyond_ascii_not_upper (b : ascii) :
  is_ascii b = false -> isupper b = false.
Proof.
  destruct b as [[] [] [] [] [] [] [] []]; try reflexivity; discriminate.
Qed.

Lemma latin_lower_no_capital : Spec.no_capital Scenario.latin_lower.
Proof.
  assert (Hsame : forall c,
             forallb (fun b => negb (is_ascii b)) c = true ->
             forallb (fun b => negb (isupper b)) c = true).
  { intros c H. apply forallb_forall. intros b Hb.
    rewrite forallb_forall in H. specialize (H b Hb).
    apply negb_true_iff in H. apply negb_true_iff.
    apply beyond_ascii_not_upper. exact H. }
  intros c H. unfold Scenario.latin_lower, codes.
  destruct c as [|b1 [|b2 [|b3 r]]]; cbn [map]; try (apply Hsame; exact H).
  destruct ((nat_of_ascii b1 =? 195) && (128 <=? nat_of_ascii b2)
            && (nat_of_ascii b2 <=? 158) && negb (nat_of_ascii b2 =? 151)) eqn:E;
    [|apply Hsame; exact H].
  apply andb_true_iff in E. destruct E as [E _].
  apply andb_true_iff in E. destruct E as [E E3].
  apply andb_true_iff in E. destruct E as [_ E2].
  clear H.
  destruct b2 as [[] [] [] [] [] [] [] []]; try reflexivity; discriminate E2.
Qed.

Lemma forallb_ext_In {A : Type} (f g : A -> bool) (l : list A) :
  (forall x, In x l -> f x = g x) -> forallb f l = forallb g l.
Proof.
  intros H. induction l as [|x l IH]; simpl; [reflexivity|].
  rewrite (H x (or_introl eq_refl)), IH; [reflexivity|].
  intros y Hy. apply H. right. exact Hy.
Qed.

Lemma filter_ext_In {A : Type} (f g : A -> bool) (l : list A) :
  (forall x, In x l -> f x = g x) -> filter f l = filter g l.
Proof.
  intros H. induction l as [|x l IH]; simpl; [reflexivity|].
  rewrite (H x (or_introl eq_refl)), IH; [reflexivity|].
  intros y Hy. apply H. right. exact Hy.
Qed.

Section TitleWords.
Variable unicode_alnum : char -> bool.
Variable unicode_lower : char -> list ascii.
Hypothesis lower_no_capital : Spec.no_capital unicode_lower.

Lemma lower_bytes (s : string) :
  Forall (fun b => isupper b = false)
         (list_ascii_of_string (lower unicode_lower s)).
Proof.
  unfold lower. rewrite list_ascii_of_string_of_list_ascii.
  apply Forall_forall. intros b Hb. apply in_flat_map in Hb.
  destruct Hb as [c [Hc Hb]]. unfold lower_char in Hb.
  destruct (ascii_char c) as [b0|] eqn:E.
  - destruct Hb as [<-|[]]. apply lower_byte_not_upper.
  - pose proof (lower_no_capital c (chars_beyond_ascii _ _ Hc E)) as H.
    rewrite forallb_forall in H. apply negb_true_iff, H, Hb.
Qed.

Lemma In_chars_bytes (s : list ascii) (c : char) (b : ascii) :
  In c (chars s) -> In b c -> In b s.
Proof.
  intros Hc Hb. rewrite <- (concat_chars s). apply in_concat.
  exists c. split; assumption.
Qed.

(** In a lowercased text the letters of the pattern are the lowercase
    letters of ASCII. *)
Lemma is_match_lower (s : string) (run : list char) :
  In run (fields (fun c => negb (isword unicode_alnum c))
            (chars (list_ascii_of_string (lower unicode_lower s))) []) ->
  is_match run =
  forallb Spec.lowercase_letter run && (3 <=? List.length run).
Proof.
  intros Hin. unfold is_match. f_equal.
  apply (fields_whole_run _ _ [] _ eq_refl) in Hin. simpl in Hin.
  destruct Hin as (_ & _ & pre & post & E & _).
  apply forallb_ext_In. intros c Hc.
  destruct c as [|b [|b' c]]; try reflexivity. simpl.
  assert (Hb : isupper b = false).
  { pose proof (lower_bytes s) as Hlow. rewrite Forall_forall in Hlow.
    apply Hlow. apply (In_chars_bytes _ [b]); [|left; reflexivity].
    rewrite E. apply in_or_app. right. apply in_or_app. left. exact Hc. }
  unfold isalpha. unfold isupper in Hb. rewrite Hb. reflexivity.
Qed.

(** The words found in a lowercased text, in their order: of the runs of
    word characters of the text, those that are made of three or more
    lowercase letters of ASCII. *)
Lemma findall_words_runs (s : string) :
  findall_words unicode_alnum (lower unicode_lower s) =
  map text_of
    (filter (fun run => forallb Spec.lowercase_letter run
                        && (3 <=? List.length run))
       (fields (fun c => negb (isword unicode_alnum c))
          (chars (list_ascii_of_string (lower unicode_lower s))) [])).
Proof.
  unfold findall_words. f_equal. apply filter_ext_In.
  intros run Hrun. apply (is_match_lower s). exact Hrun.
Qed.

(** The words found in a lowercased text are its whole [\w]-runs that are
    made of three or more lowercase letters of ASCII. *)
Lemma findall_words_lower (s w : string) :
  In w (findall_words unicode_alnum (lower unicode_lower s)) <->
  exists run,
    w = text_of run /\
    Spec.whole_run (fun c => negb (isword unicode_alnum c))
      (chars (list_ascii_of_string (lower unicode_lower s))) run /\
    forallb Spec.lowercase_letter run = true /\
    3 <= List.length run.
Proof.
  unfold findall_words. rewrite in_map_iff. split.
  - intros [run [<- Hrun]]. apply filter_In in Hrun. destruct Hrun as [Hin Hm].
    apply (fields_whole_run _ _ [] _ eq_refl) in Hin. simpl in Hin.
    unfold is_match in Hm. apply andb_true_iff in Hm. destruct Hm as [Ha Hl].
    exists run. split; [reflexivity|]. split; [exact Hin|].
    split; [|apply Nat.leb_le; exact Hl].
    destruct Hin as (_ & _ & pre & post & E & _).
    apply forallb_forall. intros c Hc.
    rewrite forallb_forall in Ha. specialize (Ha c Hc).
    destruct c as [|b [|b' c]]; simpl in Ha |- *; try discriminate Ha.
    apply lowercase_letter_byte; [exact Ha|].
    pose proof (lower_bytes s) as Hlow. rewrite Forall_forall in Hlow.
    apply Hlow. apply (In_chars_bytes _ [b]); [|left; reflexivity].
    rewrite E. apply in_or_app. right. apply in_or_app. left. exact Hc.
  - intros [run (-> & Hrun & Hlow & Hlen)].
    exists run. split; [reflexivity|]. apply filter_In. split.
    + apply (fields_whole_run _ _ [] _ eq_refl). exact Hrun.
    + unfold is_match. apply andb_true_iff. split; [|apply Nat.leb_le; exact Hlen].
      apply forallb_forall. intros c Hc. rewrite forallb_forall in Hlow.
      apply lowercase_is_letter, Hlow, Hc.
Qed.
End TitleWords.

(** The claim C7 as stated fails: a run of letters that touches a digit is
    no token of the code.  In the title "Covid19 outbreak" the specification
    sees the tokens "covid" and "outbreak", the code only "outbreak". *)
Lemma title_words_not_letter_runs :
  cord19_analysis.word_freq Scenario.latin_alnum Scenario.latin_lower
    Scenario.no_scalar [Str "Covid19 outbreak"] 10
    = [("outbreak", 1)] /\
  Spec.word_freq_as_stated Scenario.latin_lower Scenario.no_scalar
    [Str "Covid19 outbreak"] 10
    = [("covid", 1); ("outbreak", 1)] /\
  cord19_analysis.word_freq Scenario.latin_alnum Scenario.latin_lower
    Scenario.no_scalar [Str "Covid19 outbreak"] 10
    <> Spec.word_freq_as_stated Scenario.latin_lower Scenario.no_scalar
         [Str "Covid19 outbreak"] 10.
Proof.
  split; [reflexivity|]. split; [reflexivity|].
  vm_compute. discriminate.
Qed.

(** C7, amended. The title analysis finds the words of the lowercased
    titles: the whole runs of word characters (the letters and digits of
    any alphabet and the underscore) that consist of three or more letters
    of ASCII, one word for each such run, in the order of the text; a run
    of such letters that touches a digit, an underscore or a letter beyond
    ASCII is no word.  No stop word is returned, whatever
    its case or the punctuation around it in the title.  The returned list
    holds at most [n] entries by non-increasing count, each a word that is
    no stop word with its number of occurrences, equal counts in order of
    first occurrence; a word is left out only when [n] entries are
    returned, all ranked before it.  The one-shot analysis returns this
    list when it is not empty. *)
Theorem title_word_freq_whole_words unicode_alnum unicode_lower str_of_scalar
        (self : cord19_analysis.CORD19Analyzer) (cleaned : DataFrame)
        (title : Series) (n : Z) :
  Spec.no_capital unicode_lower ->
  cord19_analysis.cleaned_df self = Some cleaned ->
  getitem "title" cleaned = Returned title ->
  exists words freq,
    words = findall_words unicode_alnum
              (Spec.title_text unicode_lower str_of_scalar title) /\
    freq = cord19_analysis.word_freq unicode_alnum unicode_lower str_of_scalar
             title n /\
    (freq <> [] ->
     cord19_analysis.analyze_title_words unicode_alnum unicode_lower
       str_of_scalar self (Some n)
     = Returned (Some freq)) /\
    (exists runs,
        Spec.Runs (fun c => negb (isword unicode_alnum c))
          (chars (list_ascii_of_string
                    (Spec.title_text unicode_lower str_of_scalar title))) runs /\
        (forall runs',
            Spec.Runs (fun c => negb (isword unicode_alnum c))
              (chars (list_ascii_of_string
                        (Spec.title_text unicode_lower str_of_scalar title)))
              runs' ->
            runs' = runs) /\
        words = map text_of
                  (filter (fun run => forallb Spec.lowercase_letter run
                                      && (3 <=? List.length run)) runs)) /\
    (forall w,
        In w words <->
        exists run,
          w = text_of run /\
          Spec.whole_run (fun c => negb (isword unicode_alnum c))
            (chars (list_ascii_of_string
                      (Spec.title_text unicode_lower str_of_scalar title))) run /\
          forallb Spec.lowercase_letter run = true /\
          3 <= List.length run) /\
    List.length freq <= Z.to_nat n /\
    StronglySorted (fun e1 e2 => snd e2 <= snd e1) freq /\
    StronglySorted (Spec.ranks_before String.eqb words) freq /\
    NoDup (map fst freq) /\
    (forall w c,
        In (w, c) freq ->
        In w words /\ cord19_analysis.is_stop_word w = false /\
        c = Spec.occurrences String.eqb w words /\ 0 < c) /\
    (forall w,
        In w words -> cord19_analysis.is_stop_word w = false ->
        In (w, Spec.occurrences String.eqb w words) freq \/
        (List.length freq = Z.to_nat n /\
         forall e, In e freq ->
           Spec.ranks_before String.eqb words e
             (w, Spec.occurrences String.eqb w words))).
Proof.
  intros Hlower Hself Htitle.
  exists (findall_words unicode_alnum
            (Spec.title_text unicode_lower str_of_scalar title)),
         (cord19_analysis.word_freq unicode_alnum unicode_lower str_of_scalar
            title n).
  split; [reflexivity|]. split; [reflexivity|].
  split.
  { intros Hne. unfold cord19_analysis.analyze_title_words.
    rewrite Hself. simpl. rewrite (getitem_has_column _ _ _ Htitle), Htitle. simpl.
    destruct (cord19_analysis.word_freq unicode_alnum unicode_lower
                str_of_scalar title n);
      [contradiction | reflexivity]. }
  split.
  { exists (fields (fun c => negb (isword unicode_alnum c))
              (chars (list_ascii_of_string
                        (Spec.title_text unicode_lower str_of_scalar title))) []).
    pose proof (fields_Runs (fun c => negb (isword unicode_alnum c))
                  (chars (list_ascii_of_string
                            (Spec.title_text unicode_lower str_of_scalar title)))
                  [] eq_refl) as Hruns.
    simpl in Hruns.
    split; [exact Hruns|].
    split; [intros runs' H'; apply (Runs_unique _ _ _ _ H' Hruns)|].
    apply findall_words_runs. exact Hlower. }
  split; [intros w; apply findall_words_lower; exact Hlower|].
  destruct (top_of_table String.eqb string_eqb_eq
              (fun word => negb (cord19_analysis.is_stop_word word))
              (findall_words unicode_alnum
                 (Spec.title_text unicode_lower str_of_scalar title))
              (Z.to_nat n))
    as (Hlen & Hrank & Hdesc & Hnd & Hin & Hout).
  split; [exact Hlen|]. split; [exact Hdesc|]. split; [exact Hrank|].
  split; [exact Hnd|].
  split.
  - intros w c H. destruct (Hin w c H) as (H1 & H2 & H3 & H4).
    apply negb_true_iff in H2. auto.
  - intros w Hw Hstop. apply Hout; [exact Hw|].
    apply negb_true_iff. exact Hstop.
Qed.

Lemma title_word_freq_whole_words_witness :
  exists words freq,
    words = findall_words Scenario.latin_alnum
              (Spec.title_text Scenario.latin_lower Scenario.no_scalar
                 [Str "The Virus Spreads"; Str "Virus Mutation Spreads Fast"]) /\
    freq = cord19_analysis.word_freq Scenario.latin_alnum Scenario.latin_lower
             Scenario.no_scalar
             [Str "The Virus Spreads"; Str "Virus Mutation Spreads Fast"] 3 /\
    (freq <> [] ->
     cord19_analysis.analyze_title_words Scenario.latin_alnum
       Scenario.latin_lower Scenario.no_scalar
       (Scenario.analyzer_of Scenario.virus_titles) (Some 3%Z)
     = Returned (Some freq)) /\
    (exists runs,
        Spec.Runs (fun c => negb (isword Scenario.latin_alnum c))
          (chars (list_ascii_of_string
             (Spec.title_text Scenario.latin_lower Scenario.no_scalar
                [Str "The Virus Spreads"; Str "Virus Mutation Spreads Fast"])))
          runs /\
        (forall runs',
            Spec.Runs (fun c => negb (isword Scenario.latin_alnum c))
              (chars (list_ascii_of_string
                 (Spec.title_text Scenario.latin_lower Scenario.no_scalar
                    [Str "The Virus Spreads"; Str "Virus Mutation Spreads Fast"])))
              runs' ->
            runs' = runs) /\
        words = map text_of
                  (filter (fun run => forallb Spec.lowercase_letter run
                                      && (3 <=? List.length run)) runs)) /\
    (forall w,
        In w words <->
        exists run,
          w = text_of run /\
          Spec.whole_run (fun c => negb (isword Scenario.latin_alnum c))
            (chars (list_ascii_of_string
               (Spec.title_text Scenario.latin_lower Scenario.no_scalar
                  [Str "The Virus Spreads"; Str "Virus Mutation Spreads Fast"])))
            run /\
          forallb Spec.lowercase_letter run = true /\
          3 <= List.length run) /\
    List.length freq <= Z.to_nat 3 /\
    StronglySorted (fun e1 e2 => snd e2 <= snd e1) freq /\
    StronglySorted (Spec.ranks_before String.eqb words) freq /\
    NoDup (map fst freq) /\
    (forall w c,
        In (w, c) freq ->
        In w words /\ cord19_analysis.is_stop_word w = false /\
        c = Spec.occurrences String.eqb w words /\ 0 < c) /\
    (forall w,
        In w words -> cord19_analysis.is_stop_word w = false ->
        In (w, Spec.occurrences String.eqb w words) freq \/
        (List.length freq = Z.to_nat 3 /\
         forall e, In e freq ->
           Spec.ranks_before String.eqb words e
             (w, Spec.occurrences String.eqb w words))).
Proof.
  apply (title_word_freq_whole_words Scenario.latin_alnum Scenario.latin_lower
           Scenario.no_scalar
           (Scenario.analyzer_of Scenario.virus_titles) Scenario.virus_titles
           [Str "The Virus Spreads"; Str "Virus Mutation Spreads Fast"] 3%Z);
    [exact latin_lower_no_capital | reflexivity | reflexivity].
Defined.

(** The scenario of the title words. *)
Example virus_words :
  cord19_analysis.analyze_title_words Scenario.latin_alnum Scenario.latin_lower
    Scenario.no_scalar
    (Scenario.analyzer_of Scenario.virus_titles) (Some 3%Z)
  = Returned (Some [("virus", 2); ("spreads", 2); ("mutation", 1)]).
Proof. reflexivity. Qed.

(** A stop word in mixed case and next to punctuation is found as a lowercase
    word and then discarded. *)
Example the_dot_excluded :
  findall_words Scenario.latin_alnum (lower Scenario.latin_lower "The. Virus")
  = ["the"; "virus"] /\
  cord19_analysis.is_stop_word "the" = true /\
  cord19_analysis.word_freq Scenario.latin_alnum Scenario.latin_lower
    Scenario.no_scalar [Str "The. Virus"] 20
  = [("virus", 1)].
Proof. repeat split. Qed.

(** A letter beyond ASCII is a word character: the run that holds it is no
    word of the pattern, and it cuts no word out of the run. *)
Example accented_words :
  findall_words Scenario.latin_alnum
    (lower Scenario.latin_lower "Café Society naïve")
  = ["society"].
Proof. reflexivity. Qed.

(** ** The columns of the cleaned table, and the year filter *)

Lemma has_column_setitem (c c' : string) (s : Series) (df : DataFrame) :
  has_column c' (setitem c s df) = String.eqb c' c || has_column c' df.
Proof.
  unfold has_column, columns.
  induction df as [|[c0 s0] rest IH]; simpl.
  - rewrite orb_false_r. reflexivity.
  - destruct (String.eqb c c0) eqn:E; simpl.
    + apply String.eqb_eq in E. subst c0.
      destruct (String.eqb c' c); reflexivity.
    + rewrite IH. destruct (String.eqb c' c0), (String.eqb c' c); reflexivity.
Qed.

Lemma has_column_loc (c : string) (m : list bool) (df : DataFrame) :
  has_column c (loc m df) = has_column c df.
Proof. unfold has_column. rewrite columns_loc. reflexivity. Qed.

Lemma columns_derive_year parse_datetime epoch_datetime (t : DataFrame) :
  columns (Spec.derive_year parse_datetime epoch_datetime t) =
  columns t ++ (if has_column "publish_time" t && negb (has_column "year" t)
                then ["year"] else []).
Proof.
  unfold Spec.derive_year.
  destruct (getitem "publish_time" t) as [pt|e] eqn:Hpt.
  - rewrite (getitem_has_column _ _ _ Hpt). simpl.
    rewrite columns_setitem, has_column_setitem. simpl.
    rewrite columns_setitem, (getitem_has_column _ _ _ Hpt).
    destruct (has_column "year" t); simpl; [rewrite app_nil_r|]; reflexivity.
  - rewrite (getitem_Raised _ _ _ Hpt). simpl. rewrite app_nil_r. reflexivity.
Qed.

Lemma has_column_derive_year parse_datetime epoch_datetime (c : string)
      (t : DataFrame) :
  String.eqb c "year" = false ->
  has_column c (Spec.derive_year parse_datetime epoch_datetime t) = has_column c t.
Proof.
  intros Hc. unfold Spec.derive_year.
  destruct (getitem "publish_time" t) as [pt|e] eqn:Hpt; [|reflexivity].
  rewrite !has_column_setitem, Hc. simpl.
  destruct (String.eqb c "publish_time") eqn:E; [|reflexivity].
  apply String.eqb_eq in E. subst c. simpl.
  symmetry. apply (getitem_has_column _ _ _ Hpt).
Qed.

(** The cleaned table has the columns of the input, in their order, followed
    by the derived columns that the input did not have. *)
Lemma columns_cleaned parse_datetime epoch_datetime (t : DataFrame) :
  columns (Spec.cleaned parse_datetime epoch_datetime t) =
  columns t ++ Spec.derived_columns t.
Proof.
  unfold Spec.cleaned, Spec.derived_columns.
  set (d1 := Spec.derive_year parse_datetime epoch_datetime t).
  assert (H2 : columns (Spec.derive_word_count d1) =
               columns d1 ++
               (if has_column "abstract" t
                   && negb (has_column "abstract_word_count" t)
                then ["abstract_word_count"] else [])).
  { unfold Spec.derive_word_count.
    rewrite <- (has_column_derive_year parse_datetime epoch_datetime "abstract" t)
      by reflexivity.
    rewrite <- (has_column_derive_year parse_datetime epoch_datetime
                  "abstract_word_count" t) by reflexivity.
    fold d1.
    destruct (getitem "abstract" d1) as [a|e] eqn:Ha.
    - rewrite (getitem_has_column _ _ _ Ha). simpl. rewrite columns_setitem.
      destruct (has_column "abstract_word_count" d1); simpl;
        [rewrite app_nil_r|]; reflexivity.
    - rewrite (getitem_Raised _ _ _ Ha). simpl. rewrite app_nil_r. reflexivity. }
  assert (H3 : columns (Spec.drop_untitled (Spec.derive_word_count d1)) =
               columns (Spec.derive_word_count d1)).
  { unfold Spec.drop_untitled.
    destruct (getitem "title" (Spec.derive_word_count d1));
      [apply columns_loc | reflexivity]. }
  rewrite H3, H2. unfold d1. rewrite columns_derive_year, <- app_assoc.
  reflexivity.
Qed.

Lemma series_ge_years (k : Z) (year : Series) :
  forallb Spec.is_year year = true ->
  series_ge year k =
  Returned (map (fun v => match v with
                          | Num y => (k <=? y)%Z
                          | _ => false
                          end) year).
Proof.
  unfold series_ge. induction year as [|v year IH]; simpl; intros H; [reflexivity|].
  apply andb_true_iff in H. destruct H as [Hv Hy]. rewrite (IH Hy).
  destruct v; simpl in *; try discriminate Hv; reflexivity.
Qed.

Lemma series_le_years (k : Z) (year : Series) :
  forallb Spec.is_year year = true ->
  series_le year k =
  Returned (map (fun v => match v with
                          | Num y => (y <=? k)%Z
                          | _ => false
                          end) year).
Proof.
  unfold series_le. induction year as [|v year IH]; simpl; intros H; [reflexivity|].
  apply andb_true_iff in H. destruct H as [Hv Hy]. rewrite (IH Hy).
  destruct v; simpl in *; try discriminate Hv; reflexivity.
Qed.

Lemma mask_and_years (year_range : Z * Z) (year : Series) :
  mask_and
    (map (fun v => match v with
                   | Num y => (fst year_range <=? y)%Z
                   | _ => false
                   end) year)
    (map (fun v => match v with
                   | Num y => (y <=? snd year_range)%Z
                   | _ => false
                   end) year)
  = map (Spec.year_in_range year_range) year.
Proof.
  unfold mask_and. induction year as [|v year IH]; simpl; [reflexivity|].
  rewrite IH. destruct v; reflexivity.
Qed.

(** The year filter of the dashboard on a year column of integers and
    missing values: the rows whose year is inside the range. *)
Lemma filtered_df_years (cleaned : DataFrame) (year : Series) (year_range : Z * Z) :
  getitem "year" cleaned = Returned year ->
  forallb Spec.is_year year = true ->
  streamlit_app.filtered_df cleaned year_range =
  Returned (loc (map (Spec.year_in_range year_range) year) cleaned).
Proof.
  intros Hy Hint. unfold streamlit_app.filtered_df.
  rewrite (getitem_has_column _ _ _ Hy), Hy. simpl.
  rewrite (series_ge_years _ _ Hint). simpl.
  rewrite (series_le_years _ _ Hint). simpl.
  rewrite mask_and_years. reflexivity.
Qed.

(* ================================================================== *)
(** * Further properties *)
(* ================================================================== *)

(** ** When the Cleaner raises *)

(** X1. [clean_data] raises on a table whose abstract column the [.str]
    accessor refuses: one that is not empty and holds numbers only, or
    timestamps only, or one without any row that is no column of objects.
    The exception is [AttributeError], unless the conversion of the dates
    has raised [ValueError] before; in the dashboard as in the analyzer. *)
Theorem clean_data_refused_abstract parse_datetime epoch_datetime strict_offsets
        empty_as_object (t : DataFrame) :
  Vocab.refused_abstract empty_as_object t = true ->
  streamlit_app.clean_data parse_datetime epoch_datetime strict_offsets
    empty_as_object t
  = Raised (if Spec.dates_agree parse_datetime epoch_datetime t
               || negb strict_offsets
            then AttributeError else ValueError) /\
  forall path c,
    cord19_analysis.clean_data parse_datetime epoch_datetime strict_offsets
      empty_as_object (cord19_analysis.mkAnalyzer path (Some t) c)
    = Raised (if Spec.dates_agree parse_datetime epoch_datetime t
                 || negb strict_offsets
              then AttributeError else ValueError).
Proof.
  intros Href.
  assert (H : streamlit_app.clean_data parse_datetime epoch_datetime
                strict_offsets empty_as_object t
              = Raised (if Spec.dates_agree parse_datetime epoch_datetime t
                           || negb strict_offsets
                        then AttributeError else ValueError)).
  { rewrite clean_data_outcome, Href.
    destruct (Spec.dates_agree parse_datetime epoch_datetime t), strict_offsets;
      reflexivity. }
  split; [exact H|].
  intros path c. rewrite analyzer_clean_data. simpl. rewrite H. reflexivity.
Qed.

Lemma clean_data_refused_abstract_witness :
  streamlit_app.clean_data Scenario.parse_iso_date Scenario.no_epoch true true
    Cases.numbered
  = Raised (if Spec.dates_agree Scenario.parse_iso_date Scenario.no_epoch
                 Cases.numbered || negb true
            then AttributeError else ValueError) /\
  forall path c,
    cord19_analysis.clean_data Scenario.parse_iso_date Scenario.no_epoch true true
      (cord19_analysis.mkAnalyzer path (Some Cases.numbered) c)
    = Raised (if Spec.dates_agree Scenario.parse_iso_date Scenario.no_epoch
                   Cases.numbered || negb true
              then AttributeError else ValueError).
Proof.
  apply (clean_data_refused_abstract Scenario.parse_iso_date Scenario.no_epoch
           true true Cases.numbered); reflexivity.
Defined.

(** Numbers as abstracts: the accessor is refused. *)
Example numbered_refused :
  streamlit_app.clean_data Scenario.parse_iso_date Scenario.no_epoch true true
    Cases.numbered = Raised AttributeError.
Proof. reflexivity. Qed.


Lemma length_filter_map {A : Type} (p : A -> bool) (l : list A) :
  List.length (filter (fun b : bool => b) (map p l)) = List.length (filter p l).
Proof.
  induction l as [|x l IH]; simpl; [reflexivity|].
  destruct (p x); simpl; rewrite IH; reflexivity.
Qed.

Lemma rectangular_cleaned_rows parse_datetime epoch_datetime (n : nat) (t : DataFrame) :
  Spec.rectangular n t = true ->
  Spec.rectangular (Vocab.kept_rows n t)
    (Spec.cleaned parse_datetime epoch_datetime t) = true.
Proof.
  intros H.
  pose proof (rectangular_derived parse_datetime epoch_datetime n t H) as Hd.
  unfold Spec.cleaned, Spec.drop_untitled, Vocab.kept_rows.
  rewrite getitem_derive_word_count, getitem_derive_year by reflexivity.
  destruct (getitem "title" t) as [title|e] eqn:Ht; [|exact Hd].
  rewrite <- length_filter_map. apply rectangular_loc. rewrite length_map.
  rewrite (getitem_rectangular _ _ _ _ H Ht). exact Hd.
Qed.


(** X2. [clean_data] returns exactly when the dates that can be read carry
    one offset from UTC, or none, and the [.str] accessor takes the
    abstract column; the other columns play no role.  The table that it
    returns has the columns of the input in their order, followed by the
    derived columns that the input did not have; if every column of the
    input has [n] cells, every column of the cleaned table has as many
    cells as the input has titles that are present ([n] without title
    column). *)
Theorem clean_data_shape parse_datetime epoch_datetime strict_offsets
        empty_as_object (t : DataFrame) (n : nat) :
  Spec.rectangular n t = true ->
  ((exists t',
       streamlit_app.clean_data parse_datetime epoch_datetime strict_offsets
         empty_as_object t = Returned t') <->
   (Spec.dates_agree parse_datetime epoch_datetime t = true /\
    Vocab.refused_abstract empty_as_object t = false)) /\
  forall t',
    streamlit_app.clean_data parse_datetime epoch_datetime strict_offsets
      empty_as_object t = Returned t' ->
    columns t' = columns t ++ Spec.derived_columns t /\
    Spec.rectangular (Vocab.kept_rows n t) t' = true.
Proof.
  intros Hrect. split.
  - split.
    + intros [t' H]. apply clean_data_Returned in H. tauto.
    + intros [Hd Hr]. eexists. rewrite clean_data_outcome, Hd, Hr. reflexivity.
  - intros t' H. apply clean_data_Returned in H. destruct H as (_ & _ & ->).
    split; [apply columns_cleaned | apply rectangular_cleaned_rows; exact Hrect].
Qed.

Lemma clean_data_shape_witness :
  ((exists t',
       streamlit_app.clean_data Scenario.parse_iso_date Scenario.no_epoch
         true true Scenario.papers = Returned t') <->
   (Spec.dates_agree Scenario.parse_iso_date Scenario.no_epoch Scenario.papers
    = true /\
    Vocab.refused_abstract true Scenario.papers = false)) /\
  forall t',
    streamlit_app.clean_data Scenario.parse_iso_date Scenario.no_epoch
      true true Scenario.papers = Returned t' ->
    columns t' = columns Scenario.papers ++ Spec.derived_columns Scenario.papers /\
    Spec.rectangular (Vocab.kept_rows 3 Scenario.papers) t' = true.
Proof.
  apply (clean_data_shape Scenario.parse_iso_date Scenario.no_epoch true true
           Scenario.papers 3); reflexivity.
Defined.

(** ** The analyzer as an object *)

(** X3. A method that is called too early raises [AttributeError]:
    [clean_data] while no frame is loaded, each analysis while no frame is
    cleaned, whatever the arguments. *)
Theorem analyzer_called_too_early parse_datetime epoch_datetime strict_offsets
        empty_as_object ties unicode_alnum unicode_lower str_of_scalar
        (self : cord19_analysis.CORD19Analyzer) (top_n : option Z) :
  cord19_analysis.cleaned_df self = None ->
  (cord19_analysis.df self = None ->
   cord19_analysis.clean_data parse_datetime epoch_datetime strict_offsets
     empty_as_object self
   = Raised AttributeError) /\
  cord19_analysis.analyze_publications_by_year ties self
  = Raised AttributeError /\
  cord19_analysis.analyze_top_journals ties self top_n = Raised AttributeError /\
  cord19_analysis.analyze_title_words unicode_alnum unicode_lower str_of_scalar
    self top_n
  = Raised AttributeError /\
  cord19_analysis.analyze_sources ties self top_n = Raised AttributeError.
Proof.
  intros Hc.
  unfold cord19_analysis.clean_data,
    cord19_analysis.analyze_publications_by_year,
    cord19_analysis.analyze_top_journals,
    cord19_analysis.analyze_title_words,
    cord19_analysis.analyze_sources.
  rewrite Hc. split; [intros ->; reflexivity|]. repeat split.
Qed.

Lemma analyzer_called_too_early_witness :
  (cord19_analysis.df (cord19_analysis.init "asset/metadata.csv") = None ->
   cord19_analysis.clean_data Scenario.parse_iso_date Scenario.no_epoch true true
     (cord19_analysis.init "asset/metadata.csv") = Raised AttributeError) /\
  cord19_analysis.analyze_publications_by_year Scenario.first_met
    (cord19_analysis.init "asset/metadata.csv") = Raised AttributeError /\
  cord19_analysis.analyze_top_journals Scenario.first_met
    (cord19_analysis.init "asset/metadata.csv") None = Raised AttributeError /\
  cord19_analysis.analyze_title_words Scenario.latin_alnum Scenario.latin_lower
    Scenario.no_scalar
    (cord19_analysis.init "asset/metadata.csv") None = Raised AttributeError /\
  cord19_analysis.analyze_sources Scenario.first_met
    (cord19_analysis.init "asset/metadata.csv") None = Raised AttributeError.
Proof.
  apply (analyzer_called_too_early Scenario.parse_iso_date Scenario.no_epoch
           true true Scenario.first_met Scenario.latin_alnum Scenario.latin_lower
           Scenario.no_scalar (cord19_analysis.init "asset/metadata.csv") None).
  reflexivity.
Defined.

(** ** Sources, and how many entries a top list has *)

(** The counts are empty exactly on a column without any value. *)
Lemma value_counts_nil ties (s : Series) :
  value_counts ties s = [] <-> forallb isna s = true.
Proof.
  split.
  - intros H. apply forallb_forall. intros v Hv.
    destruct v; try reflexivity; exfalso.
    + assert (Hin : In (Str s0, Spec.occurrences value_eqb (Str s0) s)
                       (value_counts ties s))
        by (apply value_counts_In; repeat split; [exact Hv | discriminate]).
      rewrite H in Hin. exact Hin.
    + assert (Hin : In (Num z, Spec.occurrences value_eqb (Num z) s)
                       (value_counts ties s))
        by (apply value_counts_In; repeat split; [exact Hv | discriminate]).
      rewrite H in Hin. exact Hin.
    + assert (Hin : In (Date t, Spec.occurrences value_eqb (Date t) s)
                       (value_counts ties s))
        by (apply value_counts_In; repeat split; [exact Hv | discriminate]).
      rewrite H in Hin. exact Hin.
  - intros H. unfold value_counts.
    replace (filter notna s) with (@nil value); [reflexivity|].
    symmetry. induction s as [|v s IH]; [reflexivity|].
    simpl in H. apply andb_true_iff in H. destruct H as [Hv Hs].
    simpl. unfold notna. rewrite Hv. simpl. apply IH. exact Hs.
Qed.

Lemma head_nil {A : Type} (n : Z) (l : list A) :
  (0 < n)%Z -> (head n l = [] <-> l = []).
Proof.
  intros Hn. rewrite head_pos by exact Hn.
  destruct l as [|x l]; [rewrite firstn_nil; tauto|].
  destruct (Z.to_nat n) eqn:E; [lia|]. simpl. split; discriminate.
Qed.

(** X4. On a cleaned table with a [source_x] column and for a positive
    [n], [analyze_sources] raises [ValueError] when no row has a source:
    the pie of the empty counts cannot be drawn.  Otherwise it returns at
    least one and at most [n] entries by non-increasing count, no source
    twice, each a source of the table with its number of rows; a source is
    left out only when [n] entries are returned, each with a count at
    least as large.  Without argument, [n] is 10. *)
Theorem analyze_sources_top ties (self : cord19_analysis.CORD19Analyzer)
        (cleaned : DataFrame) (source : Series) (n : Z) :
  cord19_analysis.cleaned_df self = Some cleaned ->
  getitem "source_x" cleaned = Returned source ->
  (0 < n)%Z ->
  (forallb isna source = true ->
   cord19_analysis.analyze_sources ties self (Some n) = Raised ValueError) /\
  (forallb isna source = false ->
   exists top,
     cord19_analysis.analyze_sources ties self (Some n) = Returned (Some top) /\
     top <> [] /\
     (Z.of_nat (List.length top) <= n)%Z /\
     StronglySorted (fun e1 e2 => snd e2 <= snd e1) top /\
     NoDup (map fst top) /\
     (forall k c,
         In (k, c) top ->
         In k source /\ k <> NA /\
         c = Spec.occurrences value_eqb k source /\ 0 < c) /\
     (forall k,
         In k source -> k <> NA ->
         In (k, Spec.occurrences value_eqb k source) top \/
         (Z.of_nat (List.length top) = n /\
          forall e, In e top ->
            Spec.occurrences value_eqb k source <= snd e))) /\
  cord19_analysis.analyze_sources ties self None =
  cord19_analysis.analyze_sources ties self (Some 10%Z).
Proof.
  intros Hself Hs Hn.
  assert (Hrun : cord19_analysis.analyze_sources ties self (Some n) =
                 (_ <- plt_pie (firstn (Z.to_nat n) (value_counts ties source)) ;;
                  Returned (Some (firstn (Z.to_nat n) (value_counts ties source))))).
  { unfold cord19_analysis.analyze_sources. rewrite Hself. simpl.
    rewrite (getitem_has_column _ _ _ Hs), Hs. simpl.
    rewrite head_pos by exact Hn. reflexivity. }
  split.
  { intros Hmiss. rewrite Hrun.
    rewrite (proj2 (value_counts_nil ties source) Hmiss), firstn_nil.
    reflexivity. }
  split; [|reflexivity].
  intros Hsome.
  exists (firstn (Z.to_nat n) (value_counts ties source)).
  assert (Hne : firstn (Z.to_nat n) (value_counts ties source) <> []).
  { intros E. rewrite <- head_pos in E by exact Hn.
    apply (proj1 (head_nil n (value_counts ties source) Hn)) in E.
    apply value_counts_nil in E. congruence. }
  destruct (top_of_counts value_eqb value_eqb_eq notna source
              (value_counts ties source) (Z.to_nat n)
              (sort_values_perm ties _) (sort_values_sorted ties _))
    as (Hlen & Hdesc & Hnd & Hin & Hout).
  split.
  { rewrite Hrun.
    destruct (firstn (Z.to_nat n) (value_counts ties source));
      [contradiction | reflexivity]. }
  split; [exact Hne|].
  split; [lia|].
  split; [exact Hdesc|].
  split; [exact Hnd|].
  split.
  { intros k c H. destruct (Hin k c H) as (H1 & H2 & H3 & H4).
    apply notna_true in H2. auto. }
  intros k Hk Hna. apply notna_true in Hna.
  destruct (Hout k Hk Hna) as [H|[H1 H2]]; [left; exact H|].
  right. split; [lia | exact H2].
Qed.

Lemma analyze_sources_top_witness :
  (forallb isna [Str "PMC"; Str "WHO"; Str "PMC"; Str "PMC"] = true ->
   cord19_analysis.analyze_sources Scenario.last_met
     (Scenario.analyzer_of Cases.spread) (Some 1%Z) = Raised ValueError) /\
  (forallb isna [Str "PMC"; Str "WHO"; Str "PMC"; Str "PMC"] = false ->
   exists top,
     cord19_analysis.analyze_sources Scenario.last_met
       (Scenario.analyzer_of Cases.spread) (Some 1%Z) = Returned (Some top) /\
     top <> [] /\
     (Z.of_nat (List.length top) <= 1)%Z /\
     StronglySorted (fun e1 e2 => snd e2 <= snd e1) top /\
     NoDup (map fst top) /\
     (forall k c,
         In (k, c) top ->
         In k [Str "PMC"; Str "WHO"; Str "PMC"; Str "PMC"] /\ k <> NA /\
         c = Spec.occurrences value_eqb k
               [Str "PMC"; Str "WHO"; Str "PMC"; Str "PMC"] /\ 0 < c) /\
     (forall k,
         In k [Str "PMC"; Str "WHO"; Str "PMC"; Str "PMC"] -> k <> NA ->
         In (k, Spec.occurrences value_eqb k
                  [Str "PMC"; Str "WHO"; Str "PMC"; Str "PMC"]) top \/
         (Z.of_nat (List.length top) = 1%Z /\
          forall e, In e top ->
            Spec.occurrences value_eqb k
              [Str "PMC"; Str "WHO"; Str "PMC"; Str "PMC"] <= snd e))) /\
  cord19_analysis.analyze_sources Scenario.last_met
    (Scenario.analyzer_of Cases.spread) None =
  cord19_analysis.analyze_sources Scenario.last_met
    (Scenario.analyzer_of Cases.spread) (Some 10%Z).
Proof.
  apply (analyze_sources_top Scenario.last_met
           (Scenario.analyzer_of Cases.spread) Cases.spread
           [Str "PMC"; Str "WHO"; Str "PMC"; Str "PMC"] 1%Z);
    reflexivity.
Defined.

(** The sources of a table, and a table without any source. *)
Example sources_counted :
  cord19_analysis.analyze_sources Scenario.last_met
    (Scenario.analyzer_of Cases.spread) None
  = Returned (Some [(Str "PMC", 3); (Str "WHO", 1)]) /\
  cord19_analysis.analyze_sources Scenario.last_met
    (Scenario.analyzer_of [("title", [Str "A"]); ("source_x", [NA])]) None
  = Raised ValueError.
Proof. split; reflexivity. Qed.


(** [unique] lists the distinct values in order of first occurrence. *)
Lemma existsb_same_elements {A : Type} (f : A -> bool) (l1 l2 : list A) :
  (forall y, In y l1 <-> In y l2) -> existsb f l1 = existsb f l2.
Proof.
  intros H.
  destruct (existsb f l1) eqn:E1, (existsb f l2) eqn:E2; try reflexivity.
  - apply existsb_exists in E1. destruct E1 as [y [Hy Hf]].
    assert (existsb f l2 = true); [|congruence].
    apply existsb_exists. exists y. split; [apply H; exact Hy | exact Hf].
  - apply existsb_exists in E2. destruct E2 as [y [Hy Hf]].
    assert (existsb f l1 = true); [|congruence].
    apply existsb_exists. exists y. split; [apply H; exact Hy | exact Hf].
Qed.

Lemma unique_uniq (s : Series) : unique s = Spec.uniq value_eqb s.
Proof.
  unfold unique.
  induction s as [|x s IH] using rev_ind; [reflexivity|].
  rewrite fold_left_app. simpl. rewrite IH.
  rewrite (uniq_snoc value_eqb). unfold unique_add.
  rewrite (existsb_same_elements (value_eqb x) (Spec.uniq value_eqb s) s)
    by (intros y; apply (In_uniq value_eqb value_eqb_eq)).
  reflexivity.
Qed.

Lemma filter_filter_subsumed {A : Type} (p q : A -> bool) (l : list A) :
  (forall x, p x = true -> q x = true) ->
  filter p (filter q l) = filter p l.
Proof.
  intros H. induction l as [|x l IH]; simpl; [reflexivity|].
  destruct (q x) eqn:Eq; simpl.
  - rewrite IH. reflexivity.
  - destruct (p x) eqn:Ep; [|exact IH].
    rewrite (H x Ep) in Eq. discriminate Eq.
Qed.

Lemma filter_swap {A : Type} (p q : A -> bool) (l : list A) :
  filter p (filter q l) = filter q (filter p l).
Proof.
  induction l as [|x l IH]; simpl; [reflexivity|].
  destruct (p x) eqn:Ep, (q x) eqn:Eq; simpl; rewrite ?Ep, ?Eq, IH; reflexivity.
Qed.

Lemma filter_notna_uniq (s : Series) :
  filter notna (Spec.uniq value_eqb s) = Spec.uniq value_eqb (filter notna s).
Proof.
  induction s as [|x s IH]; simpl; [reflexivity|].
  destruct (notna x) eqn:Ex; simpl.
  - rewrite filter_swap, IH. reflexivity.
  - rewrite filter_filter_subsumed; [exact IH|].
    intros k Hk. apply negb_true_iff.
    destruct (value_eqb k x) eqn:E; [|reflexivity].
    apply value_eqb_eq in E. subst k. congruence.
Qed.


(** The number of distinct values that are present is the number of entries
    of [value_counts]. *)
Lemma nunique_value_counts ties (s : Series) :
  nunique s = List.length (value_counts ties s).
Proof.
  unfold nunique, value_counts.
  rewrite <- (Permutation_length (sort_values_perm ties _)).
  rewrite (Counter_closed value_eqb value_eqb_eq), length_map.
  rewrite unique_uniq, filter_notna_uniq. reflexivity.
Qed.


Lemma head_length_spec {A : Type} (n : Z) (l : list A) :
  List.length (head n l) = Vocab.head_length n (List.length l) /\
  head n l = firstn (Vocab.head_length n (List.length l)) l.
Proof.
  unfold head, Vocab.head_length.
  destruct (0 <=? n)%Z.
  - rewrite length_firstn. split; [reflexivity|].
    destruct (Nat.le_ge_cases (Z.to_nat n) (List.length l)) as [H|H].
    + rewrite Nat.min_l by exact H. reflexivity.
    + rewrite Nat.min_r by exact H.
      rewrite !firstn_all2 by lia. reflexivity.
  - rewrite length_firstn. split; [lia | reflexivity].
Qed.


(** X5. With a journal column [analyze_top_journals] returns for every
    integer [n], also zero or negative: the first entries of the table of
    all journals by decreasing count, as many as [n] allows, that is
    [min n d] of the [d] distinct journals for [n >= 0], and all but the
    last [-n] for a negative [n].  [d] is the number that the report prints
    as "Unique journals"; with [n >= d] no journal is left out. *)
Theorem analyze_top_journals_length ties (self : cord19_analysis.CORD19Analyzer)
        (cleaned : DataFrame) (journal : Series) (n : Z) :
  cord19_analysis.cleaned_df self = Some cleaned ->
  getitem "journal" cleaned = Returned journal ->
  exists top,
    cord19_analysis.analyze_top_journals ties self (Some n) = Returned (Some top) /\
    Report.unique_journals cleaned = Returned (Some (nunique journal)) /\
    List.length top = Vocab.head_length n (nunique journal) /\
    top = firstn (List.length top) (value_counts ties journal) /\
    ((Z.of_nat (nunique journal) <= n)%Z ->
     forall k, In k journal -> k <> NA ->
       In (k, Spec.occurrences value_eqb k journal) top).
Proof.
  intros Hself Hj.
  exists (head n (value_counts ties journal)).
  destruct (head_length_spec n (value_counts ties journal)) as [Hlen Hpre].
  rewrite <- (nunique_value_counts ties) in Hlen, Hpre.
  split.
  { unfold cord19_analysis.analyze_top_journals. rewrite Hself. simpl.
    rewrite (getitem_has_column _ _ _ Hj), Hj. reflexivity. }
  split.
  { unfold Report.unique_journals.
    rewrite (getitem_has_column _ _ _ Hj), Hj. reflexivity. }
  split; [exact Hlen|].
  split; [rewrite Hlen; exact Hpre|].
  intros Hall k Hk Hna.
  rewrite Hpre. unfold Vocab.head_length.
  destruct (0 <=? n)%Z eqn:E; [|apply Z.leb_gt in E; lia].
  rewrite Nat.min_r by lia.
  rewrite (nunique_value_counts ties), firstn_all.
  apply value_counts_In. auto.
Qed.

Lemma analyze_top_journals_length_witness :
  exists top,
    cord19_analysis.analyze_top_journals Scenario.first_met
      (Scenario.analyzer_of Cases.spread)
      (Some (-1)%Z) = Returned (Some top) /\
    Report.unique_journals Cases.spread
      = Returned (Some (nunique [Str "Nature"; NA; Str "Cell"; Str "Nature"])) /\
    List.length top =
      Vocab.head_length (-1) (nunique [Str "Nature"; NA; Str "Cell"; Str "Nature"]) /\
    top = firstn (List.length top)
            (value_counts Scenario.first_met
               [Str "Nature"; NA; Str "Cell"; Str "Nature"]) /\
    ((Z.of_nat (nunique [Str "Nature"; NA; Str "Cell"; Str "Nature"]) <= -1)%Z ->
     forall k, In k [Str "Nature"; NA; Str "Cell"; Str "Nature"] -> k <> NA ->
       In (k, Spec.occurrences value_eqb k
                [Str "Nature"; NA; Str "Cell"; Str "Nature"]) top).
Proof.
  apply (analyze_top_journals_length Scenario.first_met
           (Scenario.analyzer_of Cases.spread)
           Cases.spread [Str "Nature"; NA; Str "Cell"; Str "Nature"] (-1)%Z);
    reflexivity.
Defined.

(** All but the last of two journals. *)
Example top_journals_negative :
  cord19_analysis.analyze_top_journals Scenario.first_met
      (Scenario.analyzer_of Cases.spread)
    (Some (-1)%Z) = Returned (Some [(Str "Nature", 2)]) /\
  cord19_analysis.analyze_top_journals Scenario.first_met
      (Scenario.analyzer_of Cases.spread)
    (Some 0%Z) = Returned (Some []).
Proof. repeat split. Qed.

(** ** The words of the titles, title by title *)

Lemma bytes_append (a b : string) :
  list_ascii_of_string (String.append a b) =
  list_ascii_of_string a ++ list_ascii_of_string b.
Proof.
  induction a as [|c a IH]; simpl; [reflexivity|]. rewrite IH. reflexivity.
Qed.

Lemma flat_map_ext_In {A B : Type} (f g : A -> list B) (l : list A) :
  (forall x, In x l -> f x = g x) -> flat_map f l = flat_map g l.
Proof.
  intros H. induction l as [|x l IH]; simpl; [reflexivity|].
  rewrite (H x (or_introl eq_refl)), IH; [reflexivity|].
  intros y Hy. apply H. right. exact Hy.
Qed.

Lemma flat_map_map {A B C : Type} (f : B -> list C) (g : A -> B) (l : list A) :
  flat_map f (map g l) = flat_map (fun x => f (g x)) l.
Proof.
  induction l as [|x l IH]; simpl; [reflexivity|]. rewrite IH. reflexivity.
Qed.

Section WordsOfTitles.
Variable unicode_alnum : char -> bool.
Variable unicode_lower : char -> list ascii.

Lemma bytes_lower (s : string) :
  list_ascii_of_string (lower unicode_lower s) =
  flat_map (lower_char unicode_lower) (chars (list_ascii_of_string s)).
Proof. unfold lower. apply list_ascii_of_string_of_list_ascii. Qed.

(** The space between two texts stays a space in lowercase. *)
Lemma bytes_lower_append (a b : string) :
  list_ascii_of_string (lower unicode_lower (String.append a (String.append " " b))) =
  list_ascii_of_string (lower unicode_lower a)
  ++ " "%char :: list_ascii_of_string (lower unicode_lower b).
Proof.
  rewrite !bytes_lower, !bytes_append. simpl.
  rewrite chars_app_ascii by reflexivity.
  rewrite flat_map_app. reflexivity.
Qed.

Lemma findall_words_lower_append (a b : string) :
  findall_words unicode_alnum
    (lower unicode_lower (String.append a (String.append " " b))) =
  findall_words unicode_alnum (lower unicode_lower a)
  ++ findall_words unicode_alnum (lower unicode_lower b).
Proof.
  unfold findall_words.
  rewrite bytes_lower_append, chars_app_ascii by reflexivity.
  rewrite (fields_app_sep (fun c => negb (isword unicode_alnum c)))
    by reflexivity.
  rewrite filter_app, map_app. reflexivity.
Qed.

Lemma findall_words_join (l : list string) :
  findall_words unicode_alnum (lower unicode_lower (join " " l)) =
  flat_map (fun s => findall_words unicode_alnum (lower unicode_lower s)) l.
Proof.
  unfold join. induction l as [|x l IH]; [reflexivity|].
  destruct l as [|y l].
  - simpl. rewrite app_nil_r. reflexivity.
  - change (String.concat " " (x :: y :: l))
      with (String.append x (String.append " " (String.concat " " (y :: l)))).
    rewrite findall_words_lower_append, IH. reflexivity.
Qed.

Lemma astype_str_fillna (str_of_scalar : value -> string) (title : Series) :
  astype_str str_of_scalar (fillna (Str "") title) =
  map (Vocab.cell_text str_of_scalar) title.
Proof.
  unfold astype_str, fillna. rewrite map_map. apply map_ext.
  intros [|x|z|t]; reflexivity.
Qed.

Lemma title_words_flat_map (str_of_scalar : value -> string) (title : Series) :
  findall_words unicode_alnum (Spec.title_text unicode_lower str_of_scalar title) =
  flat_map (fun v => findall_words unicode_alnum
                       (lower unicode_lower (Vocab.cell_text str_of_scalar v)))
           title.
Proof.
  unfold Spec.title_text. rewrite findall_words_join, astype_str_fillna.
  rewrite flat_map_concat_map, map_map, <- flat_map_concat_map. reflexivity.
Qed.

Lemma word_freq_of_words (str_of_scalar : value -> string) (title : Series) (n : Z) :
  cord19_analysis.word_freq unicode_alnum unicode_lower str_of_scalar title n =
  most_common n
    (Counter String.eqb
       (filter (fun word => negb (cord19_analysis.is_stop_word word))
          (findall_words unicode_alnum
             (Spec.title_text unicode_lower str_of_scalar title)))).
Proof. reflexivity. Qed.

(** Lowercase of the ASCII letters first changes nothing in the
    lowercase. *)
Lemma lower_char_lower_byte (s : list ascii) (c : char) :
  In c (chars s) ->
  lower_char unicode_lower (map lower_byte c) = lower_char unicode_lower c.
Proof.
  intros Hc. pose proof (chars_bytes s) as H. rewrite Forall_forall in H.
  destruct (H c Hc) as [[b ->]|Hb].
  - unfold lower_char. simpl. rewrite lower_byte_ascii.
    destruct (is_ascii b) eqn:E.
    + rewrite lower_byte_idem. reflexivity.
    + rewrite lower_byte_beyond_ascii by exact E. reflexivity.
  - replace (map lower_byte c) with c; [reflexivity|].
    symmetry. rewrite <- (map_id c) at 2. apply map_ext_in. intros b Hin.
    rewrite forallb_forall in Hb. specialize (Hb b Hin).
    apply negb_true_iff in Hb. apply lower_byte_beyond_ascii. exact Hb.
Qed.

Lemma lower_ascii_lower (x : string) :
  lower unicode_lower (Vocab.ascii_lower x) = lower unicode_lower x.
Proof.
  unfold lower, Vocab.ascii_lower.
  rewrite list_ascii_of_string_of_list_ascii, chars_map_lower_byte, flat_map_map.
  f_equal. apply flat_map_ext_In. intros c Hc.
  apply (lower_char_lower_byte _ _ Hc).
Qed.

Lemma lower_cell_text (str_of_scalar : value -> string) (v : value) :
  lower unicode_lower (Vocab.cell_text str_of_scalar (Vocab.lower_cell v)) =
  lower unicode_lower (Vocab.cell_text str_of_scalar v).
Proof. destruct v; simpl; try reflexivity. apply lower_ascii_lower. Qed.
End WordsOfTitles.

(** X6. The words of the title analysis are the words of the single titles,
    in the order of the rows: joining the titles with a space never makes a
    word out of the end of one title and the start of the next.  A row
    without title adds no word, so it does not change the frequencies. *)
Theorem title_words_per_title unicode_alnum unicode_lower str_of_scalar
        (title : Series) (n : Z) :
  findall_words unicode_alnum (Spec.title_text unicode_lower str_of_scalar title) =
  flat_map (fun v => findall_words unicode_alnum
                       (lower unicode_lower (Vocab.cell_text str_of_scalar v)))
           title /\
  cord19_analysis.word_freq unicode_alnum unicode_lower str_of_scalar title n =
  cord19_analysis.word_freq unicode_alnum unicode_lower str_of_scalar
    (filter notna title) n.
Proof.
  split; [apply title_words_flat_map|].
  rewrite !word_freq_of_words, !title_words_flat_map.
  do 3 f_equal.
  induction title as [|v title IH]; simpl; [reflexivity|].
  destruct v; simpl; rewrite IH; reflexivity.
Qed.

(** Two titles, each ending or starting in the middle of a possible word. *)
Example words_stay_apart :
  findall_words Scenario.latin_alnum
    (Spec.title_text Scenario.latin_lower Scenario.no_scalar
       [Str "Virus in"; Str "fection"])
  = ["virus"; "fection"].
Proof. reflexivity. Qed.

(** X7. The title analysis does not see the case of the letters: two title
    columns that are equal once the letters of ASCII in their texts are put
    in lowercase have the same word frequencies, in the one-shot analysis
    and in the dashboard. *)
Theorem title_words_ignore_case unicode_alnum unicode_lower str_of_scalar
        (title1 title2 : Series) (n : Z) :
  map Vocab.lower_cell title1 = map Vocab.lower_cell title2 ->
  cord19_analysis.word_freq unicode_alnum unicode_lower str_of_scalar title1 n =
  cord19_analysis.word_freq unicode_alnum unicode_lower str_of_scalar title2 n /\
  (forall filtered1 filtered2,
      getitem "title" filtered1 = Returned title1 ->
      getitem "title" filtered2 = Returned title2 ->
      streamlit_app.title_words unicode_alnum unicode_lower str_of_scalar
        filtered1 n =
      streamlit_app.title_words unicode_alnum unicode_lower str_of_scalar
        filtered2 n).
Proof.
  intros H.
  assert (Hw : cord19_analysis.word_freq unicode_alnum unicode_lower
                 str_of_scalar title1 n =
               cord19_analysis.word_freq unicode_alnum unicode_lower
                 str_of_scalar title2 n).
  { rewrite !word_freq_of_words, !title_words_flat_map.
    do 3 f_equal.
    assert (Hl : forall t,
               flat_map (fun v => findall_words unicode_alnum
                                    (lower unicode_lower
                                       (Vocab.cell_text str_of_scalar v))) t =
               flat_map (fun v => findall_words unicode_alnum
                                    (lower unicode_lower
                                       (Vocab.cell_text str_of_scalar v)))
                        (map Vocab.lower_cell t)).
    { intros t. induction t as [|v t IH]; simpl; [reflexivity|].
      rewrite lower_cell_text, IH. reflexivity. }
    rewrite (Hl title1), (Hl title2), H. reflexivity. }
  split; [exact Hw|].
  intros f1 f2 H1 H2. unfold streamlit_app.title_words.
  rewrite (getitem_has_column _ _ _ H1), (getitem_has_column _ _ _ H2), H1, H2.
  simpl. rewrite Hw. reflexivity.
Qed.

Lemma title_words_ignore_case_witness :
  cord19_analysis.word_freq Scenario.latin_alnum Scenario.latin_lower
    Scenario.no_scalar [Str "The VIRUS Spreads"; NA] 5 =
  cord19_analysis.word_freq Scenario.latin_alnum Scenario.latin_lower
    Scenario.no_scalar [Str "the Virus SPREADS"; NA] 5 /\
  (forall filtered1 filtered2,
      getitem "title" filtered1 = Returned [Str "The VIRUS Spreads"; NA] ->
      getitem "title" filtered2 = Returned [Str "the Virus SPREADS"; NA] ->
      streamlit_app.title_words Scenario.latin_alnum Scenario.latin_lower
        Scenario.no_scalar filtered1 5 =
      streamlit_app.title_words Scenario.latin_alnum Scenario.latin_lower
        Scenario.no_scalar filtered2 5).
Proof.
  apply (title_words_ignore_case Scenario.latin_alnum Scenario.latin_lower
           Scenario.no_scalar
           [Str "The VIRUS Spreads"; NA] [Str "the Virus SPREADS"; NA] 5%Z).
  reflexivity.
Defined.

(** ** The year filter of the dashboard *)

Lemma nrows_rectangular (k : nat) (f : DataFrame) :
  Spec.rectangular k f = true -> f <> [] -> nrows f = k.
Proof.
  intros H Hne. destruct f as [|[c s] rest]; [contradiction|].
  simpl in *. apply andb_true_iff in H. destruct H as [H _].
  apply Nat.eqb_eq. exact H.
Qed.

Lemma filter_in_range_years (r : Z * Z) (year : Series) :
  Forall (fun v => exists y, v = Num y /\ (fst r <= y <= snd r)%Z)
         (filter (Spec.year_in_range r) year).
Proof.
  apply Forall_forall. intros v Hv. apply filter_In in Hv. destruct Hv as [_ Hv].
  destruct v as [| |y|]; simpl in Hv; try discriminate Hv.
  exists y. split; [reflexivity|].
  apply andb_true_iff in Hv. destruct Hv as [H1 H2].
  apply Z.leb_le in H1. apply Z.leb_le in H2. lia.
Qed.

(** X8. With a year column of integers and missing values the year filter
    returns, for every range: the filtered frame has the columns of the
    cleaned frame, its years are the years of the cleaned frame that are
    present and inside the inclusive range, in their order, and on a frame
    whose columns all have the same length its number of rows, the "Total
    Papers" figure, is the number of those years. *)
Theorem filtered_df_in_range (cleaned : DataFrame) (year : Series)
        (year_range : Z * Z) (n : nat) :
  getitem "year" cleaned = Returned year ->
  forallb Spec.is_year year = true ->
  Spec.rectangular n cleaned = true ->
  exists filtered,
    streamlit_app.filtered_df cleaned year_range = Returned filtered /\
    columns filtered = columns cleaned /\
    getitem "year" filtered = Returned (filter (Spec.year_in_range year_range) year) /\
    Forall (fun v => exists y, v = Num y /\
                               (fst year_range <= y <= snd year_range)%Z)
           (filter (Spec.year_in_range year_range) year) /\
    nrows filtered = List.length (filter (Spec.year_in_range year_range) year).
Proof.
  intros Hy Hint Hrect.
  exists (loc (map (Spec.year_in_range year_range) year) cleaned).
  split; [apply filtered_df_years; assumption|].
  split; [apply columns_loc|].
  split; [rewrite getitem_loc, Hy; simpl; rewrite select_filter; reflexivity|].
  split; [apply filter_in_range_years|].
  rewrite <- length_filter_map. apply nrows_rectangular.
  - apply rectangular_loc. rewrite length_map.
    rewrite (getitem_rectangular _ _ _ _ Hrect Hy). exact Hrect.
  - destruct cleaned; [discriminate Hy | discriminate].
Qed.

Lemma filtered_df_in_range_witness :
  exists filtered,
    streamlit_app.filtered_df Cases.spread (2019, 2021)%Z = Returned filtered /\
    columns filtered = columns Cases.spread /\
    getitem "year" filtered =
      Returned (filter (Spec.year_in_range (2019, 2021)%Z)
                  [Num 2021; NA; Num 2018; Num 2021]) /\
    Forall (fun v => exists y, v = Num y /\
                               (fst (2019, 2021) <= y <= snd (2019, 2021))%Z)
           (filter (Spec.year_in_range (2019, 2021)%Z)
              [Num 2021; NA; Num 2018; Num 2021]) /\
    nrows filtered =
    List.length (filter (Spec.year_in_range (2019, 2021)%Z)
                   [Num 2021; NA; Num 2018; Num 2021]).
Proof.
  apply (filtered_df_in_range Cases.spread [Num 2021; NA; Num 2018; Num 2021]
           (2019, 2021)%Z 4); reflexivity.
Defined.


(** ** The bounds of the slider *)

Lemma In_numbers (z : Z) (s : Series) : In z (numbers s) <-> In (Num z) s.
Proof.
  unfold numbers. rewrite in_flat_map. split.
  - intros [v [Hv Hz]]. destruct v; simpl in Hz; try contradiction.
    destruct Hz as [<-|[]]. exact Hv.
  - intros H. exists (Num z). split; [exact H | left; reflexivity].
Qed.

Lemma fold_min_spec (r : list Z) (x : Z) :
  In (fold_left Z.min r x) (x :: r) /\
  forall y, In y (x :: r) -> (fold_left Z.min r x <= y)%Z.
Proof.
  revert x. induction r as [|a r IH]; intros x; simpl.
  - split; [left; reflexivity|]. intros y [<-|[]]. lia.
  - destruct (IH (Z.min x a)) as [Hin Hle]. split.
    + destruct Hin as [H|H]; [|right; right; exact H].
      rewrite <- H. destruct (Z.min_spec x a) as [[_ ->]|[_ ->]]; auto.
    + intros y [<-|[<-|Hy]].
      * specialize (Hle (Z.min x a) (or_introl eq_refl)). lia.
      * specialize (Hle (Z.min x a) (or_introl eq_refl)). lia.
      * apply Hle. right. exact Hy.
Qed.

Lemma fold_max_spec (r : list Z) (x : Z) :
  In (fold_left Z.max r x) (x :: r) /\
  forall y, In y (x :: r) -> (y <= fold_left Z.max r x)%Z.
Proof.
  revert x. induction r as [|a r IH]; intros x; simpl.
  - split; [left; reflexivity|]. intros y [<-|[]]. lia.
  - destruct (IH (Z.max x a)) as [Hin Hle]. split.
    + destruct Hin as [H|H]; [|right; right; exact H].
      rewrite <- H. destruct (Z.max_spec x a) as [[_ ->]|[_ ->]]; auto.
    + intros y [<-|[<-|Hy]].
      * specialize (Hle (Z.max x a) (or_introl eq_refl)). lia.
      * specialize (Hle (Z.max x a) (or_introl eq_refl)). lia.
      * apply Hle. right. exact Hy.
Qed.

Lemma numbers_nil (s : Series) :
  forallb Spec.is_year s = true -> numbers s = [] -> forallb isna s = true.
Proof.
  induction s as [|v s IH]; simpl; intros H E; [reflexivity|].
  apply andb_true_iff in H. destruct H as [Hv Hs].
  destruct v; simpl in *; try discriminate; auto.
Qed.

Lemma numbers_of_missing (s : Series) : forallb isna s = true -> numbers s = [].
Proof.
  induction s as [|v s IH]; simpl; intros H; [reflexivity|].
  apply andb_true_iff in H. destruct H as [Hv Hs].
  destruct v; simpl in *; try discriminate; auto.
Qed.

(** The extremes of a year column in which a year is present. *)
Lemma year_extremes (year : Series) :
  forallb Spec.is_year year = true ->
  forallb isna year = false ->
  exists lo hi,
    minimum (numbers year) = Some lo /\ maximum (numbers year) = Some hi /\
    In (Num lo) year /\ In (Num hi) year /\
    forall y, In (Num y) year -> (lo <= y <= hi)%Z.
Proof.
  intros Hint Hsome.
  destruct (numbers year) as [|x r] eqn:E.
  - rewrite (numbers_nil _ Hint E) in Hsome. discriminate Hsome.
  - destruct (fold_min_spec r x) as [Hmin1 Hmin2].
    destruct (fold_max_spec r x) as [Hmax1 Hmax2].
    exists (fold_left Z.min r x), (fold_left Z.max r x).
    rewrite <- E in Hmin1, Hmin2, Hmax1, Hmax2.
    split; [reflexivity|]. split; [reflexivity|].
    split; [apply In_numbers; exact Hmin1|].
    split; [apply In_numbers; exact Hmax1|].
    intros y Hy. apply In_numbers in Hy. split; [apply Hmin2 | apply Hmax2]; exact Hy.
Qed.

Lemma forallb_map' {A B : Type} (f : A -> B) (p : B -> bool) (l : list A) :
  forallb p (map f l) = forallb (fun x => p (f x)) l.
Proof.
  induction l as [|x l IH]; simpl; [reflexivity|]. rewrite IH. reflexivity.
Qed.

Import Dashboard.


(** Without any year, the dates that could be read are none, and agree. *)
Lemma no_year_dates_agree parse_datetime epoch_datetime (pt : Series) :
  forallb (fun v => isna (Spec.year_cell parse_datetime epoch_datetime v)) pt = true ->
  one_offset (map (to_datetime_scalar parse_datetime epoch_datetime) pt) = true.
Proof.
  intros H. unfold one_offset.
  replace (offsets (map (to_datetime_scalar parse_datetime epoch_datetime) pt))
    with (@nil (option Z)); [reflexivity|].
  symmetry. induction pt as [|v pt IH]; [reflexivity|].
  simpl in H. apply andb_true_iff in H. destruct H as [Hv Hpt].
  simpl. rewrite (IH Hpt). unfold Spec.year_cell in Hv.
  destruct (to_datetime_scalar parse_datetime epoch_datetime v);
    try reflexivity; discriminate Hv.
Qed.

(** X9. When the dates of a table all fail to convert (or the table has no
    row), the cleaned table has a year column without any year, and the
    dashboard raises [ValueError] while setting up the year slider,
    whatever the user would choose. *)
Theorem dashboard_without_any_year parse_datetime epoch_datetime strict_offsets
        empty_as_object bounds_other
        (t : DataFrame) (pt : Series) (slider : Z * Z -> outcome (Z * Z)) :
  Vocab.refused_abstract empty_as_object t = false ->
  getitem "publish_time" t = Returned pt ->
  forallb (fun v => isna (Spec.year_cell parse_datetime epoch_datetime v)) pt = true ->
  (cleaned_df <~ lift (streamlit_app.clean_data parse_datetime epoch_datetime
                         strict_offsets empty_as_object t) ;;
   Dashboard.sidebar bounds_other cleaned_df slider) = Failed (Exn ValueError).
Proof.
  intros Href Hpt Hna.
  assert (Hd : Spec.dates_agree parse_datetime epoch_datetime t = true).
  { unfold Spec.dates_agree. rewrite Hpt. apply no_year_dates_agree. exact Hna. }
  rewrite clean_data_outcome, Hd, Href. simpl.
  destruct (getitem_cleaned_dates parse_datetime epoch_datetime t pt Hpt) as [_ Hy].
  set (year := Spec.kept t (map (Spec.year_cell parse_datetime epoch_datetime) pt))
    in Hy.
  assert (Hmiss : forallb isna year = true).
  { apply forallb_kept. rewrite forallb_map'. exact Hna. }
  unfold Dashboard.sidebar, Dashboard.year_bounds.
  rewrite (getitem_has_column _ _ _ Hy), Hy. simpl.
  rewrite (cleaned_year_is_year parse_datetime epoch_datetime t pt year Hpt Hy).
  rewrite (numbers_of_missing _ Hmiss). reflexivity.
Qed.

Lemma dashboard_without_any_year_witness :
  (cleaned_df <~ lift (streamlit_app.clean_data Scenario.parse_iso_date
                         Scenario.no_epoch true true Cases.undated) ;;
   Dashboard.sidebar Cases.no_bounds cleaned_df Cases.untouched)
  = Failed (Exn ValueError).
Proof.
  apply (dashboard_without_any_year Scenario.parse_iso_date Scenario.no_epoch
           true true Cases.no_bounds Cases.undated [Str "soon"; Str "unknown"]
           Cases.untouched); reflexivity.
Defined.


Lemma in_range_bounds (lo hi : Z) (year : Series) :
  forallb Spec.is_year year = true ->
  (forall y, In (Num y) year -> (lo <= y <= hi)%Z) ->
  map (Spec.year_in_range (lo, hi)) year = map notna year.
Proof.
  intros Hint Hb. apply map_ext_in. intros v Hv.
  rewrite forallb_forall in Hint. specialize (Hint v Hv).
  destruct v as [| |y|]; simpl in *; try discriminate Hint; [reflexivity|].
  destruct (Hb y Hv) as [H1 H2].
  apply andb_true_iff. split; apply Z.leb_le; assumption.
Qed.

(** X10. With at least one year in the cleaned table, the slider runs from
    the smallest to the largest year that occurs, the same two years that
    the report prints.  Left at its initial value, the full range, it does
    not keep every row: the rows without year are dropped, and exactly
    those. *)
Theorem sidebar_default_range bounds_other years_other
        (cleaned : DataFrame) (year : Series) :
  getitem "year" cleaned = Returned year ->
  forallb Spec.is_year year = true ->
  forallb isna year = false ->
  exists lo hi,
    Dashboard.year_bounds bounds_other cleaned = Returned (lo, hi) /\
    Report.publication_years years_other cleaned = Returned (Some (Num lo, Num hi)) /\
    In (Num lo) year /\ In (Num hi) year /\
    (forall y, In (Num y) year -> (lo <= y <= hi)%Z) /\
    (forall slider,
        slider (lo, hi) = Done (lo, hi) ->
        Dashboard.sidebar bounds_other cleaned slider =
        Done (loc (map notna year) cleaned, Some (lo, hi))).
Proof.
  intros Hy Hint Hsome.
  destruct (year_extremes year Hint Hsome) as (lo & hi & Hlo & Hhi & Hinlo & Hinhi & Hb).
  exists lo, hi.
  assert (Hbounds : Dashboard.year_bounds bounds_other cleaned = Returned (lo, hi)).
  { unfold Dashboard.year_bounds. rewrite Hy. simpl. rewrite Hint, Hlo, Hhi.
    reflexivity. }
  split; [exact Hbounds|].
  split.
  { unfold Report.publication_years.
    rewrite (getitem_has_column _ _ _ Hy), Hy. simpl. rewrite Hint, Hlo, Hhi.
    reflexivity. }
  split; [exact Hinlo|]. split; [exact Hinhi|]. split; [exact Hb|].
  intros slider Hslider.
  unfold Dashboard.sidebar. rewrite (getitem_has_column _ _ _ Hy), Hbounds. simpl.
  rewrite Hslider. simpl.
  rewrite (filtered_df_years cleaned year (lo, hi) Hy Hint). simpl.
  rewrite (in_range_bounds lo hi year Hint Hb). reflexivity.
Qed.

Lemma sidebar_default_range_witness :
  exists lo hi,
    Dashboard.year_bounds Cases.no_bounds Cases.spread = Returned (lo, hi) /\
    Report.publication_years Cases.no_extremes Cases.spread
      = Returned (Some (Num lo, Num hi)) /\
    In (Num lo) [Num 2021; NA; Num 2018; Num 2021] /\
    In (Num hi) [Num 2021; NA; Num 2018; Num 2021] /\
    (forall y, In (Num y) [Num 2021; NA; Num 2018; Num 2021] -> (lo <= y <= hi)%Z) /\
    (forall slider,
        slider (lo, hi) = Done (lo, hi) ->
        Dashboard.sidebar Cases.no_bounds Cases.spread slider =
        Done (loc (map notna [Num 2021; NA; Num 2018; Num 2021]) Cases.spread,
              Some (lo, hi))).
Proof.
  apply (sidebar_default_range Cases.no_bounds Cases.no_extremes Cases.spread
           [Num 2021; NA; Num 2018; Num 2021]); reflexivity.
Defined.


(** ** The statistics of the publications tab *)

(** The counts by year of a column of integers and missing values. *)
Lemma year_counts_of_years ties (year : Series) :
  forallb Spec.is_year year = true ->
  exists counts,
    sort_index (value_counts ties year) = Returned counts /\
    StronglySorted Spec.key_lt counts /\
    (forall k c,
        In (k, c) counts <->
        (In k year /\ k <> NA /\ c = Spec.occurrences value_eqb k year)) /\
    list_sum (map snd counts) = List.length (filter notna year).
Proof.
  intros Hint.
  exists (fold_right insert_key [] (value_counts ties year)).
  assert (Hkeys : Forall (fun y => Spec.is_year (fst y) = true /\ fst y <> NA)
                         (value_counts ties year)).
  { apply Forall_forall. intros [k c] H. apply (value_counts_In ties) in H.
    destruct H as (Hin & Hna & _). simpl. split; [|exact Hna].
    rewrite forallb_forall in Hint. apply Hint. exact Hin. }
  split.
  { unfold sort_index. rewrite same_kind_years; [reflexivity|].
    apply Forall_map. exact Hkeys. }
  split.
  { apply sort_keys_sorted; [exact Hkeys|].
    apply value_counts_NoDup. }
  split.
  { intros k c. rewrite <- (value_counts_In ties). split; intros H.
    - eapply Permutation_in; [apply Permutation_sym, sort_keys_perm | exact H].
    - eapply Permutation_in; [apply sort_keys_perm | exact H]. }
  rewrite <- (value_counts_sum ties).
  apply Permutation_list_sum, Permutation_map, Permutation_sym, sort_keys_perm.
Qed.

(** The entry that [idxmax] picks: no entry before it has a count as large,
    no entry behind it a larger one. *)

Lemma fold_best_spec (r : Counts) (e : value * nat) :
  exists l1 l2,
    e :: r =
    l1 ++ fold_left (fun best x => if snd best <? snd x then x else best) r e :: l2 /\
    (forall x, In x l1 ->
       snd x < snd (fold_left (fun best x => if snd best <? snd x then x else best)
                      r e)) /\
    (forall x, In x l2 ->
       snd x <= snd (fold_left (fun best x => if snd best <? snd x then x else best)
                       r e)).
Proof.
  revert e. induction r as [|a r IH]; intros e.
  - exists [], []. simpl. repeat split; intros x [].
  - simpl. destruct (snd e <? snd a) eqn:E.
    + apply Nat.ltb_lt in E.
      destruct (IH a) as (l1 & l2 & Heq & H1 & H2).
      remember (fold_left (fun best x => if snd best <? snd x then x else best) r a)
        as b eqn:Eb.
      clear Eb IH.
      assert (Hab : snd a <= snd b).
      { assert (Hin : In a (l1 ++ b :: l2)) by (rewrite <- Heq; left; reflexivity).
        apply in_app_or in Hin. destruct Hin as [Hin|[Hin|Hin]].
        - apply Nat.lt_le_incl, H1, Hin.
        - subst b. apply Nat.le_refl.
        - apply H2, Hin. }
      exists (e :: l1), l2. split; [simpl; rewrite Heq; reflexivity|].
      split; [|exact H2].
      intros x [Hx|Hx]; [subst x; lia | apply H1, Hx].
    + apply Nat.ltb_ge in E.
      destruct (IH e) as (l1 & l2 & Heq & H1 & H2).
      remember (fold_left (fun best x => if snd best <? snd x then x else best) r e)
        as b eqn:Eb.
      clear Eb IH.
      destruct l1 as [|e' l1].
      * simpl in Heq. injection Heq as Hb Hr. subst b r.
        exists [], (a :: l2). split; [reflexivity|].
        split; [intros x []|].
        intros x [Hx|Hx]; [subst x; exact E | apply H2, Hx].
      * simpl in Heq. injection Heq as He Hr. subst e' r.
        exists (e :: a :: l1), l2. split; [reflexivity|].
        split; [|exact H2].
        assert (Heb : snd e < snd b) by (apply H1; left; reflexivity).
        intros x [Hx|[Hx|Hx]];
          [subst x; exact Heb | subst x; lia | apply H1; right; exact Hx].
Qed.

Lemma filter_all {A : Type} (p : A -> bool) (l : list A) :
  (forall x, In x l -> p x = true) -> filter p l = l.
Proof.
  intros H. induction l as [|x l IH]; simpl; [reflexivity|].
  rewrite (H x (or_introl eq_refl)), IH; [reflexivity|].
  intros y Hy. apply H. right. exact Hy.
Qed.

Lemma filter_notna_in_range (r : Z * Z) (year : Series) :
  filter notna (filter (Spec.year_in_range r) year)
  = filter (Spec.year_in_range r) year.
Proof.
  apply filter_all. intros v Hv. apply filter_In in Hv. destruct Hv as [_ Hv].
  destruct v; simpl in *; try discriminate Hv; reflexivity.
Qed.

Lemma SSorted_app_r {A : Type} (R : A -> A -> Prop) (l1 l2 : list A) :
  StronglySorted R (l1 ++ l2) -> StronglySorted R l2.
Proof.
  induction l1 as [|x l1 IH]; simpl; intros H; [exact H|].
  inversion H; subst. apply IH. assumption.
Qed.


Lemma publications_tab_of_years ties (filtered : DataFrame) (year : Series) :
  getitem "year" filtered = Returned year ->
  forallb Spec.is_year year = true ->
  exists counts,
    streamlit_app.year_counts ties filtered = Returned (Some counts) /\
    Dashboard.publications_tab ties filtered =
      (_ <- px_bar counts ;;
       peak <- idxmax counts ;;
       Returned (Some (counts, peak, list_max (map snd counts),
                       list_sum (map snd counts)))) /\
    StronglySorted Spec.key_lt counts /\
    (forall k c,
        In (k, c) counts <->
        (In k year /\ k <> NA /\ c = Spec.occurrences value_eqb k year)) /\
    list_sum (map snd counts) = List.length (filter notna year).
Proof.
  intros Hy Hint.
  destruct (year_counts_of_years ties year Hint) as (counts & Hsort & Hs & Hin & Hsum).
  exists counts.
  unfold streamlit_app.year_counts, Dashboard.publications_tab.
  rewrite (getitem_has_column _ _ _ Hy), Hy. simpl. rewrite Hsort. simpl.
  split; [reflexivity|]. split; [reflexivity|].
  split; [exact Hs|]. split; [exact Hin | exact Hsum].
Qed.

(** X11. A range of the slider that holds no year of the table, which is
    possible between the bounds when the years have a gap, leaves no row,
    and the publications tab raises [ValueError] when it draws the chart
    of the empty counts, before it asks them for their peak year. *)
Theorem publications_tab_empty_range ties (cleaned : DataFrame) (year : Series)
        (year_range : Z * Z) :
  getitem "year" cleaned = Returned year ->
  forallb Spec.is_year year = true ->
  filter (Spec.year_in_range year_range) year = [] ->
  (filtered_df <- streamlit_app.filtered_df cleaned year_range ;;
   Dashboard.publications_tab ties filtered_df) = Raised ValueError /\
  (filtered_df <- streamlit_app.filtered_df cleaned year_range ;;
   streamlit_app.year_counts ties filtered_df) = Returned (Some []) /\
  px_bar [] = Raised ValueError.
Proof.
  intros Hy Hint Hnone.
  rewrite (filtered_df_years cleaned year year_range Hy Hint). simpl.
  unfold Dashboard.publications_tab, streamlit_app.year_counts.
  rewrite has_column_loc, (getitem_has_column _ _ _ Hy), getitem_loc, Hy. simpl.
  rewrite select_filter, Hnone. repeat split.
Qed.

Lemma publications_tab_empty_range_witness :
  (filtered_df <- streamlit_app.filtered_df Cases.spread (2019, 2020)%Z ;;
   Dashboard.publications_tab Scenario.first_met filtered_df)
  = Raised ValueError /\
  (filtered_df <- streamlit_app.filtered_df Cases.spread (2019, 2020)%Z ;;
   streamlit_app.year_counts Scenario.first_met filtered_df)
  = Returned (Some []) /\
  px_bar [] = Raised ValueError.
Proof.
  apply (publications_tab_empty_range Scenario.first_met Cases.spread
           [Num 2021; NA; Num 2018; Num 2021] (2019, 2020)%Z); reflexivity.
Defined.

(** X12. When the range holds a year of the table, the publications tab
    shows the counts of the filtered rows by ascending year; its total is
    the number of filtered rows; its peak is a year of the counts with the
    greatest count, the earliest such year, and the count shown with it is
    that greatest count. *)
Theorem publications_tab_statistics ties (cleaned : DataFrame) (year : Series)
        (year_range : Z * Z) :
  getitem "year" cleaned = Returned year ->
  forallb Spec.is_year year = true ->
  filter (Spec.year_in_range year_range) year <> [] ->
  exists filtered counts peak most total,
    streamlit_app.filtered_df cleaned year_range = Returned filtered /\
    streamlit_app.year_counts ties filtered = Returned (Some counts) /\
    Dashboard.publications_tab ties filtered
      = Returned (Some (counts, peak, most, total)) /\
    total = List.length (filter (Spec.year_in_range year_range) year) /\
    In (peak, most) counts /\
    (forall k c, In (k, c) counts ->
       c <= most /\ (c = most -> k = peak \/ Spec.key_lt (peak, most) (k, c))).
Proof.
  intros Hy Hint Hsome.
  set (kept := filter (Spec.year_in_range year_range) year) in *.
  set (filtered := loc (map (Spec.year_in_range year_range) year) cleaned).
  assert (Hk : getitem "year" filtered = Returned kept).
  { unfold filtered. rewrite getitem_loc, Hy. simpl. rewrite select_filter.
    reflexivity. }
  assert (Hkint : forallb Spec.is_year kept = true).
  { apply forallb_forall. intros v Hv. apply filter_In in Hv.
    rewrite forallb_forall in Hint. apply Hint. tauto. }
  destruct (publications_tab_of_years ties filtered kept Hk Hkint)
    as (counts & Hyc & Htab & Hs & Hin & Hsum).
  unfold kept in Hsum. rewrite filter_notna_in_range in Hsum. fold kept in Hsum.
  destruct counts as [|e r].
  { exfalso. simpl in Hsum. destruct kept; [contradiction | discriminate Hsum]. }
  destruct (fold_best_spec r e) as (l1 & l2 & Heq & H1 & H2).
  remember (fold_left (fun best x => if snd best <? snd x then x else best) r e)
    as b eqn:Eb.
  assert (Hmax : list_max (map snd (e :: r)) = snd b).
  { apply Nat.le_antisymm.
    - apply list_max_le. apply Forall_forall. intros c Hc.
      apply in_map_iff in Hc. destruct Hc as [x [<- Hx]].
      rewrite Heq in Hx. apply in_app_or in Hx.
      destruct Hx as [Hx|[Hx|Hx]];
        [apply Nat.lt_le_incl, H1, Hx | subst x; apply Nat.le_refl | apply H2, Hx].
    - assert (Hall : Forall (fun k => k <= list_max (map snd (e :: r)))
                            (map snd (e :: r)))
        by (apply list_max_le; apply Nat.le_refl).
      rewrite Forall_forall in Hall. apply Hall. apply in_map.
      rewrite Heq. apply in_or_app. right. left. reflexivity. }
  exists filtered, (e :: r), (fst b), (snd b), (List.length kept).
  split; [apply filtered_df_years; assumption|].
  split; [exact Hyc|].
  split.
  { rewrite Htab. cbn [px_bar idxmax bind]. rewrite <- Eb, Hmax, Hsum.
    reflexivity. }
  split; [reflexivity|].
  split.
  { rewrite <- surjective_pairing, Heq. apply in_or_app. right. left. reflexivity. }
  clear Eb Hmax Htab Hyc Hin Hsum.
  intros k c Hkc. rewrite Heq in Hkc, Hs.
  apply in_app_or in Hkc. destruct Hkc as [Hkc|[Hkc|Hkc]].
  - specialize (H1 _ Hkc). simpl in H1. split; [lia|]. intros ->. lia.
  - subst b. simpl. split; [apply Nat.le_refl | intros _; left; reflexivity].
  - specialize (H2 _ Hkc). simpl in H2. split; [exact H2|]. intros _. right.
    apply SSorted_app_r in Hs. inversion Hs as [|? ? _ Hall]; subst.
    rewrite Forall_forall in Hall. rewrite <- surjective_pairing.
    apply Hall. exact Hkc.
Qed.

Lemma publications_tab_statistics_witness :
  exists filtered counts peak most total,
    streamlit_app.filtered_df Cases.spread (2018, 2021)%Z = Returned filtered /\
    streamlit_app.year_counts Scenario.first_met filtered = Returned (Some counts) /\
    Dashboard.publications_tab Scenario.first_met filtered
      = Returned (Some (counts, peak, most, total)) /\
    total = List.length (filter (Spec.year_in_range (2018, 2021)%Z)
                           [Num 2021; NA; Num 2018; Num 2021]) /\
    In (peak, most) counts /\
    (forall k c, In (k, c) counts ->
       c <= most /\ (c = most -> k = peak \/ Spec.key_lt (peak, most) (k, c))).
Proof.
  apply (publications_tab_statistics Scenario.first_met Cases.spread
           [Num 2021; NA; Num 2018; Num 2021] (2018, 2021)%Z);
    [reflexivity | reflexivity | discriminate].
Defined.


(** ** The data sample and the download *)

Lemma In_columns_getitem (c : string) (df : DataFrame) :
  In c (columns df) -> exists s, getitem c df = Returned s.
Proof.
  intros H. apply has_column_getitem. unfold has_column.
  apply existsb_exists. exists c. split; [exact H | apply String.eqb_refl].
Qed.

(** Selecting columns that the frame has. *)
Lemma getitems_incl (cols : list string) (df : DataFrame) :
  incl cols (columns df) ->
  exists part,
    getitems cols df = Returned part /\
    columns part = cols /\
    forall c, In c cols -> getitem c part = getitem c df.
Proof.
  unfold getitems. induction cols as [|c0 cols IH]; intros Hincl.
  - exists []. repeat split. intros c [].
  - destruct IH as (part & Hpart & Hcols & Hget).
    { intros c Hc. apply Hincl. right. exact Hc. }
    destruct (In_columns_getitem c0 df) as [s0 Hs0].
    { apply Hincl. left. reflexivity. }
    exists ((c0, s0) :: part). simpl. rewrite Hs0. simpl. rewrite Hpart. simpl.
    split; [reflexivity|]. split; [unfold columns in *; simpl; rewrite Hcols;
                                   reflexivity|].
    intros c Hc. destruct (String.eqb c c0) eqn:E.
    + apply String.eqb_eq in E. subst c. symmetry. exact Hs0.
    + destruct Hc as [Hc|Hc]; [subst c; rewrite String.eqb_refl in E; discriminate E|].
      apply Hget. exact Hc.
Qed.

Lemma getitem_head_rows (c : string) (n : Z) (df : DataFrame) :
  getitem c (head_rows n df) = (s <- getitem c df ;; Returned (head n s)).
Proof.
  unfold head_rows. induction df as [|[c0 s0] rest IH]; simpl; [reflexivity|].
  destruct (String.eqb c c0); [reflexivity | exact IH].
Qed.

Lemma columns_head_rows (n : Z) (df : DataFrame) :
  columns (head_rows n df) = columns df.
Proof. unfold columns, head_rows. rewrite map_map. reflexivity. Qed.

Lemma default_cols_firstn (cols : list string) : default_cols cols = firstn 5 cols.
Proof.
  unfold default_cols. destruct (5 <=? List.length cols) eqn:E; [reflexivity|].
  apply Nat.leb_gt in E. rewrite firstn_all2 by lia. reflexivity.
Qed.

(** X13. On a cleaned table without year column (a table without
    [publish_time] and without [year]) the sidebar filters nothing and
    leaves [year_range] unassigned; if the table has a row, the data sample
    tab, when it runs, fails with [UnboundLocalError] where it builds the
    name of the download from [year_range], whatever is selected. *)
Theorem download_needs_year_column bounds_other (cleaned : DataFrame)
        (slider : Z * Z -> outcome (Z * Z))
        (multiselect : list string -> list string -> list string)
        (sample_size : Z) :
  has_column "year" cleaned = false ->
  empty cleaned = false ->
  incl (multiselect (columns cleaned) (default_cols (columns cleaned)))
       (columns cleaned) ->
  Dashboard.sidebar bounds_other cleaned slider = Done (cleaned, None) /\
  (r <~ Dashboard.sidebar bounds_other cleaned slider ;;
   Dashboard.data_sample (fst r) (snd r) multiselect sample_size)
  = Failed UnboundLocalError.
Proof.
  intros Hno Hrows Hincl.
  assert (Hside : Dashboard.sidebar bounds_other cleaned slider
                  = Done (cleaned, None)).
  { unfold Dashboard.sidebar. rewrite Hno. reflexivity. }
  split; [exact Hside|].
  rewrite Hside. simpl. unfold Dashboard.data_sample. rewrite Hrows. simpl.
  destruct (multiselect (columns cleaned) (default_cols (columns cleaned)))
    as [|c0 cols] eqn:Esel; [reflexivity|].
  destruct (getitems_incl (c0 :: cols) cleaned Hincl) as (part & Hpart & _).
  rewrite Hpart. reflexivity.
Qed.

Lemma download_needs_year_column_witness :
  Dashboard.sidebar Cases.no_bounds Cases.dateless Cases.untouched
    = Done (Cases.dateless, None) /\
  (r <~ Dashboard.sidebar Cases.no_bounds Cases.dateless Cases.untouched ;;
   Dashboard.data_sample (fst r) (snd r) Cases.default_selection 10)
  = Failed UnboundLocalError.
Proof.
  apply (download_needs_year_column Cases.no_bounds Cases.dateless Cases.untouched
           Cases.default_selection 10%Z);
    [reflexivity | reflexivity |].
  intros c Hc. exact Hc.
Defined.

(** X14. With a year range and a frame that has a row, the data sample tab
    does not fail when the selected columns are columns of the frame.  It
    shows nothing for an empty selection, else the selected columns in the
    order of the selection, each cut to its first [sample_size] cells; the
    default selection is the first five columns.  The download is the whole
    filtered frame, whatever is selected or shown, under a name made of the
    two ends of the year range. *)
Theorem data_sample_shown (filtered : DataFrame) (year_range : Z * Z)
        (multiselect : list string -> list string -> list string)
        (sample_size : Z) :
  empty filtered = false ->
  incl (multiselect (columns filtered) (default_cols (columns filtered)))
       (columns filtered) ->
  (0 <= sample_size)%Z ->
  exists s,
    Dashboard.data_sample filtered (Some year_range) multiselect sample_size
      = Done (Some s) /\
    default_cols (columns filtered) = firstn 5 (columns filtered) /\
    download_data s = to_csv filtered /\
    download_name s = Dashboard.file_name year_range /\
    match multiselect (columns filtered) (default_cols (columns filtered)) with
    | [] => shown s = None
    | selected =>
        exists part,
          shown s = Some part /\
          columns part = selected /\
          forall c col,
            In c selected -> getitem c filtered = Returned col ->
            getitem c part = Returned (firstn (Z.to_nat sample_size) col)
    end.
Proof.
  intros Hrows Hincl Hsize.
  unfold Dashboard.data_sample. rewrite Hrows. simpl.
  destruct (multiselect (columns filtered) (default_cols (columns filtered)))
    as [|c0 cols] eqn:Esel.
  - simpl. eexists. split; [reflexivity|].
    split; [apply default_cols_firstn|]. repeat split.
  - destruct (getitems_incl (c0 :: cols) filtered Hincl) as (part & Hpart & Hcols & Hget).
    rewrite Hpart. simpl. eexists. split; [reflexivity|].
    split; [apply default_cols_firstn|]. simpl.
    split; [reflexivity|]. split; [reflexivity|].
    exists (head_rows sample_size part).
    split; [reflexivity|].
    split; [rewrite columns_head_rows; exact Hcols|].
    intros c col Hc Hcol.
    rewrite getitem_head_rows, (Hget c Hc), Hcol. simpl.
    unfold head. destruct (0 <=? sample_size)%Z eqn:E; [reflexivity|].
    apply Z.leb_gt in E. lia.
Qed.

Lemma data_sample_shown_witness :
  exists s,
    Dashboard.data_sample Cases.spread (Some (2018, 2021)%Z)
      Cases.default_selection 2 = Done (Some s) /\
    default_cols (columns Cases.spread) = firstn 5 (columns Cases.spread) /\
    download_data s = to_csv Cases.spread /\
    download_name s = Dashboard.file_name (2018, 2021)%Z /\
    match Cases.default_selection (columns Cases.spread)
            (default_cols (columns Cases.spread)) with
    | [] => shown s = None
    | selected =>
        exists part,
          shown s = Some part /\
          columns part = selected /\
          forall c col,
            In c selected -> getitem c Cases.spread = Returned col ->
            getitem c part = Returned (firstn (Z.to_nat 2) col)
    end.
Proof.
  apply (data_sample_shown Cases.spread (2018, 2021)%Z Cases.default_selection 2%Z);
    [reflexivity | | discriminate].
  intros c Hc. exact Hc.
Defined.

(** The name of a download. *)
Example download_name_of_range :
  Dashboard.file_name (2018, 2021)%Z = "cord19_filtered_2018_2021.csv".
Proof. reflexivity. Qed.


(** ** The years of the report and the counts by year *)

Lemma key_lt_Num (a b : Z) (c d : nat) :
  Spec.key_lt (Num a, c) (Num b, d) <-> (a < b)%Z.
Proof. unfold Spec.key_lt. simpl. reflexivity. Qed.

(** X15. On a cleaned table whose year column holds integers and missing
    values, the years that the report prints are the first and the last
    label of the counts that [analyze_publications_by_year] returns; when
    no row has a year, the counts are empty and the report prints NaN for
    both years instead of raising. *)
Theorem report_years_match_counts ties years_other
        (self : cord19_analysis.CORD19Analyzer) (cleaned : DataFrame)
        (year : Series) :
  cord19_analysis.cleaned_df self = Some cleaned ->
  getitem "year" cleaned = Returned year ->
  forallb Spec.is_year year = true ->
  exists counts first last,
    cord19_analysis.analyze_publications_by_year ties self
    = Returned (Some counts) /\
    Report.publication_years years_other cleaned = Returned (Some (first, last)) /\
    hd NA (map fst counts) = first /\
    List.last (map fst counts) NA = last /\
    (counts = [] <-> forallb isna year = true).
Proof.
  intros Hself Hy Hint.
  destruct (year_counts_of_years ties year Hint) as (counts & Hsort & Hs & Hin & Hsum).
  assert (Hrun : cord19_analysis.analyze_publications_by_year ties self
                 = Returned (Some counts)).
  { unfold cord19_analysis.analyze_publications_by_year. rewrite Hself. simpl.
    rewrite (getitem_has_column _ _ _ Hy), Hy. simpl. rewrite Hsort. reflexivity. }
  destruct (forallb isna year) eqn:Hmiss.
  - (* no year at all *)
    assert (Hc : counts = []).
    { destruct counts as [|[k c] r]; [reflexivity|]. exfalso.
      destruct (proj1 (Hin k c) (or_introl eq_refl)) as (Hk & Hna & _).
      rewrite forallb_forall in Hmiss. specialize (Hmiss k Hk).
      destruct k; simpl in Hmiss; congruence. }
    exists counts, NA, NA. split; [exact Hrun|].
    split.
    { unfold Report.publication_years.
      rewrite (getitem_has_column _ _ _ Hy), Hy. simpl.
      rewrite Hint, (numbers_of_missing _ Hmiss). reflexivity. }
    subst counts. repeat split.
  - destruct (year_extremes year Hint Hmiss)
      as (lo & hi & Hlo & Hhi & Hinlo & Hinhi & Hb).
    exists counts, (Num lo), (Num hi). split; [exact Hrun|].
    split.
    { unfold Report.publication_years.
      rewrite (getitem_has_column _ _ _ Hy), Hy. simpl.
      rewrite Hint, Hlo, Hhi. reflexivity. }
    assert (Hkeys : forall k c, In (k, c) counts ->
                      exists y, k = Num y /\ (lo <= y <= hi)%Z).
    { intros k c H. apply Hin in H. destruct H as (Hk & Hna & _).
      rewrite forallb_forall in Hint. specialize (Hint k Hk).
      destruct k as [| |y|]; simpl in Hint; try discriminate Hint; [congruence|].
      exists y. split; [reflexivity | apply Hb; exact Hk]. }
    assert (Hlo_in : In (Num lo, Spec.occurrences value_eqb (Num lo) year) counts).
    { apply Hin. repeat split; [exact Hinlo | discriminate]. }
    assert (Hhi_in : In (Num hi, Spec.occurrences value_eqb (Num hi) year) counts).
    { apply Hin. repeat split; [exact Hinhi | discriminate]. }
    split.
    { destruct counts as [|[k c] r]; [contradiction|]. simpl.
      destruct (Hkeys k c (or_introl eq_refl)) as (y & -> & Hy1 & Hy2).
      destruct Hlo_in as [E|Hr]; [injection E as -> _; reflexivity|].
      inversion Hs as [|? ? _ Hall]; subst. rewrite Forall_forall in Hall.
      specialize (Hall _ Hr). apply key_lt_Num in Hall. lia. }
    split.
    { destruct (@exists_last _ counts) as (l & [k c] & E).
      { intros ->. contradiction. }
      rewrite E in Hs, Hhi_in, Hkeys |- *.
      rewrite map_app. simpl. rewrite last_last.
      destruct (Hkeys k c) as (y & -> & Hy1 & Hy2).
      { apply in_or_app. right. left. reflexivity. }
      apply in_app_or in Hhi_in. destruct Hhi_in as [Hl|[E'|[]]].
      - apply SSorted_app_inv in Hs. destruct Hs as [_ Hcross].
        specialize (Hcross _ (Num y, c) Hl (or_introl eq_refl)).
        apply key_lt_Num in Hcross. lia.
      - injection E' as -> _. reflexivity. }
    split; [intros ->; contradiction | discriminate].
Qed.

Lemma report_years_match_counts_witness :
  exists counts first last,
    cord19_analysis.analyze_publications_by_year Scenario.first_met
      (Scenario.analyzer_of Cases.spread)
      = Returned (Some counts) /\
    Report.publication_years Cases.no_extremes Cases.spread
      = Returned (Some (first, last)) /\
    hd NA (map fst counts) = first /\
    List.last (map fst counts) NA = last /\
    (counts = [] <-> forallb isna [Num 2021; NA; Num 2018; Num 2021] = true).
Proof.
  apply (report_years_match_counts Scenario.first_met Cases.no_extremes
           (Scenario.analyzer_of Cases.spread) Cases.spread
           [Num 2021; NA; Num 2018; Num 2021]); reflexivity.
Defined.


(** ** Title words for a count that is not positive *)

(** X16. With zero or a negative number of words to show, the frequency
    list is empty, so the one-shot [analyze_title_words] raises
    [ValueError] at the unpacking although the titles have words, where
    [analyze_top_journals] returns an empty table; the dashboard shows no
    chart. *)
Theorem analyze_title_words_no_count unicode_alnum unicode_lower str_of_scalar
        (self : cord19_analysis.CORD19Analyzer) (cleaned : DataFrame)
        (title : Series) (n : Z) :
  cord19_analysis.cleaned_df self = Some cleaned ->
  getitem "title" cleaned = Returned title ->
  (n <= 0)%Z ->
  cord19_analysis.analyze_title_words unicode_alnum unicode_lower str_of_scalar
    self (Some n)
  = Raised ValueError /\
  streamlit_app.title_words unicode_alnum unicode_lower str_of_scalar cleaned n
  = Returned None.
Proof.
  intros Hself Htitle Hn.
  assert (Hw : cord19_analysis.word_freq unicode_alnum unicode_lower
                 str_of_scalar title n = []).
  { unfold cord19_analysis.word_freq, most_common.
    replace (Z.to_nat n) with 0 by lia. reflexivity. }
  split.
  - unfold cord19_analysis.analyze_title_words. rewrite Hself. simpl.
    rewrite (getitem_has_column _ _ _ Htitle), Htitle. simpl. rewrite Hw.
    reflexivity.
  - unfold streamlit_app.title_words.
    rewrite (getitem_has_column _ _ _ Htitle), Htitle. simpl. rewrite Hw.
    reflexivity.
Qed.

Lemma analyze_title_words_no_count_witness :
  cord19_analysis.analyze_title_words Scenario.latin_alnum Scenario.latin_lower
    Scenario.no_scalar
    (Scenario.analyzer_of Scenario.virus_titles) (Some 0%Z) = Raised ValueError /\
  streamlit_app.title_words Scenario.latin_alnum Scenario.latin_lower
    Scenario.no_scalar Scenario.virus_titles 0
  = Returned None.
Proof.
  apply (analyze_title_words_no_count Scenario.latin_alnum Scenario.latin_lower
           Scenario.no_scalar
           (Scenario.analyzer_of Scenario.virus_titles) Scenario.virus_titles
           [Str "The Virus Spreads"; Str "Virus Mutation Spreads Fast"] 0%Z);
    [reflexivity | reflexivity | lia].
Defined.


(** ** Columns of the input that the Cleaner replaces *)

Lemma setitem_twice (c : string) (s s' : Series) (df : DataFrame) :
  setitem c s (setitem c s' df) = setitem c s df.
Proof.
  induction df as [|[c0 s0] rest IH]; simpl.
  - rewrite String.eqb_refl. reflexivity.
  - destruct (String.eqb c c0) eqn:E; simpl; rewrite E; [reflexivity|].
    rewrite IH. reflexivity.
Qed.

Lemma setitem_swap (c1 c2 : string) (s1 s2 : Series) (df : DataFrame) :
  String.eqb c1 c2 = false -> has_column c1 df = true ->
  setitem c1 s1 (setitem c2 s2 df) = setitem c2 s2 (setitem c1 s1 df).
Proof.
  intros Hne. unfold has_column, columns.
  induction df as [|[c0 s0] rest IH]; simpl; intros H; [discriminate H|].
  destruct (String.eqb c1 c0) eqn:E1, (String.eqb c2 c0) eqn:E2; simpl;
    rewrite ?E1, ?E2; try reflexivity.
  - apply String.eqb_eq in E1. apply String.eqb_eq in E2. subst.
    rewrite String.eqb_refl in Hne. discriminate Hne.
  - simpl in H. rewrite IH by exact H. reflexivity.
Qed.

(** X17. When the input has a [publish_time] column, the values of an input
    column named [year] never reach the cleaned table: whatever that column
    holds, and whether it is there or not, the outcome of [clean_data] is
    the same, and its year column is derived from [publish_time]. *)
Theorem clean_data_replaces_year parse_datetime epoch_datetime strict_offsets
        empty_as_object (t : DataFrame) (pt y1 y2 : Series) :
  getitem "publish_time" t = Returned pt ->
  streamlit_app.clean_data parse_datetime epoch_datetime strict_offsets
    empty_as_object (setitem "year" y1 t) =
  streamlit_app.clean_data parse_datetime epoch_datetime strict_offsets
    empty_as_object (setitem "year" y2 t) /\
  streamlit_app.clean_data parse_datetime epoch_datetime strict_offsets
    empty_as_object (setitem "year" y1 t) =
  streamlit_app.clean_data parse_datetime epoch_datetime strict_offsets
    empty_as_object t.
Proof.
  intros Hpt.
  assert (H : forall y,
             streamlit_app.clean_data parse_datetime epoch_datetime
               strict_offsets empty_as_object (setitem "year" y t) =
             streamlit_app.clean_data parse_datetime epoch_datetime
               strict_offsets empty_as_object t).
  { intros y. rewrite !clean_data_outcome.
    assert (Hd : Spec.dates_agree parse_datetime epoch_datetime
                   (setitem "year" y t)
                 = Spec.dates_agree parse_datetime epoch_datetime t).
    { unfold Spec.dates_agree. rewrite getitem_setitem. reflexivity. }
    assert (Href : Vocab.refused_abstract empty_as_object (setitem "year" y t)
                   = Vocab.refused_abstract empty_as_object t).
    { unfold Vocab.refused_abstract. rewrite getitem_setitem. reflexivity. }
    rewrite Hd, Href.
    destruct (Spec.dates_agree parse_datetime epoch_datetime t); [|reflexivity].
    destruct (Vocab.refused_abstract empty_as_object t); [reflexivity|].
    f_equal. unfold Spec.cleaned. do 2 f_equal.
    unfold Spec.derive_year. rewrite getitem_setitem. simpl. rewrite Hpt.
    cbv zeta.
    rewrite (setitem_swap "publish_time" "year")
      by (reflexivity || exact (getitem_has_column _ _ _ Hpt)).
    apply setitem_twice. }
  split; [rewrite !H; reflexivity | apply H].
Qed.

Lemma clean_data_replaces_year_witness :
  streamlit_app.clean_data Scenario.parse_iso_date Scenario.no_epoch true true
    (setitem "year" [Num 1999; Num 1999; Num 1999] Scenario.dated) =
  streamlit_app.clean_data Scenario.parse_iso_date Scenario.no_epoch true true
    (setitem "year" [Str "x"; NA; NA] Scenario.dated) /\
  streamlit_app.clean_data Scenario.parse_iso_date Scenario.no_epoch true true
    (setitem "year" [Num 1999; Num 1999; Num 1999] Scenario.dated) =
  streamlit_app.clean_data Scenario.parse_iso_date Scenario.no_epoch true true
    Scenario.dated.
Proof.
  apply (clean_data_replaces_year Scenario.parse_iso_date Scenario.no_epoch
           true true Scenario.dated
           [Str "2020-03-01"; Str "not-a-date"; Str "2021-07-15"]).
  reflexivity.
Defined.

(** ** The whole script, and the exported subset *)

Lemma existsb_filter_nil {A : Type} (p : A -> bool) (l : list A) :
  existsb p l = true <-> filter p l <> [].
Proof.
  induction l as [|x l IH]; simpl.
  - split; [discriminate | intros H; contradiction].
  - destruct (p x); simpl; [split; [discriminate | reflexivity] | exact IH].
Qed.

Section Script.
Variable parse_datetime : string -> option Timestamp.
Variable epoch_datetime : Z -> option Timestamp.
Variable strict_offsets : bool.
Variable empty_as_object : bool.
Variable ties : value -> value -> bool.
Variable unicode_alnum : char -> bool.
Variable unicode_lower : char -> list ascii.
Variable str_of_scalar : value -> string.
Variable bounds_other : Series -> result (Z * Z).
Variable mean_other : Series -> result unit.
Variable generate : string -> result unit.

Let clean := streamlit_app.clean_data parse_datetime epoch_datetime
               strict_offsets empty_as_object.
Let main := Dashboard.main parse_datetime epoch_datetime strict_offsets
              empty_as_object ties unicode_alnum unicode_lower str_of_scalar
              bounds_other mean_other generate.

(** The title tab never raises. *)
Lemma title_words_returns (filtered : DataFrame) (n : Z) :
  exists r,
    streamlit_app.title_words unicode_alnum unicode_lower str_of_scalar filtered n
    = Returned r.
Proof.
  unfold streamlit_app.title_words.
  destruct (has_column "title" filtered) eqn:H; [|eexists; reflexivity].
  destruct (has_column_getitem _ _ H) as [title Ht]. rewrite Ht. simpl.
  destruct (cord19_analysis.word_freq unicode_alnum unicode_lower str_of_scalar
              title n); eexists; reflexivity.
Qed.

(** The journal tab draws its chart when a row has a journal. *)
Lemma journal_counts_returns (filtered : DataFrame) (top_n : Z) :
  (0 < top_n)%Z ->
  (forall journal,
      getitem "journal" filtered = Returned journal ->
      existsb notna journal = true) ->
  exists r, streamlit_app.journal_counts ties filtered top_n = Returned r.
Proof.
  intros Hn Hj. unfold streamlit_app.journal_counts.
  destruct (has_column "journal" filtered) eqn:H; [|eexists; reflexivity].
  destruct (has_column_getitem _ _ H) as [journal Hget]. rewrite Hget. simpl.
  specialize (Hj journal Hget).
  destruct (head top_n (value_counts ties journal)) eqn:E;
    [|eexists; reflexivity].
  exfalso. apply (proj1 (head_nil top_n _ Hn)) in E.
  apply value_counts_nil in E.
  apply existsb_exists in Hj. destruct Hj as [v [Hv Hna]].
  rewrite forallb_forall in E. specialize (E v Hv).
  unfold notna in Hna. rewrite E in Hna. discriminate Hna.
Qed.

(** The publications tab draws its chart when a row has a year. *)
Lemma publications_tab_returns (filtered : DataFrame) (year : Series) :
  getitem "year" filtered = Returned year ->
  forallb Spec.is_year year = true ->
  filter notna year <> [] ->
  exists r, Dashboard.publications_tab ties filtered = Returned r.
Proof.
  intros Hy Hint Hsome.
  destruct (publications_tab_of_years ties filtered year Hy Hint)
    as (counts & _ & Htab & _ & _ & Hsum).
  rewrite Htab. destruct counts as [|e r].
  - simpl in Hsum. destruct (filter notna year); [contradiction | discriminate].
  - eexists. reflexivity.
Qed.

(** The word counts that the Cleaner derives are numbers. *)
Lemma word_counts_numbers (a : Series) :
  forallb is_number (map Spec.word_count_of a) = true.
Proof.
  induction a as [|v a IH]; simpl; [reflexivity|].
  rewrite IH. destruct v; reflexivity.
Qed.

Lemma has_column_cleaned (c : string) (t : DataFrame) :
  has_column c (Spec.cleaned parse_datetime epoch_datetime t) =
  has_column c t || existsb (String.eqb c) (Spec.derived_columns t).
Proof.
  unfold has_column. rewrite columns_cleaned, existsb_app. reflexivity.
Qed.

(** On a table that the Cleaner has cleaned, the figures above the tabs
    are shown, unless the input brought word counts of its own. *)
Lemma metrics_returns (t : DataFrame) (m : list bool) :
  (has_column "abstract_word_count" t = true -> has_column "abstract" t = true) ->
  Dashboard.metrics mean_other
    (loc m (Spec.cleaned parse_datetime epoch_datetime t)) = Returned tt.
Proof.
  intros Hown. unfold Dashboard.metrics. rewrite has_column_loc.
  destruct (has_column "abstract_word_count"
              (Spec.cleaned parse_datetime epoch_datetime t)) eqn:H;
    [|reflexivity].
  assert (Ha : has_column "abstract" t = true).
  { rewrite has_column_cleaned in H. apply orb_true_iff in H.
    destruct H as [H|H]; [apply Hown; exact H|].
    unfold Spec.derived_columns in H. rewrite existsb_app in H.
    destruct (has_column "abstract" t); [reflexivity|].
    simpl in H. rewrite orb_false_r in H.
    destruct (has_column "publish_time" t && negb (has_column "year" t));
      simpl in H; discriminate H. }
  destruct (has_column_getitem _ _ Ha) as [a Hget].
  rewrite getitem_loc,
    (getitem_cleaned_word_count parse_datetime epoch_datetime t a Hget).
  simpl.
  rewrite forallb_select; [reflexivity|]. apply word_counts_numbers.
Qed.

(** The steps of [main] up to the last tab, on a table with dates. *)
Lemma main_reaches_sample (t : DataFrame) (pt : Series)
      (user : Z * Z -> Z * Z) (top_n top_n_words : Z)
      (multiselect : list string -> list string -> list string)
      (sample_size : Z) (out : option sample) :
  getitem "publish_time" t = Returned pt ->
  main t user top_n top_n_words multiselect sample_size = Done out ->
  exists lo hi,
    clean t = Returned (Spec.cleaned parse_datetime epoch_datetime t) /\
    Dashboard.year_bounds bounds_other
      (Spec.cleaned parse_datetime epoch_datetime t) = Returned (lo, hi) /\
    (lo < hi)%Z /\
    Dashboard.data_sample
      (loc (map (Spec.year_in_range (user (lo, hi)))
              (Spec.kept t (map (Spec.year_cell parse_datetime epoch_datetime) pt)))
           (Spec.cleaned parse_datetime epoch_datetime t))
      (Some (user (lo, hi))) multiselect sample_size = Done out.
Proof.
  intros Hpt Hmain. unfold main, Dashboard.main, clean in *.
  rewrite clean_data_outcome in Hmain |- *.
  destruct (Spec.dates_agree parse_datetime epoch_datetime t);
    [|discriminate Hmain].
  destruct (Vocab.refused_abstract empty_as_object t); [discriminate Hmain|].
  cbn [lift obind] in Hmain.
  destruct (getitem_cleaned_dates parse_datetime epoch_datetime t pt Hpt)
    as [_ Hy].
  set (cleaned := Spec.cleaned parse_datetime epoch_datetime t) in *.
  set (year := Spec.kept t (map (Spec.year_cell parse_datetime epoch_datetime) pt))
    in *.
  pose proof (cleaned_year_is_year parse_datetime epoch_datetime t pt year
                Hpt Hy) as Hint.
  unfold Dashboard.sidebar in Hmain.
  rewrite (getitem_has_column _ _ _ Hy) in Hmain.
  destruct (Dashboard.year_bounds bounds_other cleaned) as [[lo hi]|e];
    [|discriminate Hmain].
  cbn [lift obind] in Hmain. unfold Dashboard.st_slider in Hmain.
  cbn [fst snd] in Hmain.
  destruct (lo <? hi)%Z eqn:Hlt; [|discriminate Hmain].
  cbn [obind] in Hmain.
  rewrite (filtered_df_years cleaned year (user (lo, hi)) Hy Hint) in Hmain.
  cbn [lift obind fst snd] in Hmain.
  exists lo, hi. split; [reflexivity|]. split; [reflexivity|].
  split; [apply Z.ltb_lt; exact Hlt|].
  destruct (Dashboard.metrics mean_other _); [|discriminate Hmain].
  cbn [lift obind] in Hmain.
  destruct (Dashboard.publications_tab ties _); [|discriminate Hmain].
  cbn [lift obind] in Hmain.
  destruct (streamlit_app.journal_counts ties _ top_n); [|discriminate Hmain].
  cbn [lift obind] in Hmain.
  destruct (streamlit_app.title_words unicode_alnum unicode_lower str_of_scalar
              _ top_n_words); [|discriminate Hmain].
  cbn [lift obind] in Hmain.
  destruct (Dashboard.word_cloud str_of_scalar generate _); [|discriminate Hmain].
  cbn [lift obind] in Hmain. exact Hmain.
Qed.

(** The last tab on a frame that has a row, for a year range. *)
Lemma data_sample_download (filtered : DataFrame) (year_range : Z * Z)
      (multiselect : list string -> list string -> list string)
      (sample_size : Z) :
  empty filtered = false ->
  incl (multiselect (columns filtered) (default_cols (columns filtered)))
       (columns filtered) ->
  exists s,
    Dashboard.data_sample filtered (Some year_range) multiselect sample_size
    = Done (Some s).
Proof.
  intros Hrows Hincl. unfold Dashboard.data_sample. rewrite Hrows. simpl.
  destruct (multiselect (columns filtered) (default_cols (columns filtered)))
    as [|c0 cols] eqn:Esel.
  - eexists. reflexivity.
  - destruct (getitems_incl (c0 :: cols) filtered Hincl) as (part & Hpart & _).
    rewrite Hpart. eexists. reflexivity.
Qed.

(** What the last tab offers for download, when it offers something. *)
Lemma data_sample_offer (filtered : DataFrame) (year_range : option (Z * Z))
      (multiselect : list string -> list string -> list string)
      (sample_size : Z) (s : sample) :
  Dashboard.data_sample filtered year_range multiselect sample_size
  = Done (Some s) ->
  exists r,
    year_range = Some r /\
    download_data s = to_csv filtered /\
    download_name s = Dashboard.file_name r.
Proof.
  unfold Dashboard.data_sample. intros H.
  destruct (negb (empty filtered)); [|discriminate H].
  destruct year_range as [r|].
  - exists r. split; [reflexivity|].
    destruct (multiselect (columns filtered) (default_cols (columns filtered))).
    + simpl in H. injection H as <-. split; reflexivity.
    + destruct (getitems (s0 :: l) filtered); simpl in H; [|discriminate H].
      injection H as <-. split; reflexivity.
  - destruct (multiselect (columns filtered) (default_cols (columns filtered))).
    + discriminate H.
    + destruct (getitems (s0 :: l) filtered); discriminate H.
Qed.

(** The rows of the cleaned table of a table of [n] rows, filtered by
    year. *)
Lemma filtered_rows (t : DataFrame) (pt : Series) (n : nat) (r : Z * Z) :
  getitem "publish_time" t = Returned pt ->
  Spec.rectangular n t = true ->
  let cleaned := Spec.cleaned parse_datetime epoch_datetime t in
  let year := Spec.kept t (map (Spec.year_cell parse_datetime epoch_datetime) pt) in
  let mask := map (Spec.year_in_range r) year in
  rows (loc mask cleaned) = select mask (rows cleaned) /\
  nrows (loc mask cleaned) = List.length (filter (Spec.year_in_range r) year).
Proof.
  intros Hpt Hrect cleaned year mask.
  destruct (getitem_cleaned_dates parse_datetime epoch_datetime t pt Hpt)
    as [_ Hy].
  fold cleaned year in Hy.
  pose proof (rectangular_cleaned_rows parse_datetime epoch_datetime n t Hrect)
    as Hk.
  fold cleaned in Hk.
  assert (Hlen : List.length mask = Vocab.kept_rows n t).
  { unfold mask. rewrite length_map.
    apply (getitem_rectangular _ _ _ _ Hk Hy). }
  split.
  - apply rows_loc. rewrite Hlen. exact Hk.
  - unfold mask. rewrite <- length_filter_map. apply nrows_rectangular.
    + apply rectangular_loc. fold mask. rewrite Hlen. exact Hk.
    + destruct cleaned; [discriminate Hy | discriminate].
Qed.

(** When [main] offers the download. *)
Lemma main_offers_download (t : DataFrame) (pt : Series) (n : nat)
      (user : Z * Z -> Z * Z) (top_n top_n_words : Z)
      (multiselect : list string -> list string -> list string)
      (sample_size : Z) (lo hi : Z) :
  getitem "publish_time" t = Returned pt ->
  Spec.rectangular n t = true ->
  let cleaned := Spec.cleaned parse_datetime epoch_datetime t in
  let year := Spec.kept t (map (Spec.year_cell parse_datetime epoch_datetime) pt) in
  let mask := map (Spec.year_in_range (user (lo, hi))) year in
  clean t = Returned cleaned ->
  Dashboard.year_bounds bounds_other cleaned = Returned (lo, hi) ->
  (lo < hi)%Z ->
  existsb (Spec.year_in_range (user (lo, hi))) year = true ->
  (forall journal,
      getitem "journal" cleaned = Returned journal ->
      existsb notna (select mask journal) = true) ->
  (0 < top_n)%Z ->
  (has_column "abstract_word_count" t = true -> has_column "abstract" t = true) ->
  (forall title,
      getitem "title" cleaned = Returned title ->
      generate (join " " (astype_str str_of_scalar
                            (fillna (Str "") (select mask title))))
      = Returned tt) ->
  incl (multiselect (columns cleaned) (default_cols (columns cleaned)))
       (columns cleaned) ->
  exists s, main t user top_n top_n_words multiselect sample_size = Done (Some s).
Proof.
  intros Hpt Hrect cleaned year mask Hclean Hbounds Hlt Hsome Hjournal Htop
    Hown Hcloud Hincl.
  destruct (getitem_cleaned_dates parse_datetime epoch_datetime t pt Hpt)
    as [_ Hy].
  fold cleaned year in Hy.
  pose proof (cleaned_year_is_year parse_datetime epoch_datetime t pt year
                Hpt Hy) as Hint.
  unfold main, Dashboard.main. fold clean. rewrite Hclean.
  cbn [lift obind]. unfold Dashboard.sidebar.
  rewrite (getitem_has_column _ _ _ Hy), Hbounds.
  cbn [lift obind]. unfold Dashboard.st_slider. cbn [fst snd].
  rewrite (proj2 (Z.ltb_lt lo hi) Hlt). cbn [obind].
  rewrite (filtered_df_years cleaned year (user (lo, hi)) Hy Hint).
  cbn [lift obind fst snd]. fold mask.
  (* the figures *)
  unfold cleaned at 1. rewrite (metrics_returns t mask Hown). fold cleaned.
  cbn [lift obind].
  (* the publications tab *)
  assert (Hfy : getitem "year" (loc mask cleaned)
                = Returned (filter (Spec.year_in_range (user (lo, hi))) year)).
  { rewrite getitem_loc, Hy. simpl. unfold mask. rewrite select_filter.
    reflexivity. }
  destruct (publications_tab_returns (loc mask cleaned) _ Hfy) as [r1 Hr1].
  { apply forallb_forall. intros v Hv. apply filter_In in Hv.
    rewrite forallb_forall in Hint. apply Hint. tauto. }
  { rewrite filter_notna_in_range. apply existsb_filter_nil. exact Hsome. }
  rewrite Hr1. cbn [lift obind].
  (* the journal tab *)
  destruct (journal_counts_returns (loc mask cleaned) top_n Htop) as [r2 Hr2].
  { intros journal Hj. rewrite getitem_loc in Hj.
    destruct (getitem "journal" cleaned) as [j|e] eqn:Ej; [|discriminate Hj].
    simpl in Hj. injection Hj as <-. apply Hjournal. reflexivity. }
  rewrite Hr2. cbn [lift obind].
  (* the title tab *)
  destruct (title_words_returns (loc mask cleaned) top_n_words) as [r3 Hr3].
  rewrite Hr3. cbn [lift obind].
  (* the word cloud *)
  assert (Hr4 : Dashboard.word_cloud str_of_scalar generate (loc mask cleaned)
                = Returned tt).
  { unfold Dashboard.word_cloud. rewrite has_column_loc.
    destruct (has_column "title" cleaned) eqn:Ht; [|reflexivity].
    destruct (has_column_getitem _ _ Ht) as [title Hget].
    rewrite getitem_loc, Hget. simpl.
    destruct (negb _); [apply Hcloud; exact Hget | reflexivity]. }
  rewrite Hr4. cbn [lift obind].
  (* the data sample *)
  apply data_sample_download.
  - unfold empty. rewrite columns_loc.
    destruct (filtered_rows t pt n (user (lo, hi)) Hpt Hrect) as [_ Hn].
    fold cleaned year mask in Hn. rewrite Hn.
    apply existsb_filter_nil in Hsome.
    destruct (filter (Spec.year_in_range (user (lo, hi))) year);
      [contradiction|].
    destruct cleaned; [discriminate Hy | reflexivity].
  - rewrite columns_loc. exact Hincl.
Qed.
End Script.

(** The claim C9 as stated fails: the export carries the derived columns,
    which the input file does not have.  On the two papers of 2020 and
    2021, with the slider and the selections untouched and the word cloud
    drawn, [main] reaches the last tab and offers a download of five
    columns for the three of the input. *)
Lemma export_columns_differ :
  columns Scenario.two_years = ["title"; "abstract"; "publish_time"] /\
  exists s,
    header (download_data s)
    = ["title"; "abstract"; "publish_time"; "year"; "abstract_word_count"] /\
    records (download_data s)
    = [[Str "Covid spread patterns"; Str "one two three";
        Date (mkTimestamp 2020 3 1 None); Num 2020; Num 3];
       [Str "Spread of the virus"; NA;
        Date (mkTimestamp 2021 7 15 None); Num 2021; Num 0]] /\
    download_name s = "cord19_filtered_2020_2021.csv" /\
    header (download_data s) <> columns Scenario.two_years /\
    forall strict_offsets empty_as_object ties bounds_other mean_other generate,
      generate "Covid spread patterns Spread of the virus" = Returned tt ->
      Dashboard.main Scenario.parse_iso_date Scenario.no_epoch strict_offsets
        empty_as_object ties Scenario.latin_alnum Scenario.latin_lower
        Scenario.no_scalar bounds_other mean_other generate
        Scenario.two_years Cases.idle 10 15 Cases.default_selection 10
      = Done (Some s).
Proof.
  split; [reflexivity|].
  eexists. split; [|split; [|split; [|split]]]; cycle 4.
  - intros strict_offsets empty_as_object ties bounds_other mean_other generate
      Hcloud.
    unfold Dashboard.main.
    replace (streamlit_app.clean_data Scenario.parse_iso_date Scenario.no_epoch
               strict_offsets empty_as_object Scenario.two_years)
      with (Returned Scenario.two_years_cleaned)
      by (destruct strict_offsets, empty_as_object; reflexivity).
    cbn [lift obind].
    change (Dashboard.sidebar bounds_other Scenario.two_years_cleaned
              (Dashboard.st_slider Cases.idle))
      with (@Done (DataFrame * option (Z * Z))
              (Scenario.two_years_cleaned, Some (2020, 2021)%Z)).
    cbn [lift obind fst snd].
    change (Dashboard.metrics mean_other Scenario.two_years_cleaned)
      with (Returned tt).
    cbn [lift obind].
    replace (Dashboard.publications_tab ties Scenario.two_years_cleaned)
      with (Returned (Some ([(Num 2020, 1); (Num 2021, 1)], Num 2020, 1, 2))).
    2:{ unfold Dashboard.publications_tab, value_counts, sort_values. cbn.
        destruct (ties (Num 2020) (Num 2021)); reflexivity. }
    cbn [lift obind].
    change (streamlit_app.journal_counts ties Scenario.two_years_cleaned 10)
      with (@Returned (option Counts) None).
    cbn [lift obind].
    destruct (title_words_returns Scenario.latin_alnum Scenario.latin_lower
                Scenario.no_scalar Scenario.two_years_cleaned 15) as [r Hr].
    rewrite Hr. cbn [lift obind].
    replace (Dashboard.word_cloud Scenario.no_scalar generate
               Scenario.two_years_cleaned)
      with (Returned tt)
      by (unfold Dashboard.word_cloud; simpl; rewrite Hcloud; reflexivity).
    cbn [lift obind]. reflexivity.
  - reflexivity.
  - reflexivity.
  - reflexivity.
  - simpl. discriminate.
Qed.

(** C9, amended.  On a table with dates, whenever [main] offers the
    download, the export reproduces the columns of the cleaned table: the
    columns of the input in their order, followed by the derived columns
    [year] and [abstract_word_count] that the input did not have.  Its
    records are the rows of the cleaned table whose year is present and
    inside the inclusive range set on the slider, in their order, and its
    name is made of the two ends of that range.  [main] offers the
    download when the cleaning returns, the years of the cleaned table are
    not all the same, a paper lies inside the range, a paper inside the
    range has a journal if there is a journal column, the input brings no
    word counts of its own, the word cloud of the titles is drawn, and the
    columns selected for the sample are columns of the table. *)
Theorem export_columns_and_rows parse_datetime epoch_datetime strict_offsets
        empty_as_object ties unicode_alnum unicode_lower str_of_scalar
        bounds_other mean_other generate
        (t : DataFrame) (pt : Series) (n : nat)
        (user : Z * Z -> Z * Z) (top_n top_n_words : Z)
        (multiselect : list string -> list string -> list string)
        (sample_size : Z) :
  getitem "publish_time" t = Returned pt ->
  Spec.rectangular n t = true ->
  (forall s,
      Dashboard.main parse_datetime epoch_datetime strict_offsets
        empty_as_object ties unicode_alnum unicode_lower str_of_scalar
        bounds_other mean_other generate
        t user top_n top_n_words multiselect sample_size = Done (Some s) ->
      exists cleaned year lo hi,
        streamlit_app.clean_data parse_datetime epoch_datetime strict_offsets
          empty_as_object t = Returned cleaned /\
        getitem "year" cleaned = Returned year /\
        Dashboard.year_bounds bounds_other cleaned = Returned (lo, hi) /\
        (lo < hi)%Z /\
        header (download_data s) = columns t ++ Spec.derived_columns t /\
        records (download_data s)
        = select (map (Spec.year_in_range (user (lo, hi))) year) (rows cleaned) /\
        download_name s = Dashboard.file_name (user (lo, hi))) /\
  (forall cleaned year lo hi,
      streamlit_app.clean_data parse_datetime epoch_datetime strict_offsets
        empty_as_object t = Returned cleaned ->
      getitem "year" cleaned = Returned year ->
      Dashboard.year_bounds bounds_other cleaned = Returned (lo, hi) ->
      (lo < hi)%Z ->
      existsb (Spec.year_in_range (user (lo, hi))) year = true ->
      (forall journal,
          getitem "journal" cleaned = Returned journal ->
          existsb notna
            (select (map (Spec.year_in_range (user (lo, hi))) year) journal)
          = true) ->
      (0 < top_n)%Z ->
      (has_column "abstract_word_count" t = true ->
       has_column "abstract" t = true) ->
      (forall title,
          getitem "title" cleaned = Returned title ->
          generate
            (join " "
               (astype_str str_of_scalar
                  (fillna (Str "")
                     (select (map (Spec.year_in_range (user (lo, hi))) year)
                        title))))
          = Returned tt) ->
      incl (multiselect (columns cleaned) (default_cols (columns cleaned)))
           (columns cleaned) ->
      exists s,
        Dashboard.main parse_datetime epoch_datetime strict_offsets
          empty_as_object ties unicode_alnum unicode_lower str_of_scalar
          bounds_other mean_other generate
          t user top_n top_n_words multiselect sample_size = Done (Some s)).
Proof.
  intros Hpt Hrect.
  destruct (getitem_cleaned_dates parse_datetime epoch_datetime t pt Hpt)
    as [_ Hy].
  split.
  - intros s Hmain.
    destruct (main_reaches_sample _ _ _ _ _ _ _ _ _ _ _ _ _ _ _ _ _ _ _ Hpt Hmain)
      as (lo & hi & Hclean & Hbounds & Hlt & Hsample).
    apply data_sample_offer in Hsample.
    destruct Hsample as (r & Hr & Hdata & Hname). injection Hr as <-.
    exists (Spec.cleaned parse_datetime epoch_datetime t),
      (Spec.kept t (map (Spec.year_cell parse_datetime epoch_datetime) pt)),
      lo, hi.
    split; [exact Hclean|]. split; [exact Hy|]. split; [exact Hbounds|].
    split; [exact Hlt|].
    rewrite Hdata. simpl.
    split; [rewrite columns_loc; apply columns_cleaned|].
    split; [|exact Hname].
    apply (filtered_rows parse_datetime epoch_datetime t pt n _ Hpt Hrect).
  - intros cleaned year lo hi Hclean Hyear Hbounds Hlt Hsome Hjournal Htop
      Hown Hcloud Hincl.
    pose proof (clean_data_Returned _ _ _ _ _ _ Hclean) as (_ & _ & Hc).
    subst cleaned. rewrite Hy in Hyear. injection Hyear as <-.
    apply (main_offers_download parse_datetime epoch_datetime strict_offsets
             empty_as_object ties unicode_alnum unicode_lower str_of_scalar
             bounds_other mean_other generate t pt n user top_n top_n_words
             multiselect sample_size lo hi); assumption.
Qed.

Lemma export_columns_and_rows_witness :
  (forall s,
      Dashboard.main Scenario.parse_iso_date Scenario.no_epoch true true
        Scenario.last_met Scenario.latin_alnum Scenario.latin_lower
        Scenario.no_scalar Cases.no_bounds Cases.no_mean Cases.cloud
        Scenario.two_years Cases.idle 10 15 Cases.default_selection 10
      = Done (Some s) ->
      exists cleaned year lo hi,
        streamlit_app.clean_data Scenario.parse_iso_date Scenario.no_epoch
          true true Scenario.two_years = Returned cleaned /\
        getitem "year" cleaned = Returned year /\
        Dashboard.year_bounds Cases.no_bounds cleaned = Returned (lo, hi) /\
        (lo < hi)%Z /\
        header (download_data s)
        = columns Scenario.two_years ++ Spec.derived_columns Scenario.two_years /\
        records (download_data s)
        = select (map (Spec.year_in_range (Cases.idle (lo, hi))) year)
            (rows cleaned) /\
        download_name s = Dashboard.file_name (Cases.idle (lo, hi))) /\
  (forall cleaned year lo hi,
      streamlit_app.clean_data Scenario.parse_iso_date Scenario.no_epoch
        true true Scenario.two_years = Returned cleaned ->
      getitem "year" cleaned = Returned year ->
      Dashboard.year_bounds Cases.no_bounds cleaned = Returned (lo, hi) ->
      (lo < hi)%Z ->
      existsb (Spec.year_in_range (Cases.idle (lo, hi))) year = true ->
      (forall journal,
          getitem "journal" cleaned = Returned journal ->
          existsb notna
            (select (map (Spec.year_in_range (Cases.idle (lo, hi))) year) journal)
          = true) ->
      (0 < 10)%Z ->
      (has_column "abstract_word_count" Scenario.two_years = true ->
       has_column "abstract" Scenario.two_years = true) ->
      (forall title,
          getitem "title" cleaned = Returned title ->
          Cases.cloud
            (join " "
               (astype_str Scenario.no_scalar
                  (fillna (Str "")
                     (select (map (Spec.year_in_range (Cases.idle (lo, hi))) year)
                        title))))
          = Returned tt) ->
      incl (Cases.default_selection (columns cleaned)
              (default_cols (columns cleaned)))
           (columns cleaned) ->
      exists s,
        Dashboard.main Scenario.parse_iso_date Scenario.no_epoch true true
          Scenario.last_met Scenario.latin_alnum Scenario.latin_lower
          Scenario.no_scalar Cases.no_bounds Cases.no_mean Cases.cloud
          Scenario.two_years Cases.idle 10 15 Cases.default_selection 10
        = Done (Some s)).
Proof.
  apply (export_columns_and_rows Scenario.parse_iso_date Scenario.no_epoch
           true true Scenario.last_met Scenario.latin_alnum Scenario.latin_lower
           Scenario.no_scalar Cases.no_bounds Cases.no_mean Cases.cloud
           Scenario.two_years [Str "2020-03-01"; Str "2021-07-15"] 2
           Cases.idle 10%Z 15%Z Cases.default_selection 10%Z);
    reflexivity.
Defined.

(** The download of the two papers, the slider untouched. *)
Example two_years_exported :
  Dashboard.main Scenario.parse_iso_date Scenario.no_epoch true true
    Scenario.last_met Scenario.latin_alnum Scenario.latin_lower
    Scenario.no_scalar Cases.no_bounds Cases.no_mean Cases.cloud
    Scenario.two_years Cases.idle 10 15 Cases.default_selection 10
  = Done (Some {| shown := Some Scenario.two_years_cleaned;
                  download_name := "cord19_filtered_2020_2021.csv";
                  download_data := to_csv Scenario.two_years_cleaned |}).
Proof. reflexivity. Qed.

(** The three papers of the first scenario have one year only: the slider
    refuses its bounds, and [main] ends before any tab. *)
Example papers_not_exported :
  Dashboard.main Scenario.parse_iso_date Scenario.no_epoch true true
    Scenario.last_met Scenario.latin_alnum Scenario.latin_lower
    Scenario.no_scalar Cases.no_bounds Cases.no_mean Cases.cloud
    Scenario.papers Cases.idle 10 15 Cases.default_selection 10
  = Failed StreamlitAPIException.
Proof. reflexivity. Qed.
